(** * ExpenseClassifierApp: the categorisation-and-advice pipeline

    A shallow embedding of [ExpenseClassifierApp.py]: the column
    normaliser of [display_file_uploader], the guard and sequencing of
    [display_table], the per-row classification loop of
    [categorize_expenses], the grouping of [display_graphs] and the
    prompt of [display_financial_advice]; then the start-up of the
    script, [set_env] and [run].

    Conventions.
    - A Python [str] is a [string]; [strip] and [lower] act on the ASCII
      range (code points above 127 are left alone).
    - A pandas [DataFrame] is kept column-major, as pandas keeps it: an
      index length and a list of labelled columns.
    - Numbers of the [amount] column, their addition, parsing and
      printing belong to numpy/pandas and are an interface ([Runtime]),
      as is the drawing of the charts. Two runtimes are given: integer
      amounts, which add exactly, and binary64 amounts, which do not.
    - The generative model is an external state machine; every request
      is recorded in the world next to what Streamlit was asked to show. *)

From Stdlib Require Import PrimFloat.
From Stdlib Require SpecFloat FloatOps.
From Stdlib Require Import List String Ascii Bool Arith Lia ZArith.
From Stdlib Require Import Permutation DecimalString Sorted OrderedTypeEx.
Import ListNotations.
Open Scope string_scope.

(** ** Python string methods used by the program *)

Module PyStr.

(** [str.isspace] on the ASCII range: TAB..CR, FS..US and the space. *)
Definition is_space (a : ascii) : bool :=
  let n := nat_of_ascii a in
  (((9 <=? n) && (n <=? 13)) || ((28 <=? n) && (n <=? 32)))%nat.

Fixpoint lstrip (s : string) : string :=
  match s with
  | EmptyString => EmptyString
  | String a s' => if is_space a then lstrip s' else s
  end.

Fixpoint rstrip (s : string) : string :=
  match s with
  | EmptyString => EmptyString
  | String a s' =>
      match rstrip s' with
      | EmptyString => if is_space a then EmptyString else String a EmptyString
      | t => String a t
      end
  end.

(** [s.strip()] *)
Definition strip (s : string) : string := rstrip (lstrip s).

Definition lower_char (a : ascii) : ascii :=
  let n := nat_of_ascii a in
  if ((65 <=? n) && (n <=? 90))%nat then ascii_of_nat (n + 32) else a.

(** [s.lower()] *)
Fixpoint lower (s : string) : string :=
  match s with
  | EmptyString => EmptyString
  | String a s' => String (lower_char a) (lower s')
  end.

(** [sep.join(l)] *)
Fixpoint join (sep : string) (l : list string) : string :=
  match l with
  | [] => ""
  | [x] => x
  | x :: rest => x ++ sep ++ join sep rest
  end.

End PyStr.

Import PyStr.

(** [col.strip().lower()], the standard form of a column label. *)
Definition standard_label (c : string) : string := lower (strip c).

(** ** Data model *)

(** A cell of a frame: a missing value (NaN), a number, or text. *)
Inductive cell (num : Type) : Type :=
| Null
| Num (x : num)
| Str (s : string).
Arguments Null {num}.
Arguments Num {num} x.
Arguments Str {num} s.

(** The exceptions the program meets. *)
Inductive exn : Type :=
| KeyError (key : string)
| ValueError (msg : string)
| TypeError (msg : string)
| ServiceFault (msg : string)    (* whatever the model call raised *)
| Unsupported (what : string).   (* pandas behaviour outside this model *)

(** [str(e)], as the f-strings of the program print an exception. *)
Definition exn_str (e : exn) : string :=
  match e with
  | KeyError key => "'" ++ key ++ "'"
  | ValueError msg | TypeError msg | ServiceFault msg | Unsupported msg => msg
  end.

(** What a Python call gives: a value, or an exception. *)
Inductive outcome (A : Type) : Type :=
| Ok (a : A)
| Raised (e : exn).
Arguments Ok {A} a.
Arguments Raised {A} e.

(** What Python, numpy, pandas and the plotting libraries provide and
    the program only uses: the numbers of a numeric column with the
    addition and the zero that [sum] starts from, the parser behind
    [pd.to_numeric], the printers, and the drawing of the two charts,
    which may refuse its data. *)
Class Runtime (num : Type) : Type := {
  nadd : num -> num -> num;
  nzero : num;
  parse_num : string -> option num;      (* to_numeric on text; None is NaN *)
  str_num : num -> string;               (* str(x) *)
  fmt_2f : num -> string;                (* format(x, ".2f") *)
  repr_num : num -> string;              (* repr(x) *)
  repr_str : string -> string;           (* repr(s) *)
  series_str : list (cell num) -> string; (* str of a sub-Series *)
  barplot : list (string * num) -> outcome unit;  (* sns.barplot(...) *)
  pie : list (string * num) -> outcome unit       (* plt.pie(...) *)
}.

(** An exact runtime: addition is associative and commutative and
    [nzero] is neutral (integers, decimals; not binary floating point). *)
Class ExactRuntime (num : Type) (RT : Runtime num) : Prop := {
  nadd_assoc : forall x y z, nadd x (nadd y z) = nadd (nadd x y) z;
  nadd_comm : forall x y, nadd x y = nadd y x;
  nadd_zero_l : forall x, nadd nzero x = x
}.

(** A [DataFrame]: the length of its index and its labelled columns. *)
Record DataFrame (num : Type) : Type := mkFrame {
  index_len : nat;
  columns : list (string * list (cell num))
}.
Arguments mkFrame {num} index_len columns.
Arguments index_len {num} d.
Arguments columns {num} d.

(** The value of [row[label]] or [row.get(label, default)]. *)
Inductive pyval (num : Type) : Type :=
| Scalar (c : cell num)
| SubSeries (cs : list (cell num)).
Arguments Scalar {num} c.
Arguments SubSeries {num} cs.

(** One answer of the generative model: [response.text], or a fault
    raised by the call or by reading the text. *)
Inductive reply : Type :=
| Text (s : string)
| Fault (msg : string).

(** [vertexai]'s [GenerativeModel]: a state machine outside the program. *)
Record GenerativeModel (svc : Type) : Type := {
  generate_content : svc -> string -> svc * reply
}.
Arguments generate_content {svc} g s prompt.

(** The application object: [self.model] and [self.budget]. *)
Record App (num svc : Type) : Type := {
  model : GenerativeModel svc;
  budget : num
}.
Arguments model {num svc} a.
Arguments budget {num svc} a.

(** What Streamlit was asked to show. *)
Inductive ui_event (num : Type) : Type :=
| StWrite (s : string)
| StTable (d : DataFrame num)
| StWarning (s : string)
| StError (s : string)
| StBarChart (summary : list (string * num))
| StPieChart (summary : list (string * num)).
Arguments StWrite {num} s.
Arguments StTable {num} d.
Arguments StWarning {num} s.
Arguments StError {num} s.
Arguments StBarChart {num} summary.
Arguments StPieChart {num} summary.

(** The world around the program: the state of the model service, the
    prompts sent to it so far, the screen, and the session store. *)
Record World (num svc : Type) : Type := mkWorld {
  service : svc;
  requests : list string;
  screen : list (ui_event num);
  uploaded_data : option (DataFrame num)
}.
Arguments mkWorld {num svc} service requests screen uploaded_data.
Arguments service {num svc} w.
Arguments requests {num svc} w.
Arguments screen {num svc} w.
Arguments uploaded_data {num svc} w.

(** ** Effects: world passing with exceptions *)

(** Computations that touch nothing but may raise. *)
Definition obind {A B} (m : outcome A) (k : A -> outcome B) : outcome B :=
  match m with
  | Ok a => k a
  | Raised e => Raised e
  end.

(** Computations in a world [W]: the model service and the screen. *)
Definition M (W A : Type) : Type := W -> outcome A * W.

Definition lift {W A} (m : outcome A) : M W A := fun w => (m, w).

Definition ret {W A} (a : A) : M W A := fun w => (Ok a, w).

Definition bind {W A B} (m : M W A) (k : A -> M W B) : M W B :=
  fun w => match m w with
           | (Ok a, w') => k a w'
           | (Raised e, w') => (Raised e, w')
           end.

(** [try: m except Exception as e: h e] *)
Definition try_except {W A} (m : M W A) (h : exn -> M W A) : M W A :=
  fun w => match m w with
           | (Ok a, w') => (Ok a, w')
           | (Raised e, w') => h e w'
           end.

Declare Scope py_scope.
Delimit Scope py_scope with py.
Notation "x <- m ;; k" := (bind m (fun x => k))
  (at level 61, m at next level, right associativity) : py_scope.
Notation "m ;;; k" := (bind m (fun _ => k))
  (at level 61, right associativity) : py_scope.
Notation "x <~ m ;; k" := (obind m (fun x => k))
  (at level 61, m at next level, right associativity) : py_scope.

(** ** The program *)

Section Pipeline.

Context {num : Type} {RT : Runtime num}.
Variable svc : Type.

Abbreviation Frame := (DataFrame num).
Abbreviation Row := (list (string * cell num)).
Abbreviation Summary := (list (string * num)).
Abbreviation Py := (M (World num svc)).

Open Scope py_scope.

(** *** Streamlit and the model service *)

Definition show (ev : ui_event num) : Py unit :=
  fun w => (Ok tt, mkWorld (service w) (requests w) (screen w ++ [ev])
                           (uploaded_data w)).

Definition st_write (s : string) : Py unit := show (StWrite s).
Definition st_warning (s : string) : Py unit := show (StWarning s).
Definition st_error (s : string) : Py unit := show (StError s).

Definition store_upload (d : Frame) : Py unit :=
  fun w => (Ok tt, mkWorld (service w) (requests w) (screen w) (Some d)).

(** The world after [prompt] went out and left the service in [s']. *)
Definition sent (w : World num svc) (s' : svc) (prompt : string)
  : World num svc :=
  mkWorld s' (requests w ++ [prompt]) (screen w) (uploaded_data w).

(** [self.model.generate_content(prompt).text]: one request goes out;
    the answer is the text or an exception. *)
Definition generate_text (g : GenerativeModel svc) (prompt : string)
  : Py string :=
  fun w =>
    let (s', r) := generate_content g (service w) prompt in
    match r with
    | Text t => (Ok t, sent w s' prompt)
    | Fault msg => (Raised (ServiceFault msg), sent w s' prompt)
    end.

(** *** Frames *)

Definition labels (d : Frame) : list string := map fst (columns d).

(** [data.columns = data.columns.str.strip().str.lower()] *)
Definition standardize_columns (d : Frame) : Frame :=
  mkFrame (index_len d)
          (map (fun col => (standard_label (fst col), snd col)) (columns d)).

(** [dict.get(key, default)] on a literal dict. *)
Fixpoint dict_get (d : list (string * string)) (key default : string)
  : string :=
  match d with
  | [] => default
  | (k, v) :: rest => if String.eqb k key then v else dict_get rest key default
  end.

Definition column_mapping : list (string * string) :=
  [("date", "Date"); ("description", "Description"); ("amount", "Amount")].

(** [data.rename(columns=f, inplace=True)] *)
Definition rename_columns (f : string -> string) (d : Frame) : Frame :=
  mkFrame (index_len d) (map (fun col => (f (fst col), snd col)) (columns d)).

(** The two renaming lines of [display_file_uploader]. *)
Definition normalize_upload (d : Frame) : Frame :=
  rename_columns (fun col => dict_get column_mapping col col)
                 (standardize_columns d).

(** [display_file_uploader]: [uploaded_file] is [None], or what
    [pd.read_csv] made of the file. *)
Definition display_file_uploader (uploaded_file : option (outcome Frame))
  : Py unit :=
  match uploaded_file with
  | None => ret tt
  | Some (Ok d) => store_upload (normalize_upload d)
  | Some (Raised e) =>
      st_error ("An error occurred while reading the file: " ++ exn_str e)
  end.

Definition isnull (c : cell num) : bool :=
  match c with Null => true | _ => false end.

(** [data.empty]: some axis has length 0. *)
Definition empty (d : Frame) : bool :=
  (index_len d =? 0)%nat || (List.length (columns d) =? 0)%nat.

(** [data.isnull().all().all()] *)
Definition all_null (d : Frame) : bool :=
  forallb (fun col => forallb isnull (snd col)) (columns d).

(** The [i]-th row, as the Series that [iterrows] yields. *)
Definition row_at (d : Frame) (i : nat) : Row :=
  map (fun col => (fst col, nth i (snd col) Null)) (columns d).

Definition iterrows (d : Frame) : list Row :=
  map (row_at d) (seq 0 (index_len d)).

Definition row_lookup (row : Row) (label : string) : list (cell num) :=
  map snd (filter (fun p => String.eqb (fst p) label) row).

(** [row[label]]: a scalar, a sub-Series when the label is repeated,
    [KeyError] when it is absent. *)
Definition row_getitem (row : Row) (label : string) : outcome (pyval num) :=
  match row_lookup row label with
  | [] => Raised (KeyError label)
  | [c] => Ok (Scalar c)
  | cs => Ok (SubSeries cs)
  end.

(** [row.get(label, default)] *)
Definition row_get (row : Row) (label : string) (default : pyval num)
  : pyval num :=
  match row_lookup row label with
  | [] => default
  | [c] => Scalar c
  | cs => SubSeries cs
  end.

(** [if pd.notnull(v)]: the truth value of a Series is ambiguous. *)
Definition if_notnull (v : pyval num) : outcome bool :=
  match v with
  | Scalar c => Ok (negb (isnull c))
  | SubSeries _ =>
      Raised (ValueError "The truth value of a Series is ambiguous. Use a.empty, a.bool(), a.item(), a.any() or a.all().")
  end.

Definition cell_str (c : cell num) : string :=
  match c with
  | Null => "nan"
  | Num x => str_num x
  | Str s => s
  end.

(** [f"{v}"] *)
Definition py_format (v : pyval num) : string :=
  match v with
  | Scalar c => cell_str c
  | SubSeries cs => series_str cs
  end.

(** [data[label]] where a one-dimensional column is needed: [KeyError]
    when the label is absent, [ambiguous] when it is repeated. *)
Definition getitem_series (d : Frame) (label : string) (ambiguous : exn)
  : outcome (list (cell num)) :=
  match filter (fun col => String.eqb (fst col) label) (columns d) with
  | [] => Raised (KeyError label)
  | [col] => Ok (snd col)
  | _ => Raised ambiguous
  end.

(** The frame after [data[label] = values]: every column of that label
    is replaced, a new column is appended when there is none. *)
Definition set_column (d : Frame) (label : string) (values : list (cell num))
  : Frame :=
  if existsb (String.eqb label) (labels d) then
    mkFrame (index_len d)
      (map (fun col => if String.eqb (fst col) label
                       then (label, values) else col) (columns d))
  else
    mkFrame (index_len d) (columns d ++ [(label, values)]).

(** [data[label] = values], which checks the length of [values]. *)
Definition setitem (d : Frame) (label : string) (values : list (cell num))
  : outcome Frame :=
  if (List.length values =? index_len d)%nat then
    Ok (set_column d label values)
  else
    Raised (ValueError "Length of values does not match length of index").

(** *** [categorize_expenses] *)

Definition classification_prompt (row : Row) (amount : pyval num) : string :=
  "Categorize the following expense: Description: '"
    ++ py_format (row_get row "description" (Scalar (Str "")))
    ++ "', Amount: '" ++ py_format amount ++ "'".

(** The body of the loop: the category of one row. *)
Definition categorize_row (self : App num svc) (row : Row) : Py string :=
  amount <- lift (row_getitem row "amount") ;;
  present <- lift (if_notnull amount) ;;
  if present then
    try_except
      (text <- generate_text (model self) (classification_prompt row amount) ;;
       ret (strip text))
      (fun e => ret ("Error: " ++ exn_str e))
  else
    ret "Uncategorized".

(** [for _, row in data.iterrows(): ... categories.append(category)] *)
Fixpoint for_rows (self : App num svc) (rows : list Row)
         (categories : list string) : Py (list string) :=
  match rows with
  | [] => ret categories
  | row :: rest =>
      category <- categorize_row self row ;;
      for_rows self rest (categories ++ [category])
  end.

Definition categorize_expenses (self : App num svc) (data : Frame)
  : Py Frame :=
  let data := standardize_columns data in
  categories <- for_rows self (iterrows data) [] ;;
  lift (setitem data "category" (map Str categories)).

(** *** Aggregation: [groupby(...).sum()] and [Series.sum()] *)

(** [pd.to_numeric(c, errors='coerce')] on one cell; [None] is NaN. *)
Definition coerce (c : cell num) : option num :=
  match c with
  | Null => None
  | Num x => Some x
  | Str s => parse_num s
  end.

(** [pd.to_numeric(column, errors='coerce')]: a numeric Series. *)
Definition to_numeric (cs : list (cell num)) : list (option num) :=
  map coerce cs.

(** A numeric Series stored as a column of a frame. *)
Definition numeric_cell (v : option num) : cell num :=
  match v with
  | Some x => Num x
  | None => Null
  end.

(** The grouping keys of a column of text; a missing key is [None]. *)
Fixpoint text_keys (cs : list (cell num)) : option (list (option string)) :=
  match cs with
  | [] => Some []
  | c :: rest =>
      match c, text_keys rest with
      | Str s, Some ks => Some (Some s :: ks)
      | Null, Some ks => Some (None :: ks)
      | _, _ => None
      end
  end.

(** The values of a numeric column; NaN is [None]. *)
Fixpoint numbers (cs : list (cell num)) : option (list (option num)) :=
  match cs with
  | [] => Some []
  | c :: rest =>
      match c, numbers rest with
      | Num x, Some vs => Some (Some x :: vs)
      | Null, Some vs => Some (None :: vs)
      | _, _ => None
      end
  end.

Definition supported {A} (o : option A) (what : string) : outcome A :=
  match o with
  | Some a => Ok a
  | None => Raised (Unsupported what)
  end.

(** [s += v] unless [v] is NaN. *)
Definition add_value (s : num) (v : option num) : num :=
  match v with
  | Some x => nadd s x
  | None => s
  end.

(** [sumx[key] += v], NaN skipped; a key not seen before starts at 0. *)
Fixpoint add_to_group (acc : Summary) (key : string) (v : option num)
  : Summary :=
  match acc with
  | [] => [(key, add_value nzero v)]
  | (k, s) :: rest =>
      if String.eqb k key
      then (k, add_value s v) :: rest
      else (k, s) :: add_to_group rest key v
  end.

(** One pass over the rows; rows without a key are dropped. *)
Fixpoint group_sums (acc : Summary) (rows : list (option string * option num))
  : Summary :=
  match rows with
  | [] => acc
  | (Some key, v) :: rest => group_sums (add_to_group acc key v) rest
  | (None, _) :: rest => group_sums acc rest
  end.

Fixpoint insert_key (e : string * num) (l : Summary) : Summary :=
  match l with
  | [] => [e]
  | x :: rest =>
      if String.leb (fst e) (fst x) then e :: l else x :: insert_key e rest
  end.

(** The groups come out sorted by key ([sort=True]). *)
Definition sort_index (l : Summary) : Summary := fold_right insert_key [] l.

(** [data.groupby(key)[col].sum()] *)
Definition groupby_sum (data : Frame) (key col : string) : outcome Summary :=
  keys <~ getitem_series data key
            (ValueError ("Grouper for '" ++ key ++ "' not 1-dimensional")) ;;
  values <~ getitem_series data col
              (Unsupported "sum of a repeated column") ;;
  ks <~ supported (text_keys keys) "group keys that are not text" ;;
  vs <~ supported (numbers values) "sum of an object column" ;;
  Ok (sort_index (group_sums [] (combine ks vs))).

(** [Series.sum()], NaN skipped. *)
Definition series_sum (vs : list (option num)) : num :=
  fold_left add_value vs nzero.

(** *** [display_graphs] *)

(** Its first two lines. The frame is changed in place, so the changed
    frame is handed back with the summary. Of the grouped sums only the
    [amount] column is kept: it is all the charts read. *)
Definition aggregate (data : Frame) : outcome (Frame * Summary) :=
  amount <~ getitem_series data "amount"
              (TypeError "arg must be a list, tuple, 1-d array, or Series") ;;
  data <~ setitem data "amount" (map numeric_cell (to_numeric amount)) ;;
  categorized_data <~ groupby_sum data "category" "amount" ;;
  Ok (data, categorized_data).

(** The charts are drawn from the summary and handed to [st.pyplot];
    the changed frame is what the caller is left with. *)
Definition display_graphs (data : Frame) : Py Frame :=
  r <- lift (aggregate data) ;;
  st_write "### Bar Chart of Expenses by Category" ;;;
  lift (barplot (snd r)) ;;;
  show (StBarChart (snd r)) ;;;
  st_write "### Pie Chart of Expenses by Category" ;;;
  lift (pie (snd r)) ;;;
  show (StPieChart (snd r)) ;;;
  ret (fst r).

(** *** [display_financial_advice] *)

Definition nl : string := String (ascii_of_nat 10) "".

(** [f"{d}"] of a dict. *)
Definition dict_repr (d : Summary) : string :=
  "{" ++ join ", " (map (fun kv => repr_str (fst kv) ++ ": " ++ repr_num (snd kv)) d)
      ++ "}".

Definition advice_prompt (budget total_expenditure : num)
           (expense_breakdown : Summary) : string :=
  "You are a financial advisor. Based on the following financial data, provide highly specific financial advice:" ++ nl
  ++ "Budget: $" ++ fmt_2f budget ++ nl
  ++ "Total Expenditure: $" ++ fmt_2f total_expenditure ++ nl
  ++ "Expense Breakdown: " ++ dict_repr expense_breakdown ++ nl
  ++ "Provide unique advice that takes into account the user's spending patterns, and provide actionable steps that are tailored to reducing spending where necessary and optimizing their budget.".

Definition display_financial_advice (self : App num svc) (data : Frame)
  : Py unit :=
  let data := standardize_columns data in
  let budget := budget self in
  amount <- lift (getitem_series data "amount"
              (TypeError "arg must be a list, tuple, 1-d array, or Series")) ;;
  let total_expenditure := series_sum (to_numeric amount) in
  expense_breakdown <- lift (groupby_sum data "category" "amount") ;;
  let prompt := advice_prompt budget total_expenditure expense_breakdown in
  try_except
    (text <- generate_text (model self) prompt ;;
     let detailed_advice := strip text in
     st_write "### Personalized Financial Advice" ;;;
     st_write detailed_advice)
    (fun e => st_error ("An error occurred while generating financial advice: "
                          ++ exn_str e)).

(** *** [display_table] *)

(** The guard of the "Categorize Expenses" button. *)
Definition accepted (d : Frame) : bool :=
  negb (empty d) && negb (all_null d).

(** The body of [if st.button("Categorize Expenses"):]. *)
Definition categorize_clicked (self : App num svc) (edited_data : Frame)
  : Py unit :=
  if accepted edited_data then
    try_except
      (categorized_data <- categorize_expenses self edited_data ;;
       st_write "### Categorized Data:" ;;;
       show (StTable categorized_data) ;;;
       categorized_data <- display_graphs categorized_data ;;
       display_financial_advice self categorized_data)
      (fun e => st_error ("An error occurred: " ++ exn_str e))
  else
    st_warning "Please enter valid financial data to categorize.".

(** The table put on the screen: the upload of the session, or an
    empty table to fill in. *)
Definition table_to_edit : Py Frame :=
  fun w =>
    match uploaded_data w with
    | Some data => ret data w
    | None =>
        (st_write "Please enter your spending data below:" ;;;
         ret (mkFrame 0 [("Date", []); ("Description", []); ("Amount", [])])) w
    end.

(** [data_editor] is what the user does to the table on the screen;
    [clicked] is the state of the "Categorize Expenses" button. *)
Definition display_table (self : App num svc)
           (data_editor : Frame -> Frame) (clicked : bool) : Py unit :=
  data <- table_to_edit ;;
  let edited_data := data_editor data in
  if clicked then categorize_clicked self edited_data else ret tt.

(** *** Vocabulary of the statements *)

(** How many columns carry [label]. *)
Definition label_count (d : Frame) (label : string) : nat :=
  List.length (filter (fun col => String.eqb (fst col) label) (columns d)).

(** The one column labelled [label], when there is exactly one. *)
Definition column_of (d : Frame) (label : string) : option (list (cell num)) :=
  match filter (fun col => String.eqb (fst col) label) (columns d) with
  | [col] => Some (snd col)
  | _ => None
  end.

(** Every column is as long as the index. *)
Definition well_formed (d : Frame) : bool :=
  forallb (fun col => (List.length (snd col) =? index_len d)%nat) (columns d).

(** The life of one row in the loop of [categorize_expenses]: it is
    left uncategorized without a request, or one request goes out and
    its answer or its failure becomes the category. *)
Inductive classified (self : App num svc) (row : Row)
  : World num svc -> string -> World num svc -> Prop :=
| row_uncategorized w :
    row_lookup row "amount" = [Null] ->
    classified self row w "Uncategorized" w
| row_success w c s' t :
    row_lookup row "amount" = [c] -> isnull c = false ->
    generate_content (model self) (service w)
      (classification_prompt row (Scalar c)) = (s', Text t) ->
    classified self row w (strip t)
               (sent w s' (classification_prompt row (Scalar c)))
| row_service_error w c s' cause :
    row_lookup row "amount" = [c] -> isnull c = false ->
    generate_content (model self) (service w)
      (classification_prompt row (Scalar c)) = (s', Fault cause) ->
    classified self row w ("Error: " ++ cause)
               (sent w s' (classification_prompt row (Scalar c))).

(** The rows of a table classified one after the other. *)
Inductive run_rows (self : App num svc)
  : list Row -> World num svc -> list string -> World num svc -> Prop :=
| run_done w : run_rows self [] w [] w
| run_step row rest w category w1 categories w2 :
    classified self row w category w1 ->
    run_rows self rest w1 categories w2 ->
    run_rows self (row :: rest) w (category :: categories) w2.

(** The sum filed under [key] in a summary. *)
Fixpoint summary_get (s : Summary) (key : string) : option num :=
  match s with
  | [] => None
  | (k, x) :: rest => if String.eqb k key then Some x else summary_get rest key
  end.

(** What one pass over the rows adds up for [key], starting from [s]. *)
Definition group_fold (key : string) (rows : list (option string * option num))
           (s : num) : num :=
  fold_left (fun s r => match fst r with
                        | Some k => if String.eqb k key
                                    then add_value s (snd r) else s
                        | None => s
                        end) rows s.

Definition value_or_zero (v : option num) : num :=
  match v with
  | Some x => x
  | None => nzero
  end.

(** The sum of a list of numbers, as the specification speaks of it. *)
Definition sum_list (l : list num) : num := fold_right nadd nzero l.

(** An amount "coerced to numeric, unparsable treated as 0", read off
    the cell: a number is itself, a text is the number it spells or 0,
    a missing value is 0. *)
Definition amount_as_number (c : cell num) : num :=
  match c with
  | Num x => x
  | Str s => match parse_num s with
             | Some x => x
             | None => nzero
             end
  | Null => nzero
  end.



End Pipeline.

Arguments show {num svc} ev w.
Arguments st_write {num svc} s w.
Arguments st_warning {num svc} s w.
Arguments st_error {num svc} s w.
Arguments store_upload {num svc} d w.
Arguments sent {num svc} w s' prompt.
Arguments generate_text {num svc} g prompt w.
Arguments display_file_uploader {num svc} uploaded_file w.
Arguments categorize_row {num RT svc} self row w.
Arguments for_rows {num RT svc} self rows categories w.
Arguments categorize_expenses {num RT svc} self data w.
Arguments display_graphs {num RT svc} data w.
Arguments display_financial_advice {num RT svc} self data w.
Arguments categorize_clicked {num RT svc} self edited_data w.
Arguments table_to_edit {num svc} w.
Arguments display_table {num RT svc} self data_editor clicked w.
Arguments classified {num RT svc} self row _ _ _.
Arguments run_rows {num RT svc} self _ _ _ _.

(** ** A concrete runtime: integer amounts

    Used to run the program on concrete tables. Amounts are integers
    (an [int64] column far from overflow), texts are parsed as signed
    decimal numerals. The pie chart refuses what matplotlib's refuses: a
    negative wedge, and wedges that add up to nothing. *)

Module IntAmounts.

Definition str_Z (z : Z) : string := NilZero.string_of_int (Z.to_int z).

Definition parse_Z (s : string) : option Z :=
  option_map Z.of_int (NilZero.int_of_string s).

Definition quote (s : string) : string := "'" ++ s ++ "'".

#[export] Instance runtime : Runtime Z := {|
  nadd := Z.add;
  nzero := 0%Z;
  parse_num := parse_Z;
  str_num := str_Z;
  fmt_2f := fun z => str_Z z ++ ".00";
  repr_num := str_Z;
  repr_str := quote;
  series_str := fun cs => "Series";
  barplot := fun _ => Ok tt;
  pie := fun s =>
    if existsb (fun kv => (snd kv <? 0)%Z) s
    then Raised (ValueError "Wedge sizes 'x' must be non negative values")
    else if (fold_right Z.add 0%Z (map snd s) =? 0)%Z
         then Raised (ValueError "cannot convert float NaN to integer")
         else Ok tt
|}.

(** A model that answers every prompt with the same text. *)
Definition constant_model (answer : string) : GenerativeModel unit :=
  {| generate_content := fun s _ => (s, Text answer) |}.

(** A model that fails on its [n]-th request (counting from 0) and
    answers every other one with [answer]. *)
Definition failing_model (n : nat) (answer cause : string)
  : GenerativeModel nat :=
  {| generate_content := fun k _ =>
       (S k, if (k =? n)%nat then Fault cause else Text answer) |}.

Definition app {svc} (g : GenerativeModel svc) (b : Z) : App Z svc :=
  {| model := g; budget := b |}.

Definition world0 {svc} (s : svc) : World Z svc := mkWorld s [] [] None.

(** A table with a price and no amount. *)
Definition price_table : DataFrame Z :=
  mkFrame 1 [("Price", [Num 5%Z])].

(** One expense whose amount is the text [abc]. *)
Definition abc_table : DataFrame Z :=
  mkFrame 1 [("Description", [Str "Rent"]); ("Amount", [Str "abc"])].

(** Three expenses: a number, a text that is no number, a missing amount. *)
Definition sample_table : DataFrame Z :=
  mkFrame 3 [(" Date ", [Str "2024-01-01"; Str "2024-01-02"; Null]);
             ("Description", [Str "Coffee"; Str "Rent"; Str "Gift"]);
             ("AMOUNT", [Num 4%Z; Str "abc"; Null])].

(** [abc_table] once categorized as ["Food"]. *)
Definition abc_categorized : DataFrame Z :=
  mkFrame 1 [("description", [Str "Rent"]); ("amount", [Str "abc"]);
             ("category", [Str "Food"])].


(** A table with a column the normaliser has no canonical name for. *)
Definition merchant_table : DataFrame Z :=
  mkFrame 1 [("Merchant", [Str "Cafe"]); (" AMOUNT ", [Num 4%Z])].

(** A categorized table: four expenses in two categories. *)
Definition ledger : DataFrame Z :=
  mkFrame 4 [("description", [Str "Coffee"; Str "Rent"; Str "Lunch"; Str "Tip"]);
             ("amount", [Num 4%Z; Num 1200%Z; Str "6"; Str "abc"]);
             ("category", [Str "Food"; Str "Housing"; Str "Food"; Str "Food"])].

(** [ledger] as the aggregator leaves it. *)
Definition ledger_numeric : DataFrame Z :=
  mkFrame 4 [("description", [Str "Coffee"; Str "Rent"; Str "Lunch"; Str "Tip"]);
             ("amount", [Num 4%Z; Num 1200%Z; Num 6%Z; Null]);
             ("category", [Str "Food"; Str "Housing"; Str "Food"; Str "Food"])].

End IntAmounts.

(** ** A second runtime: binary64 amounts

    The numbers of a [float64] column. Addition is the addition of the
    machine, rounded to nearest; texts are read as the nearest number
    when they spell a decimal numeral (sign, digits, fraction, exponent;
    other spellings, [inf] among them, are read as unparsable);
    printing gives the shortest numeral that reads back, as [repr] does.
    The pie chart refuses a negative wedge, and wedges without a
    positive finite sum. *)

Module Binary64.


(** The binary64 number nearest to [n * 10 ^ k], for [0 <= n]; a tie
    goes to the even neighbour. *)
Definition nearest (n k : Z) : float :=
  if (0 <=? k)%Z then
    FloatOps.SF2Prim
      (SpecFloat.binary_normalize FloatOps.prec FloatOps.emax
         (n * 10 ^ k) 0 false)
  else
    let d := (10 ^ (- k))%Z in
    let s := (Z.log2 d + 66)%Z in
    let q := (n * 2 ^ s / d)%Z in
    let sticky := if (n * 2 ^ s mod d =? 0)%Z then 0%Z else 1%Z in
    FloatOps.SF2Prim
      (SpecFloat.binary_normalize FloatOps.prec FloatOps.emax
         (2 * q + sticky) (- (s + 1)) false).

Definition digit (a : ascii) : option Z :=
  let n := nat_of_ascii a in
  if ((48 <=? n) && (n <=? 57))%nat then Some (Z.of_nat (n - 48)) else None.

(** The digits [s] starts with: their value continued from [acc], how
    many they are after [count], and the rest of [s]. *)
Fixpoint digits (s : string) (acc count : Z) : Z * Z * string :=
  match s with
  | EmptyString => (acc, count, s)
  | String a s' =>
      match digit a with
      | Some d => digits s' (10 * acc + d) (count + 1)
      | None => (acc, count, s)
      end
  end.

Definition signed (s : string) : bool * string :=
  match s with
  | String "-" r => (true, r)
  | String "+" r => (false, r)
  | _ => (false, s)
  end.

(** A decimal numeral: sign, digits, fraction, exponent. *)
Definition parse (s : string) : option float :=
  let (neg, s1) := signed s in
  let '(i, ni, s2) := digits s1 0 0 in
  let '(m, nf, s3) :=
    match s2 with
    | String "." r => digits r i 0
    | _ => (i, 0%Z, s2)
    end in
  if (ni + nf =? 0)%Z then None
  else
    let exponent :=
      match s3 with
      | EmptyString => Some 0%Z
      | String c r =>
          if (Ascii.eqb c "e" || Ascii.eqb c "E")%bool then
            let (eneg, r1) := signed r in
            let '(e, ne, r2) := digits r1 0 0 in
            match r2 with
            | EmptyString =>
                if (ne =? 0)%Z then None
                else Some (if eneg then (- e)%Z else e)
            | _ => None
            end
          else None
      end in
    match exponent with
    | Some e =>
        let x := nearest m (e - nf) in
        Some (if neg then PrimFloat.opp x else x)
    | None => None
    end.

(** [m * 2 ^ e * 10 ^ j] as a fraction. *)
Definition scaled (m : positive) (e j : Z) : Z * Z :=
  ((Zpos m * 2 ^ Z.max e 0 * 10 ^ Z.max j 0)%Z,
   (2 ^ Z.max (- e) 0 * 10 ^ Z.max (- j) 0)%Z).

(** The integer nearest to [num / den], a tie going to the even one. *)
Definition round_div (num den : Z) : Z :=
  let q := (num / den)%Z in
  match (2 * (num mod den) ?= den)%Z with
  | Lt => q
  | Gt => (q + 1)%Z
  | Eq => if Z.even q then q else (q + 1)%Z
  end.

Fixpoint zeros (n : nat) : string :=
  match n with
  | O => ""
  | S n' => String "0" (zeros n')
  end.

Definition signed_text (neg : bool) (s : string) : string :=
  if neg then String "-" s else s.

(** [format(x, '.2f')] *)
Definition fixed2 (x : float) : string :=
  match FloatOps.Prim2SF x with
  | SpecFloat.S754_nan => "nan"
  | SpecFloat.S754_infinity neg => signed_text neg "inf"
  | SpecFloat.S754_zero neg => signed_text neg "0.00"
  | SpecFloat.S754_finite neg m e =>
      let (num, den) := scaled m e 2 in
      let n := round_div num den in
      let cents := IntAmounts.str_Z (n mod 100) in
      signed_text neg
        (IntAmounts.str_Z (n / 100) ++ "."
           ++ zeros (2 - String.length cents) ++ cents)
  end.

(** The largest [p] with [10 ^ p <= m * 2 ^ e]. *)
Definition magnitude (m : positive) (e : Z) : Z :=
  let p0 := ((Z.log2 (Zpos m) + e) * 30103 / 100000)%Z in
  let reaches p := let (num, den) := scaled m e (- p) in (den <=? num)%Z in
  if reaches (p0 + 1)%Z then (p0 + 1)%Z
  else if reaches p0 then p0 else (p0 - 1)%Z.

(** The decimals of [n] digits next to [m * 2 ^ e], the nearer first,
    each with its power of ten. *)
Definition neighbours (m : positive) (e : Z) (n : Z) : list Z * Z :=
  let k := (magnitude m e - n + 1)%Z in
  let (num, den) := scaled m e (- k) in
  let lo := (num / den)%Z in
  let r := (num mod den)%Z in
  (if (r =? 0)%Z then [lo]
   else match (2 * r ?= den)%Z with
        | Lt => [lo; (lo + 1)%Z]
        | Gt => [(lo + 1)%Z; lo]
        | Eq => if Z.even lo then [lo; (lo + 1)%Z] else [(lo + 1)%Z; lo]
        end, k).

(** The shortest decimal that reads back as [x], the nearest of them:
    its digits and its power of ten. [x] is [m * 2 ^ e]. *)
Fixpoint shortest (x : float) (m : positive) (e : Z) (n : Z) (fuel : nat)
  : Z * Z :=
  let (cands, k) := neighbours m e n in
  match find (fun c => PrimFloat.eqb (nearest c k) x) cands, fuel with
  | Some c, _ => (c, k)
  | None, S fuel' => shortest x m e (n + 1) fuel'
  | None, O => (hd 0%Z cands, k)
  end.

(** Drop the zeros a numeral ends with. *)
Fixpoint trim_zeros (c k : Z) (fuel : nat) : Z * Z :=
  match fuel with
  | O => (c, k)
  | S fuel' =>
      if ((c mod 10 =? 0) && negb (c =? 0))%Z
      then trim_zeros (c / 10) (k + 1) fuel'
      else (c, k)
  end.

Fixpoint take (n : nat) (s : string) : string :=
  match n, s with
  | S n', String a s' => String a (take n' s')
  | _, _ => ""
  end.

Fixpoint drop (n : nat) (s : string) : string :=
  match n, s with
  | S n', String a s' => drop n' s'
  | _, _ => s
  end.

(** [repr(x)] of a positive finite [x = m * 2 ^ e]. *)
Definition repr_finite (x : float) (m : positive) (e : Z) : string :=
  let (c0, k0) := shortest x m e 1 17 in
  let (c, k) := trim_zeros c0 k0 400 in
  let ds := IntAmounts.str_Z c in
  let len := Z.of_nat (String.length ds) in
  let decpt := (len + k)%Z in
  if ((decpt <=? -4) || (16 <? decpt))%Z then
    let ex := (decpt - 1)%Z in
    let et := IntAmounts.str_Z (Z.abs ex) in
    take 1 ds
      ++ (if (len =? 1)%Z then "" else "." ++ drop 1 ds)
      ++ "e" ++ (if (ex <? 0)%Z then "-" else "+")
      ++ zeros (2 - String.length et) ++ et
  else if (decpt <=? 0)%Z then
    "0." ++ zeros (Z.to_nat (- decpt)) ++ ds
  else if (len <=? decpt)%Z then
    ds ++ zeros (Z.to_nat (decpt - len)) ++ ".0"
  else
    take (Z.to_nat decpt) ds ++ "." ++ drop (Z.to_nat decpt) ds.

(** [repr(x)], which is also [str(x)]. *)
Definition repr (x : float) : string :=
  match FloatOps.Prim2SF x with
  | SpecFloat.S754_nan => "nan"
  | SpecFloat.S754_infinity neg => signed_text neg "inf"
  | SpecFloat.S754_zero neg => signed_text neg "0.0"
  | SpecFloat.S754_finite neg m e =>
      signed_text neg (repr_finite (PrimFloat.abs x) m e)
  end.


Definition pie_chart (s : list (string * float)) : outcome unit :=
  if existsb (fun kv => PrimFloat.ltb (snd kv) PrimFloat.zero) s
  then Raised (ValueError "Wedge sizes 'x' must be non negative values")
  else
    let sx := fold_left PrimFloat.add (map snd s) PrimFloat.zero in
    if PrimFloat.ltb PrimFloat.zero sx && PrimFloat.ltb sx PrimFloat.infinity
    then Ok tt
    else Raised (ValueError "cannot convert float NaN to integer").

Definition runtime : Runtime float := {|
  nadd := PrimFloat.add;
  nzero := PrimFloat.zero;
  parse_num := parse;
  str_num := repr;
  fmt_2f := fixed2;
  repr_num := repr;
  repr_str := IntAmounts.quote;
  series_str := fun cs => "Series";
  barplot := fun _ => Ok tt;
  pie := pie_chart
|}.

(** A categorized table of three expenses with cents. *)
#[warnings="-inexact-float"] Definition float_ledger : DataFrame float :=
  mkFrame 3 [("description", [Str "Tea"; Str "Bus"; Str "Pen"]);
             ("amount", [Num 0.1%float; Num 0.2%float; Num 0.3%float]);
             ("category", [Str "Food"; Str "Travel"; Str "Travel"])].

(** The same table as it is read from a file with a note in the amount
    column: the amounts are texts. *)
Definition float_ledger_text : DataFrame float :=
  mkFrame 3 [("description", [Str "Tea"; Str "Bus"; Str "Pen"]);
             ("amount", [Str "0.1"; Str "0.2"; Str "0.3"]);
             ("category", [Str "Food"; Str "Travel"; Str "Travel"])].

End Binary64.

(** ** Start-up: [set_env], [display_title], [get_budget_input], [run] *)

(** [os.environ] and [st.secrets]: names with their texts. *)
Definition mapping : Type := list (string * string).

Fixpoint env_get (m : mapping) (key : string) : option string :=
  match m with
  | [] => None
  | (k, v) :: rest => if String.eqb k key then Some v else env_get rest key
  end.

(** [m[key] = value] *)
Fixpoint env_set (m : mapping) (key value : string) : mapping :=
  match m with
  | [] => [(key, value)]
  | (k, v) :: rest =>
      if String.eqb k key then (k, value) :: rest
      else (k, v) :: env_set rest key value
  end.

(** [m[key]], which raises [KeyError] on a name that is not there. *)
Definition env_getitem (m : mapping) (key : string) : outcome string :=
  match env_get m key with
  | Some v => Ok v
  | None => Raised (KeyError key)
  end.

(** What [vertexai.init] and [GenerativeModel] are given. *)
Record vertex_config : Type := {
  project : string;
  location : string;
  model_name : string
}.

(** [os.environ[key]] *)
Definition environ_getitem (key : string) : M mapping string :=
  fun environ => (env_getitem environ key, environ).

(** [os.environ[key] = value] *)
Definition environ_setitem (key value : string) : M mapping unit :=
  fun environ => (Ok tt, env_set environ key value).

(** A top-level entry of [st.secrets]: [str] of its value, and whether
    Streamlit writes it into [os.environ] when it loads the secrets: it
    does so for texts and numbers, not for sections or booleans. *)
Inductive secret : Type :=
| Exported (text : string)
| Kept (text : string).

Definition secret_text (v : secret) : string :=
  match v with
  | Exported text | Kept text => text
  end.

(** [st.secrets] of a secrets file that is there and could be read:
    its entries, and the sentence of the [KeyError] that Streamlit
    raises for a name it does not hold. *)
Record Secrets : Type := {
  entries : list (string * secret);
  missing_key : string -> string
}.

Fixpoint secret_get (l : list (string * secret)) (key : string)
  : option secret :=
  match l with
  | [] => None
  | (k, v) :: rest => if String.eqb k key then Some v else secret_get rest key
  end.

(** What loading the secrets does to [os.environ]. *)
Fixpoint export_secrets (l : list (string * secret)) : M mapping unit :=
  match l with
  | [] => ret tt
  | (k, Exported text) :: rest =>
      (environ_setitem k text ;;; export_secrets rest)%py
  | (_, Kept _) :: rest => export_secrets rest
  end.

(** [st.secrets[key]], once the secrets are loaded. *)
Definition secrets_getitem (secrets : Secrets) (key : string)
  : outcome string :=
  match secret_get (entries secrets) key with
  | Some v => Ok (secret_text v)
  | None => Raised (KeyError (missing_key secrets key))
  end.

(** [for var in env_vars: os.environ[var] = str(st.secrets[var])] *)
Fixpoint copy_secrets (secrets : Secrets) (env_vars : list string)
  : M mapping unit :=
  match env_vars with
  | [] => ret tt
  | var :: rest =>
      (value <- lift (secrets_getitem secrets var) ;;
       environ_setitem var value ;;;
       copy_secrets secrets rest)%py
  end.

(** [set_env], up to the two calls into [vertexai]. The first reading
    of [st.secrets] loads them, which exports them; then the environment
    is changed in place and the configuration of the model is read off
    it. *)
Definition set_env (secrets : Secrets) : M mapping vertex_config :=
  (export_secrets (entries secrets) ;;;
   copy_secrets secrets ["GC_CRED"] ;;;
   cred <- environ_getitem "GC_CRED" ;;
   environ_setitem "GOOGLE_APPLICATION_CREDENTIALS" cred ;;;
   project <- environ_getitem "PROJECT_ID" ;;
   location <- environ_getitem "LOCATION" ;;
   model_name <- environ_getitem "MODEL" ;;
   ret {| project := project; location := location;
          model_name := model_name |})%py.

(** The text the last exported entry named [key] holds, if there is one. *)
Fixpoint exported_value (l : list (string * secret)) (key : string)
  : option string :=
  match l with
  | [] => None
  | (k, v) :: rest =>
      match exported_value rest key with
      | Some text => Some text
      | None =>
          match v with
          | Exported text => if String.eqb k key then Some text else None
          | Kept _ => None
          end
      end
  end.

(** A variable as the program finds it once the secrets are loaded: an
    exported secret of that name comes before the environment. *)
Definition loaded_get (secrets : Secrets) (environ : mapping) (key : string)
  : option string :=
  match exported_value (entries secrets) key with
  | Some text => Some text
  | None => env_get environ key
  end.

Section Startup.

Context {num : Type} {RT : Runtime num}.
Variable svc : Type.

(** One run of the script: the environment of the process, the titles
    put at the head of the page, and the world of the pipeline. *)
Record Process : Type := mkProcess {
  environ : mapping;
  titles : list string;
  world : World num svc
}.

Definition on_environ {A} (m : M mapping A) : M Process A :=
  fun p => let (a, environ') := m (environ p) in
           (a, mkProcess environ' (titles p) (world p)).

Definition on_world {A} (m : M (World num svc) A) : M Process A :=
  fun p => let (a, world') := m (world p) in
           (a, mkProcess (environ p) (titles p) world').

(** [st.title(s)] *)
Definition st_title (s : string) : M Process unit :=
  fun p => (Ok tt, mkProcess (environ p) (titles p ++ [s]) (world p)).

Definition display_title : M Process unit :=
  (st_title "Automated Expense Categorization" ;;;
   on_world
     (st_write "Enter your finance data into the table below or upload a CSV file, and we will provide a breakdown of your finances!"))%py.

(** [get_budget_input]: [budget_input] is what the number field holds. *)
Definition get_budget_input (budget_input : num) : M (World num svc) num :=
  (st_write "### Enter Your Monthly Budget" ;;;
   ret budget_input)%py.

(** [run]. [connect] stands for [vertexai.init] followed by
    [GenerativeModel(...)]: the model behind a configuration, or the
    exception the library raises. The other arguments are what the user
    does on the page during this run. *)
Definition run (connect : vertex_config -> outcome (GenerativeModel svc))
           (secrets : Secrets) (budget_input : num)
           (uploaded_file : option (outcome (DataFrame num)))
           (data_editor : DataFrame num -> DataFrame num) (clicked : bool)
  : M Process unit :=
  (config <- on_environ (set_env secrets) ;;
   model <- lift (connect config) ;;
   display_title ;;;
   budget <- on_world (get_budget_input budget_input) ;;
   let self := {| model := model; budget := budget |} in
   on_world (display_file_uploader uploaded_file) ;;;
   on_world (display_table self data_editor clicked))%py.

(** *** More vocabulary *)

(** The world only grew: requests and screen were appended to, the
    session store is what it was. *)
Definition extends (w w' : World num svc) : Prop :=
  (exists reqs, requests w' = requests w ++ reqs)%list
  /\ (exists evs, screen w' = screen w ++ evs)%list
  /\ uploaded_data w' = uploaded_data w.

(** The prompts of the rows that have an amount, in the order of the rows. *)
Definition row_prompts (rows : list (list (string * cell num))) : list string :=
  flat_map (fun row =>
              match row_lookup row "amount" with
              | [c] => if isnull c then []
                       else [classification_prompt row (Scalar c)]
              | _ => []
              end) rows.

(** A text of nothing but blanks. *)
Fixpoint all_space (s : string) : bool :=
  match s with
  | EmptyString => true
  | String a s' => is_space a && all_space s'
  end.

(** Every character is of the ASCII range. *)
Fixpoint ascii_only (s : string) : bool :=
  match s with
  | EmptyString => true
  | String a s' => (nat_of_ascii a <? 128)%nat && ascii_only s'
  end.

Definition starts_blank (s : string) : bool :=
  match s with
  | EmptyString => false
  | String a _ => is_space a
  end.

Fixpoint ends_blank (s : string) : bool :=
  match s with
  | EmptyString => false
  | String a EmptyString => is_space a
  | String _ s' => ends_blank s'
  end.

(** [a] is [t] without the blanks [t] starts with and ends with. *)
Definition trimmed_of (t a : string) : Prop :=
  exists pre post,
    t = pre ++ a ++ post
    /\ all_space pre = true /\ all_space post = true
    /\ starts_blank a = false /\ ends_blank a = false.

(** The keys of a summary go up, strictly. *)
Definition ascending (s : list (string * num)) : Prop :=
  StronglySorted (fun a b => String.ltb (fst a) (fst b) = true) s.

End Startup.

Arguments mkProcess {num svc} environ titles world.
Arguments environ {num svc} p.
Arguments titles {num svc} p.
Arguments world {num svc} p.
Arguments on_environ {num svc A} m p.
Arguments on_world {num svc A} m p.
Arguments st_title {num svc} s p.
Arguments display_title {num svc} p.
Arguments get_budget_input {num svc} budget_input w.
Arguments run {num RT svc} connect secrets budget_input uploaded_file
  data_editor clicked p.
Arguments extends {num svc} w w'.

(** ** More concrete tables and a stricter runtime *)

Module MoreExamples.

Import IntAmounts.

(** The integer runtime again, passed by name where an example is about
    a chart that fails: the pie chart refuses negative wedges, and
    wedges that add up to nothing, as matplotlib's does. *)
Definition strict_runtime : Runtime Z := {|
  nadd := Z.add;
  nzero := 0%Z;
  parse_num := parse_Z;
  str_num := str_Z;
  fmt_2f := fun z => str_Z z ++ ".00";
  repr_num := str_Z;
  repr_str := quote;
  series_str := fun cs => "Series";
  barplot := fun _ => Ok tt;
  pie := fun s =>
    if existsb (fun kv => (snd kv <? 0)%Z) s
    then Raised (ValueError "Wedge sizes 'x' must be non negative values")
    else if (fold_right Z.add 0%Z (map snd s) =? 0)%Z
         then Raised (ValueError "cannot convert float NaN to integer")
         else Ok tt
|}.

(** An expense and a refund. *)
Definition refund_table : DataFrame Z :=
  mkFrame 2 [("Description", [Str "Coffee"; Str "Refund"]);
             ("Amount", [Num 4%Z; Num (-9)%Z])].

(** One expense of 4. *)
Definition coffee_table : DataFrame Z :=
  mkFrame 1 [("Description", [Str "Coffee"]); ("Amount", [Num 4%Z])].

(** A table whose amounts are all missing. *)
Definition no_amounts_table : DataFrame Z :=
  mkFrame 2 [("Description", [Str "Coffee"; Str "Rent"]);
             ("Amount", [Null; Null])].

(** A table with the amount column given twice. *)
Definition twice_table : DataFrame Z :=
  mkFrame 1 [("Amount", [Num 4%Z]); (" amount", [Num 5%Z])].

(** [ledger] with its first two rows the other way round. *)
Definition ledger_shuffled : DataFrame Z :=
  mkFrame 4 [("description", [Str "Rent"; Str "Coffee"; Str "Lunch"; Str "Tip"]);
             ("amount", [Num 1200%Z; Num 4%Z; Str "6"; Str "abc"]);
             ("category", [Str "Housing"; Str "Food"; Str "Food"; Str "Food"])].

Definition secrets0 : Secrets :=
  {| entries := [("GC_CRED", Exported "/run/cred.json")];
     missing_key := fun key => "st.secrets has no key " ++ key |}.

(** Secrets that hold the whole configuration, with a section. *)
Definition secrets1 : Secrets :=
  {| entries := [("GC_CRED", Exported "/run/cred.json");
                 ("PROJECT_ID", Exported "p2");
                 ("LOCATION", Exported "eu");
                 ("MODEL", Exported "gemini-pro");
                 ("connections", Kept "{'db': 'x'}")];
     missing_key := fun key => "st.secrets has no key " ++ key |}.

Definition environ0 : mapping :=
  [("PROJECT_ID", "p1"); ("LOCATION", "us"); ("MODEL", "gemini")].

(** Whatever the configuration, the model that answers ["Food"]. *)
Definition connect0 (config : vertex_config)
  : outcome (GenerativeModel unit) :=
  Ok (constant_model "Food").

Definition process0 (environ : mapping) : Process (num := Z) unit :=
  mkProcess environ [] (world0 tt).

End MoreExamples.

(** * Facts *)

(** ** Strings *)

Module PyStrFacts.

Lemma is_space_lower_char a : is_space (lower_char a) = is_space a.
Proof.
  destruct a as [[] [] [] [] [] [] [] []]; reflexivity.
Qed.

Lemma lower_char_idem a : lower_char (lower_char a) = lower_char a.
Proof.
  destruct a as [[] [] [] [] [] [] [] []]; reflexivity.
Qed.

Lemma lower_idem s : lower (lower s) = lower s.
Proof.
  induction s as [|a s IH]; simpl; [reflexivity|].
  now rewrite lower_char_idem, IH.
Qed.

Lemma lstrip_lower s : lstrip (lower s) = lower (lstrip s).
Proof.
  induction s as [|a s IH]; simpl; [reflexivity|].
  rewrite is_space_lower_char. destruct (is_space a); [exact IH|reflexivity].
Qed.

Lemma rstrip_lower s : rstrip (lower s) = lower (rstrip s).
Proof.
  induction s as [|a s IH]; simpl; [reflexivity|].
  rewrite IH. destruct (rstrip s); simpl.
  - rewrite is_space_lower_char. destruct (is_space a); reflexivity.
  - reflexivity.
Qed.

Lemma strip_lower s : strip (lower s) = lower (strip s).
Proof. unfold strip. now rewrite lstrip_lower, rstrip_lower. Qed.

Lemma lstrip_idem s : lstrip (lstrip s) = lstrip s.
Proof.
  induction s as [|a s IH]; simpl; [reflexivity|].
  destruct (is_space a) eqn:E; [exact IH|]. simpl. now rewrite E.
Qed.

Lemma rstrip_idem s : rstrip (rstrip s) = rstrip s.
Proof.
  induction s as [|a s IH]; simpl; [reflexivity|].
  destruct (rstrip s) as [|b t] eqn:E.
  - destruct (is_space a) eqn:Ea; simpl; [reflexivity|]. now rewrite Ea.
  - simpl in *. now rewrite IH.
Qed.

(** What is left of a string by [lstrip] does not start with a blank. *)
Lemma lstrip_head s a t : lstrip s = String a t -> is_space a = false.
Proof.
  induction s as [|b s IH]; simpl; [discriminate|].
  destruct (is_space b) eqn:E; [exact IH|].
  intros H. injection H as <- _. exact E.
Qed.

Lemma rstrip_head_nonspace a t :
  is_space a = false -> exists u, rstrip (String a t) = String a u.
Proof.
  intros E. simpl. destruct (rstrip t); [rewrite E|]; eauto.
Qed.

Lemma lstrip_rstrip_fix s :
  lstrip s = s -> lstrip (rstrip s) = rstrip s.
Proof.
  destruct s as [|a t]; [reflexivity|].
  intros H. assert (E : is_space a = false) by exact (lstrip_head _ _ _ H).
  destruct (rstrip_head_nonspace a t E) as [u ->]. simpl. now rewrite E.
Qed.

Lemma strip_idem s : strip (strip s) = strip s.
Proof.
  unfold strip.
  rewrite (lstrip_rstrip_fix (lstrip s) (lstrip_idem s)).
  apply rstrip_idem.
Qed.

Lemma join_concat sep l : join sep l = String.concat sep l.
Proof.
  induction l as [|x l IH]; [reflexivity|].
  destruct l as [|y l]; [reflexivity|].
  change (x ++ sep ++ join sep (y :: l) = x ++ sep ++ String.concat sep (y :: l)).
  now rewrite IH.
Qed.

Lemma lstrip_split s :
  exists pre, s = pre ++ lstrip s /\ all_space pre = true.
Proof.
  induction s as [|a s (pre & E & H)]; simpl.
  - exists "". auto.
  - destruct (is_space a) eqn:Ea.
    + exists (String a pre). simpl. rewrite Ea, H.
      split; [now f_equal|reflexivity].
    + exists "". auto.
Qed.

Lemma rstrip_split s :
  exists post, s = rstrip s ++ post /\ all_space post = true.
Proof.
  induction s as [|a s (post & E & H)]; simpl.
  - exists "". auto.
  - destruct (rstrip s) as [|b t] eqn:Er.
    + simpl in E. subst post. destruct (is_space a) eqn:Ea.
      * exists (String a s). simpl. rewrite Ea, H. auto.
      * exists s. auto.
    + exists post. split; [|exact H]. simpl. f_equal. exact E.
Qed.

Lemma rstrip_ends s : ends_blank (rstrip s) = false.
Proof.
  induction s as [|a s IH]; simpl; [reflexivity|].
  destruct (rstrip s) as [|b t] eqn:Er.
  - destruct (is_space a) eqn:Ea; simpl; [reflexivity|exact Ea].
  - exact IH.
Qed.

Lemma strip_starts s : starts_blank (strip s) = false.
Proof.
  unfold strip.
  pose proof (lstrip_rstrip_fix (lstrip s) (lstrip_idem s)) as H.
  destruct (rstrip (lstrip s)) as [|a t]; [reflexivity|].
  exact (lstrip_head _ _ _ H).
Qed.

(** [strip] removes the blanks at both ends, and only them. *)
Lemma strip_trimmed t : trimmed_of t (strip t).
Proof.
  destruct (lstrip_split t) as (pre & E1 & H1).
  destruct (rstrip_split (lstrip t)) as (post & E2 & H2).
  exists pre, post. split; [|split; [exact H1|split; [exact H2|split]]].
  - rewrite E1 at 1. f_equal. exact E2.
  - apply strip_starts.
  - apply rstrip_ends.
Qed.

Lemma lstrip_blanks pre s : all_space pre = true -> lstrip (pre ++ s) = lstrip s.
Proof.
  induction pre as [|a pre IH]; simpl; [reflexivity|].
  intros H. apply andb_prop in H. destruct H as [Ha Hp].
  rewrite Ha. auto.
Qed.

Lemma rstrip_blanks post : all_space post = true -> rstrip post = "".
Proof.
  induction post as [|a post IH]; simpl; [reflexivity|].
  intros H. apply andb_prop in H. destruct H as [Ha Hp].
  now rewrite (IH Hp), Ha.
Qed.

Lemma rstrip_app a post :
  all_space post = true -> ends_blank a = false -> rstrip (a ++ post) = a.
Proof.
  intros Hp. induction a as [|x a IH]; simpl.
  - intros _. now apply rstrip_blanks.
  - destruct a as [|y a'].
    + simpl. intros Hx. now rewrite (rstrip_blanks post Hp), Hx.
    + intros He. specialize (IH He). rewrite IH. reflexivity.
Qed.

Lemma lstrip_blank_text s : all_space s = true -> lstrip s = "".
Proof.
  induction s as [|a s IH]; simpl; [reflexivity|].
  intros H. apply andb_prop in H. destruct H as [Ha Hs]. rewrite Ha. auto.
Qed.

(** There is one such text only. *)
Lemma trimmed_of_strip t a : trimmed_of t a -> a = strip t.
Proof.
  intros (pre & post & -> & Hpre & Hpost & Hs & He).
  unfold strip. rewrite (lstrip_blanks pre _ Hpre).
  destruct a as [|x a'].
  - simpl. now rewrite (lstrip_blank_text post Hpost).
  - assert (El : lstrip (String x a' ++ post) = String x a' ++ post).
    { simpl in *. now rewrite Hs. }
    rewrite El. symmetry. now apply rstrip_app.
Qed.

End PyStrFacts.

Import PyStrFacts.

Lemma standard_label_idem c : standard_label (standard_label c) = standard_label c.
Proof.
  unfold standard_label.
  now rewrite <- strip_lower, lower_idem, strip_lower, strip_idem.
Qed.

#[export] Instance int_amounts_exact : ExactRuntime Z IntAmounts.runtime.
Proof.
  split; simpl; intros; lia.
Qed.

(** ** Frames and rows *)

Section FrameFacts.

Context {num : Type} {RT : Runtime num}.

Lemma filter_standardize (d : DataFrame num) label :
  label_count (standardize_columns d) label =
  List.length (filter (fun l => String.eqb l label)
                      (map standard_label (labels d))).
Proof.
  unfold label_count, standardize_columns, labels. simpl.
  induction (columns d) as [|col cols IH]; simpl; [reflexivity|].
  destruct (String.eqb (standard_label (fst col)) label); simpl; now rewrite IH.
Qed.

Lemma row_lookup_row_at (d : DataFrame num) i label :
  row_lookup (row_at d i) label =
  map (fun col => nth i (snd col) Null)
      (filter (fun col => String.eqb (fst col) label) (columns d)).
Proof.
  unfold row_lookup, row_at.
  induction (columns d) as [|col cols IH]; simpl; [reflexivity|].
  destruct (String.eqb (fst col) label); simpl; now rewrite IH.
Qed.

Lemma label_count_one (d : DataFrame num) label :
  label_count d label = 1 ->
  exists col, filter (fun col => String.eqb (fst col) label) (columns d) = [col].
Proof.
  unfold label_count.
  destruct (filter _ (columns d)) as [|col [|col' rest]]; simpl; try discriminate.
  eauto.
Qed.

Lemma column_of_count (d : DataFrame num) label vs :
  column_of d label = Some vs -> label_count d label = 1.
Proof.
  unfold column_of, label_count.
  destruct (filter _ (columns d)) as [|col [|col' rest]]; simpl; try discriminate.
  reflexivity.
Qed.

Lemma row_lookup_unique (d : DataFrame num) label i :
  label_count d label = 1 ->
  exists c, row_lookup (row_at d i) label = [c].
Proof.
  intros H. destruct (label_count_one d label H) as [col E].
  rewrite row_lookup_row_at, E. simpl. eauto.
Qed.

Lemma iterrows_length (d : DataFrame num) :
  List.length (iterrows d) = index_len d.
Proof. unfold iterrows. now rewrite length_map, length_seq. Qed.

Lemma iterrows_unique (d : DataFrame num) label :
  label_count d label = 1 ->
  Forall (fun row => exists c, row_lookup row label = [c]) (iterrows d).
Proof.
  intros H. unfold iterrows. apply Forall_forall. intros row Hin.
  apply in_map_iff in Hin. destruct Hin as [i [<- _]].
  now apply row_lookup_unique.
Qed.

End FrameFacts.

(** ** The classification loop *)

Section LoopFacts.

Context {num : Type} {RT : Runtime num} {svc : Type}.
Implicit Types (self : App num svc) (w : World num svc).
Implicit Types (row : list (string * cell num)).

(** The loop body, computed: a row with one amount cell. *)
Lemma categorize_row_eq self row c w :
  row_lookup row "amount" = [c] ->
  categorize_row self row w =
  if isnull c then (Ok "Uncategorized", w)
  else
    let prompt := classification_prompt row (Scalar c) in
    let (s', r) := generate_content (model self) (service w) prompt in
    (Ok (match r with
         | Text t => strip t
         | Fault cause => "Error: " ++ cause
         end), sent w s' prompt).
Proof.
  intros H. unfold categorize_row, bind, lift, row_getitem. rewrite H. simpl.
  destruct (isnull c); simpl; [reflexivity|].
  unfold try_except, bind, generate_text.
  destruct (generate_content _ _ _) as [s' [t|cause]]; reflexivity.
Qed.

Lemma categorize_row_classified self row c w :
  row_lookup row "amount" = [c] ->
  exists category w',
    categorize_row self row w = (Ok category, w')
    /\ classified self row w category w'.
Proof.
  intros H. rewrite (categorize_row_eq self row c w H).
  destruct c as [|x|s]; simpl.
  - eexists _, _. split; [reflexivity|]. now constructor.
  - destruct (generate_content _ _ _) as [s' [t|cause]] eqn:E;
      eexists _, _; (split; [reflexivity|]).
    + now apply row_success.
    + now apply row_service_error.
  - destruct (generate_content _ _ _) as [s' [t|cause]] eqn:E;
      eexists _, _; (split; [reflexivity|]).
    + now apply row_success.
    + now apply row_service_error.
Qed.

(** The loop ends on every table whose rows have one amount cell, and
    what it appends is a run of the rows in their order. *)
Lemma for_rows_run self rows :
  Forall (fun row => exists c, row_lookup row "amount" = [c]) rows ->
  forall acc w, exists categories w',
    for_rows self rows acc w = (Ok (acc ++ categories)%list, w')
    /\ run_rows self rows w categories w'.
Proof.
  induction 1 as [|row rest [c Hc] _ IH]; intros acc w.
  - exists [], w. simpl. rewrite app_nil_r. split; [reflexivity|constructor].
  - destruct (categorize_row_classified self row c w Hc) as (cat & w1 & E & Hcl).
    destruct (IH (acc ++ [cat])%list w1) as (cats & w2 & E2 & Hrun).
    exists (cat :: cats), w2. split.
    + simpl. unfold bind. rewrite E, E2. now rewrite <- app_assoc.
    + econstructor; eassumption.
Qed.

Lemma run_rows_length self rows w categories w' :
  run_rows self rows w categories w' ->
  List.length categories = List.length rows.
Proof. induction 1; simpl; congruence. Qed.

Lemma run_rows_Forall2 self rows w categories w' :
  run_rows self rows w categories w' ->
  Forall2 (fun row category => exists w1 w2, classified self row w1 category w2)
          rows categories.
Proof. induction 1; constructor; eauto. Qed.

Lemma run_rows_app self rows1 rows2 w cats1 w1 cats2 w2 :
  run_rows self rows1 w cats1 w1 ->
  run_rows self rows2 w1 cats2 w2 ->
  run_rows self (rows1 ++ rows2) w (cats1 ++ cats2) w2.
Proof.
  induction 1; simpl; intros; [assumption|].
  econstructor; eauto.
Qed.

Lemma set_column_index_len (d : DataFrame num) label values :
  index_len (set_column d label values) = index_len d.
Proof. unfold set_column. now destruct (existsb _ _). Qed.

Lemma set_column_labelled (d : DataFrame num) label values :
  In label (labels (set_column d label values))
  /\ forall col, In col (columns (set_column d label values)) ->
                 fst col = label -> snd col = values.
Proof.
  unfold set_column. destruct (existsb _ _) eqn:E; simpl.
  - split.
    + apply existsb_exists in E. destruct E as [l [Hin El]].
      apply String.eqb_eq in El. subst l.
      unfold labels in *. simpl. rewrite map_map.
      apply in_map_iff in Hin. destruct Hin as [col [Ef Hin]].
      apply in_map_iff. exists col. split; [|assumption].
      rewrite Ef, String.eqb_refl. reflexivity.
    + intros col Hin Ef. apply in_map_iff in Hin.
      destruct Hin as [col0 [E0 _]].
      destruct (String.eqb (fst col0) label) eqn:E1; subst col; [reflexivity|].
      apply String.eqb_neq in E1. contradiction.
  - split.
    + unfold labels. simpl. rewrite map_app. apply in_or_app. right. now left.
    + intros col Hin Ef. apply in_app_or in Hin. destruct Hin as [Hin|[<-|[]]].
      * exfalso. assert (H : existsb (String.eqb label) (labels d) = true).
        { apply existsb_exists. exists (fst col). split.
          - unfold labels. now apply in_map.
          - rewrite Ef. apply String.eqb_refl. }
        congruence.
      * reflexivity.
Qed.

(** Columns under another label are where and what they were. *)
Lemma set_column_others (d : DataFrame num) label values l :
  l <> label ->
  filter (fun col => String.eqb (fst col) l) (columns (set_column d label values))
  = filter (fun col => String.eqb (fst col) l) (columns d).
Proof.
  intros Hne. unfold set_column. destruct (existsb _ _); simpl.
  - induction (columns d) as [|col cols IH]; simpl; [reflexivity|].
    destruct (String.eqb (fst col) label) eqn:E; simpl.
    + apply String.eqb_eq in E.
      assert (E1 : String.eqb label l = false) by (apply String.eqb_neq; congruence).
      assert (E2 : String.eqb (fst col) l = false) by (apply String.eqb_neq; congruence).
      now rewrite E1, E2.
    + destruct (String.eqb (fst col) l); now rewrite IH.
  - rewrite filter_app. simpl.
    assert (E1 : String.eqb label l = false) by (apply String.eqb_neq; congruence).
    rewrite E1. apply app_nil_r.
Qed.

Lemma categorize_expenses_run self data w :
  label_count (standardize_columns data) "amount" = 1 ->
  exists categories w',
    categorize_expenses self data w =
      (Ok (set_column (standardize_columns data) "category"
                      (map Str categories)), w')
    /\ run_rows self (iterrows (standardize_columns data)) w categories w'.
Proof.
  intros H.
  destruct (for_rows_run self _ (iterrows_unique _ "amount" H) [] w)
    as (cats & w' & E & Hrun).
  exists cats, w'. split; [|assumption].
  unfold categorize_expenses, bind, lift. rewrite E. simpl.
  unfold setitem. rewrite length_map, (run_rows_length _ _ _ _ _ Hrun).
  rewrite iterrows_length, Nat.eqb_refl. reflexivity.
Qed.

End LoopFacts.

(** ** [categorize_expenses]: one category per row *)

Section CategorizeClaims.

Context {num : Type} {RT : Runtime num} {svc : Type}.
Implicit Types (self : App num svc) (w : World num svc).
Implicit Types (row : list (string * cell num)).

(** C1 (amended). On every table whose standardized labels contain
    [amount] exactly once, [categorize_expenses] returns a table with as
    many rows as its input; the columns labelled [category] hold one text
    per row and nothing else changes; the i-th text is the category of
    the i-th row: ["Uncategorized"], the stripped answer of the model to
    that row's request, or ["Error: "] followed by the cause. *)
Theorem categorize_expenses_one_category_per_row self data w :
  label_count (standardize_columns data) "amount" = 1 ->
  exists categories out w',
    categorize_expenses self data w = (Ok out, w')
    /\ index_len out = index_len data
    /\ List.length categories = index_len data
    /\ In "category" (labels out)
    /\ (forall col, In col (columns out) -> fst col = "category" ->
                    snd col = map Str categories)
    /\ (forall l, l <> "category" ->
          filter (fun col => String.eqb (fst col) l) (columns out)
          = filter (fun col => String.eqb (fst col) l)
                   (columns (standardize_columns data)))
    /\ Forall2 (fun row category =>
                  exists w1 w2, classified self row w1 category w2)
               (iterrows (standardize_columns data)) categories.
Proof.
  intros H.
  destruct (categorize_expenses_run self data w H) as (cats & w' & E & Hrun).
  exists cats, (set_column (standardize_columns data) "category" (map Str cats)), w'.
  split; [exact E|].
  split; [now rewrite set_column_index_len|].
  split.
  { rewrite (run_rows_length _ _ _ _ _ Hrun), iterrows_length. reflexivity. }
  split; [apply set_column_labelled|].
  split; [apply set_column_labelled|].
  split; [intros l Hl; now apply set_column_others|].
  exact (run_rows_Forall2 _ _ _ _ _ Hrun).
Qed.


Lemma for_rows_ignores_budget (g : GenerativeModel svc) (b1 b2 : num) rows :
  forall acc w,
    for_rows {| model := g; budget := b1 |} rows acc w
    = for_rows {| model := g; budget := b2 |} rows acc w.
Proof.
  induction rows as [|row rest IH]; intros acc w; simpl; [reflexivity|].
  unfold bind.
  change (categorize_row {| model := g; budget := b1 |} row w)
    with (categorize_row {| model := g; budget := b2 |} row w).
  destruct (categorize_row _ row w) as [[cat|e] w1]; [apply IH|reflexivity].
Qed.

(** C10. Two applications with the same model and different budgets
    categorize a table alike: the same table or exception, the same
    requests, the same state of the service. *)
Theorem categorize_expenses_ignores_budget
        (g : GenerativeModel svc) (b1 b2 : num) data w :
  categorize_expenses {| model := g; budget := b1 |} data w
  = categorize_expenses {| model := g; budget := b2 |} data w.
Proof.
  unfold categorize_expenses, bind.
  now rewrite (for_rows_ignores_budget g b1 b2).
Qed.

End CategorizeClaims.

(** ** The sums of [groupby] *)

Section GroupFacts.

Context {num : Type} {RT : Runtime num}.
Implicit Types (acc : list (string * num)) (v : option num).
Implicit Types (rows : list (option string * option num)).

Lemma add_to_group_get acc key v k :
  summary_get (add_to_group acc key v) k =
  if String.eqb key k
  then Some (add_value (match summary_get acc key with
                        | Some s => s
                        | None => nzero
                        end) v)
  else summary_get acc k.
Proof.
  induction acc as [|[k0 s0] rest IH]; simpl.
  - destruct (String.eqb key k); reflexivity.
  - destruct (String.eqb k0 key) eqn:E0; simpl.
    + apply String.eqb_eq in E0. subst k0.
      destruct (String.eqb key k); reflexivity.
    + rewrite IH. destruct (String.eqb key k) eqn:E1; [|reflexivity].
      apply String.eqb_eq in E1. subst k. now rewrite E0.
Qed.

Lemma add_to_group_keys acc key v k :
  In k (map fst (add_to_group acc key v)) <-> k = key \/ In k (map fst acc).
Proof.
  induction acc as [|[k0 s0] rest IH]; simpl.
  - intuition congruence.
  - destruct (String.eqb k0 key) eqn:E0; simpl.
    + apply String.eqb_eq in E0. subst k0. intuition congruence.
    + rewrite IH. intuition congruence.
Qed.

Lemma add_to_group_NoDup acc key v :
  NoDup (map fst acc) -> NoDup (map fst (add_to_group acc key v)).
Proof.
  induction acc as [|[k0 s0] rest IH]; simpl; intros H.
  - constructor; [intros []|constructor].
  - inversion H as [|? ? Hnin Hnd]; subst.
    destruct (String.eqb k0 key) eqn:E0; simpl.
    + now constructor.
    + constructor; [|now apply IH].
      rewrite add_to_group_keys. intros [->|Hin]; [|contradiction].
      now rewrite String.eqb_refl in E0.
Qed.

Lemma group_sums_keys rows : forall acc k,
  In k (map fst (group_sums acc rows)) <->
  In k (map fst acc) \/ In (Some k) (map fst rows).
Proof.
  induction rows as [|[[key|] v] rest IH]; intros acc k; simpl.
  - intuition.
  - rewrite IH, add_to_group_keys. intuition congruence.
  - rewrite IH. intuition congruence.
Qed.

Lemma group_sums_NoDup rows : forall acc,
  NoDup (map fst acc) -> NoDup (map fst (group_sums acc rows)).
Proof.
  induction rows as [|[[key|] v] rest IH]; intros acc H; simpl;
    auto using add_to_group_NoDup.
Qed.

Lemma summary_get_None acc k :
  summary_get acc k = None <-> ~ In k (map fst acc).
Proof.
  induction acc as [|[k0 s0] rest IH]; simpl; [intuition|].
  destruct (String.eqb k0 k) eqn:E.
  - apply String.eqb_eq in E. intuition congruence.
  - apply String.eqb_neq in E. rewrite IH. intuition.
Qed.

Lemma summary_get_In acc k x :
  NoDup (map fst acc) -> (summary_get acc k = Some x <-> In (k, x) acc).
Proof.
  induction acc as [|[k0 s0] rest IH]; simpl; intros H.
  - split; [discriminate|intros []].
  - inversion H as [|? ? Hnin Hnd]; subst.
    destruct (String.eqb k0 k) eqn:E.
    + apply String.eqb_eq in E. subst k0. split.
      * intros [= ->]. now left.
      * intros [[= ->]|Hin]; [reflexivity|].
        exfalso. apply Hnin. change k with (fst (k, x)). now apply in_map.
    + apply String.eqb_neq in E. rewrite (IH Hnd). split; [now right|].
      intros [[= -> ->]|Hin]; [contradiction|assumption].
Qed.

(** What the pass files under a key: the fold over the rows of that
    key, from the sum the key had, or from 0 for a key met on the way. *)
Lemma group_sums_get rows : forall acc k,
  summary_get (group_sums acc rows) k =
  match summary_get acc k with
  | Some s => Some (group_fold k rows s)
  | None =>
      if existsb (fun r => match fst r with
                           | Some key => String.eqb key k
                           | None => false
                           end) rows
      then Some (group_fold k rows nzero)
      else None
  end.
Proof.
  unfold group_fold.
  induction rows as [|[[key|] v] rest IH]; intros acc k; simpl.
  - now destruct (summary_get acc k).
  - rewrite IH, add_to_group_get.
    destruct (String.eqb key k) eqn:E.
    + apply String.eqb_eq in E. subst key.
      now destruct (summary_get acc k).
    + reflexivity.
  - apply IH.
Qed.

Lemma insert_key_perm e acc : Permutation (insert_key e acc) (e :: acc).
Proof.
  induction acc as [|x rest IH]; simpl; [reflexivity|].
  destruct (String.leb (fst e) (fst x)); [reflexivity|].
  rewrite IH. apply perm_swap.
Qed.

Lemma sort_index_perm acc : Permutation (sort_index acc) acc.
Proof.
  induction acc as [|e rest IH]; simpl; [reflexivity|].
  rewrite insert_key_perm. now constructor.
Qed.

Lemma combine_map_map {A B C D} (f : A -> C) (g : B -> D) l1 l2 :
  combine (map f l1) (map g l2) =
  map (fun p => (f (fst p), g (snd p))) (combine l1 l2).
Proof.
  revert l2. induction l1 as [|a l1 IH]; intros [|b l2]; simpl; f_equal; auto.
Qed.

Lemma filter_map_comm {A B} (f : A -> B) (p : B -> bool) (l : list A) :
  filter p (map f l) = map f (filter (fun a => p (f a)) l).
Proof.
  induction l as [|a l IH]; simpl; [reflexivity|].
  destruct (p (f a)); simpl; now rewrite IH.
Qed.

Lemma combine_map_l {A B C} (f : A -> C) (l1 : list A) (l2 : list B) :
  combine (map f l1) l2 = map (fun p => (f (fst p), snd p)) (combine l1 l2).
Proof.
  revert l2. induction l1 as [|a l1 IH]; intros [|b l2]; simpl; f_equal; auto.
Qed.

Lemma text_keys_Str (cats : list string) :
  text_keys (map (@Str num) cats) = Some (map Some cats).
Proof.
  induction cats as [|c cats IH]; simpl; [reflexivity|]. now rewrite IH.
Qed.

Lemma numbers_numeric (vs : list (option num)) :
  numbers (map numeric_cell vs) = Some vs.
Proof.
  induction vs as [|[x|] vs IH]; simpl; try rewrite IH; reflexivity.
Qed.

Lemma coerce_numeric_cell v : coerce (numeric_cell v) = v.
Proof. now destruct v. Qed.

Lemma to_numeric_numeric (vs : list (option num)) :
  to_numeric (map numeric_cell vs) = vs.
Proof.
  unfold to_numeric. rewrite map_map.
  induction vs as [|v vs IH]; simpl; [reflexivity|].
  now rewrite coerce_numeric_cell, IH.
Qed.

End GroupFacts.

(** ** Sums in an exact runtime *)

Section ExactFacts.

Context {num : Type} {RT : Runtime num} {EX : ExactRuntime num RT}.

Lemma nadd_zero_r (x : num) : nadd x nzero = x.
Proof. now rewrite nadd_comm, nadd_zero_l. Qed.

Lemma sum_list_app (a b : list num) :
  sum_list (a ++ b) = nadd (sum_list a) (sum_list b).
Proof.
  unfold sum_list. induction a as [|x a IH]; simpl.
  - now rewrite nadd_zero_l.
  - now rewrite IH, nadd_assoc.
Qed.

Lemma sum_list_perm (a b : list num) :
  Permutation a b -> sum_list a = sum_list b.
Proof.
  unfold sum_list. induction 1; simpl.
  - reflexivity.
  - now f_equal.
  - rewrite !nadd_assoc. f_equal. apply nadd_comm.
  - congruence.
Qed.

Lemma add_value_sum (s : num) (v : option num) :
  add_value s v = nadd s (value_or_zero v).
Proof. destruct v; simpl; [reflexivity|]. now rewrite nadd_zero_r. Qed.

Lemma fold_add_value (vs : list (option num)) : forall s,
  fold_left add_value vs s = nadd s (sum_list (map value_or_zero vs)).
Proof.
  induction vs as [|v vs IH]; intros s; simpl.
  - now rewrite nadd_zero_r.
  - rewrite IH, add_value_sum, <- nadd_assoc. reflexivity.
Qed.

Lemma series_sum_spec (vs : list (option num)) :
  series_sum vs = sum_list (map value_or_zero vs).
Proof. unfold series_sum. now rewrite fold_add_value, nadd_zero_l. Qed.

Lemma group_fold_spec key (rows : list (option string * option num)) :
  forall s,
    group_fold key rows s =
    nadd s (sum_list
              (map (fun r => value_or_zero (snd r))
                   (filter (fun r => match fst r with
                                     | Some k => String.eqb k key
                                     | None => false
                                     end) rows))).
Proof.
  unfold group_fold.
  induction rows as [|[[k|] v] rest IH]; intros s; simpl.
  - now rewrite nadd_zero_r.
  - rewrite IH. destruct (String.eqb k key); simpl; [|reflexivity].
    now rewrite add_value_sum, <- nadd_assoc.
  - apply IH.
Qed.

Lemma add_to_group_total (acc : list (string * num)) key v :
  sum_list (map snd (add_to_group acc key v)) =
  nadd (sum_list (map snd acc)) (value_or_zero v).
Proof.
  induction acc as [|[k s] rest IH]; simpl.
  - rewrite add_value_sum, !nadd_zero_l. apply nadd_zero_r.
  - destruct (String.eqb k key); simpl.
    + rewrite add_value_sum, <- !nadd_assoc. f_equal. apply nadd_comm.
    + rewrite IH. now rewrite nadd_assoc.
Qed.

Lemma group_sums_total (rows : list (option string * option num)) :
  forall acc,
    (forall r, In r rows -> fst r <> None) ->
    sum_list (map snd (group_sums acc rows)) =
    nadd (sum_list (map snd acc))
         (sum_list (map (fun r => value_or_zero (snd r)) rows)).
Proof.
  induction rows as [|[[k|] v] rest IH]; intros acc H; simpl.
  - now rewrite nadd_zero_r.
  - rewrite IH by (intros r Hr; apply H; now right).
    rewrite add_to_group_total, <- nadd_assoc. reflexivity.
  - exfalso. apply (H (None, v)); [now left|reflexivity].
Qed.

End ExactFacts.

(** ** [display_graphs] and [display_financial_advice], computed *)

Section AggregateFacts.

Context {num : Type} {RT : Runtime num}.
Implicit Types (d data : DataFrame num) (vs : list (cell num)).

Lemma column_of_filter d label vs :
  column_of d label = Some vs ->
  exists col,
    filter (fun col => String.eqb (fst col) label) (columns d) = [col]
    /\ snd col = vs.
Proof.
  unfold column_of.
  destruct (filter _ (columns d)) as [|col [|col' rest]]; try discriminate.
  intros [= <-]. eauto.
Qed.

Lemma getitem_series_column d label e vs :
  column_of d label = Some vs -> getitem_series d label e = Ok vs.
Proof.
  intros H. destruct (column_of_filter d label vs H) as (col & E & <-).
  unfold getitem_series. now rewrite E.
Qed.

Lemma well_formed_column d label vs :
  well_formed d = true -> column_of d label = Some vs ->
  List.length vs = index_len d.
Proof.
  intros Hwf H. destruct (column_of_filter d label vs H) as (col & E & <-).
  unfold well_formed in Hwf. rewrite forallb_forall in Hwf.
  apply Nat.eqb_eq, Hwf.
  assert (Hin : In col (filter (fun col => String.eqb (fst col) label) (columns d)))
    by (rewrite E; now left).
  now apply filter_In in Hin.
Qed.

Lemma existsb_label d label :
  existsb (String.eqb label) (labels d) = true <->
  filter (fun col => String.eqb (fst col) label) (columns d) <> [].
Proof.
  unfold labels. induction (columns d) as [|col cols IH]; simpl.
  - split; [discriminate|congruence].
  - rewrite (String.eqb_sym label (fst col)).
    destruct (String.eqb (fst col) label); simpl.
    + split; [discriminate|reflexivity].
    + exact IH.
Qed.

Lemma filter_replaced (cols : list (string * list (cell num))) label vs :
  filter (fun col => String.eqb (fst col) label)
         (map (fun col => if String.eqb (fst col) label
                          then (label, vs) else col) cols)
  = map (fun _ => (label, vs))
        (filter (fun col => String.eqb (fst col) label) cols).
Proof.
  induction cols as [|col cols IH]; simpl; [reflexivity|].
  destruct (String.eqb (fst col) label) eqn:E; simpl.
  - rewrite String.eqb_refl, IH. reflexivity.
  - rewrite E. exact IH.
Qed.

Lemma set_column_same d label vs vs0 :
  column_of d label = Some vs0 ->
  column_of (set_column d label vs) label = Some vs.
Proof.
  intros H. destruct (column_of_filter d label vs0 H) as (col & E & _).
  unfold set_column.
  assert (Hex : existsb (String.eqb label) (labels d) = true)
    by (apply existsb_label; rewrite E; discriminate).
  rewrite Hex. unfold column_of. simpl. now rewrite filter_replaced, E.
Qed.

Lemma set_column_new d label vs :
  label_count d label = 0 ->
  column_of (set_column d label vs) label = Some vs.
Proof.
  unfold label_count. intros H. apply length_zero_iff_nil in H.
  unfold set_column.
  destruct (existsb (String.eqb label) (labels d)) eqn:Hex.
  - apply existsb_label in Hex. contradiction.
  - unfold column_of. simpl. rewrite filter_app, H. simpl.
    now rewrite String.eqb_refl.
Qed.

Lemma set_column_other d label vs l :
  l <> label -> column_of (set_column d label vs) l = column_of d l.
Proof.
  intros Hne. unfold column_of. now rewrite set_column_others.
Qed.

Lemma set_column_well_formed d label vs :
  well_formed d = true -> List.length vs = index_len d ->
  well_formed (set_column d label vs) = true.
Proof.
  unfold well_formed, set_column. intros Hwf Hlen.
  destruct (existsb _ _); simpl.
  - rewrite forallb_forall in *. intros col Hin.
    apply in_map_iff in Hin. destruct Hin as (col0 & <- & Hin0).
    destruct (String.eqb (fst col0) label); simpl; [now apply Nat.eqb_eq|auto].
  - rewrite forallb_app. simpl. rewrite Hwf. simpl.
    rewrite Hlen, Nat.eqb_refl. reflexivity.
Qed.

Lemma set_column_labels d label vs vs0 :
  column_of d label = Some vs0 ->
  labels (set_column d label vs) = labels d.
Proof.
  intros H. destruct (column_of_filter d label vs0 H) as (col & E & _).
  unfold set_column.
  assert (Hex : existsb (String.eqb label) (labels d) = true)
    by (apply existsb_label; rewrite E; discriminate).
  rewrite Hex. unfold labels. simpl. rewrite map_map.
  apply map_ext_in. intros c _.
  destruct (String.eqb (fst c) label) eqn:Ec; [|reflexivity].
  apply String.eqb_eq in Ec. now rewrite Ec.
Qed.

Lemma to_numeric_length vs : List.length (to_numeric vs) = List.length vs.
Proof. apply length_map. Qed.

(** The first two lines of [display_graphs] on a well-formed table
    with one amount column and one column of text categories. *)
Lemma aggregate_eq data amount cats :
  well_formed data = true ->
  column_of data "amount" = Some amount ->
  column_of data "category" = Some (map Str cats) ->
  aggregate data =
  Ok (set_column data "amount" (map numeric_cell (to_numeric amount)),
      sort_index (group_sums [] (combine (map Some cats) (to_numeric amount)))).
Proof.
  intros Hwf Ha Hc. unfold aggregate.
  rewrite (getitem_series_column _ _ _ _ Ha). simpl.
  unfold setitem.
  rewrite length_map, to_numeric_length, (well_formed_column _ _ _ Hwf Ha).
  rewrite Nat.eqb_refl. simpl.
  unfold groupby_sum.
  rewrite (getitem_series_column _ "category" _ (map Str cats))
    by (rewrite set_column_other by discriminate; exact Hc).
  simpl.
  rewrite (getitem_series_column _ "amount" _ _ (set_column_same _ _ _ _ Ha)).
  simpl. now rewrite text_keys_Str, numbers_numeric.
Qed.

Lemma standardize_fixed d :
  map standard_label (labels d) = labels d -> standardize_columns d = d.
Proof.
  destruct d as [n cols]. unfold standardize_columns, labels. simpl.
  intros H. f_equal.
  induction cols as [|[l vs] cols IH]; simpl in *; [reflexivity|].
  injection H as Hl Hrest. now rewrite Hl, IH.
Qed.

Lemma standardize_labels d :
  labels (standardize_columns d) = map standard_label (labels d).
Proof.
  unfold labels, standardize_columns. simpl. now rewrite !map_map.
Qed.

Lemma standardize_idem d :
  standardize_columns (standardize_columns d) = standardize_columns d.
Proof.
  apply standardize_fixed. rewrite standardize_labels, map_map.
  apply map_ext. intros l. apply standard_label_idem.
Qed.

Lemma standardize_well_formed d :
  well_formed (standardize_columns d) = well_formed d.
Proof.
  unfold well_formed, standardize_columns. simpl.
  induction (columns d) as [|col cols IH]; simpl; [reflexivity|].
  now rewrite IH.
Qed.

End AggregateFacts.

(** ** More on the loop: splitting a table *)

Section LoopSplit.

Context {num : Type} {RT : Runtime num} {svc : Type}.
Implicit Types (self : App num svc) (w : World num svc).

Lemma for_rows_acc self rows : forall acc w,
  for_rows self rows acc w =
  match for_rows self rows [] w with
  | (Ok categories, w') => (Ok (acc ++ categories)%list, w')
  | (Raised e, w') => (Raised e, w')
  end.
Proof.
  induction rows as [|row rest IH]; intros acc w; simpl.
  - now rewrite app_nil_r.
  - unfold bind. destruct (categorize_row self row w) as [[cat|e] w1];
      [|reflexivity].
    rewrite (IH (acc ++ [cat])%list), (IH [cat]). simpl.
    destruct (for_rows self rest [] w1) as [[cats|e] w2]; [|reflexivity].
    now rewrite <- app_assoc.
Qed.

Lemma for_rows_app self rows1 rows2 : forall acc w,
  for_rows self (rows1 ++ rows2) acc w =
  match for_rows self rows1 acc w with
  | (Ok acc', w1) => for_rows self rows2 acc' w1
  | (Raised e, w1) => (Raised e, w1)
  end.
Proof.
  induction rows1 as [|row rest IH]; intros acc w; simpl; [reflexivity|].
  unfold bind. destruct (categorize_row self row w) as [[cat|e] w1];
    [apply IH|reflexivity].
Qed.

Lemma for_rows_total self rows w :
  Forall (fun row => exists c, row_lookup row "amount" = [c]) rows ->
  exists categories w', for_rows self rows [] w = (Ok categories, w').
Proof.
  intros H. destruct (for_rows_run self rows H [] w) as (cats & w' & E & _).
  eauto.
Qed.

End LoopSplit.

(** ** The categorized table as the aggregator finds it *)

Section CategorizedTable.

Context {num : Type} {RT : Runtime num}.
Implicit Types (d data : DataFrame num) (vs : list (cell num)).

Lemma label_count_column d label :
  label_count d label = 1 -> exists vs, column_of d label = Some vs.
Proof.
  intros H. destruct (label_count_one d label H) as [col E].
  unfold column_of. rewrite E. eauto.
Qed.

Lemma categorized_columns d (cats : list string) amount :
  label_count d "category" <= 1 ->
  column_of d "amount" = Some amount ->
  column_of (set_column d "category" (map Str cats)) "category"
    = Some (map Str cats)
  /\ column_of (set_column d "category" (map Str cats)) "amount"
     = Some amount.
Proof.
  intros Hc Ha. split.
  - destruct (label_count d "category") as [|[|n]] eqn:E; [| |lia].
    + now apply set_column_new.
    + destruct (label_count_column d "category" E) as [vs0 E0].
      exact (set_column_same d "category" _ vs0 E0).
  - rewrite set_column_other by discriminate. exact Ha.
Qed.

Lemma map_fst_combine {A B} (l1 : list A) (l2 : list B) :
  List.length l1 = List.length l2 -> map fst (combine l1 l2) = l1.
Proof.
  revert l2. induction l1 as [|a l1 IH]; intros [|b l2]; simpl;
    try discriminate; intros H; f_equal; auto.
Qed.

Lemma map_snd_combine {A B} (l1 : list A) (l2 : list B) :
  List.length l1 = List.length l2 -> map snd (combine l1 l2) = l2.
Proof.
  revert l2. induction l1 as [|a l1 IH]; intros [|b l2]; simpl;
    try discriminate; intros H; f_equal; auto.
Qed.

(** The keys of the summary are the categories of the rows. *)
Lemma summary_keys (cats : list string) (vs : list (option num)) key :
  List.length cats = List.length vs ->
  In key (map fst (sort_index (group_sums [] (combine (map Some cats) vs))))
  <-> In key cats.
Proof.
  intros Hlen.
  rewrite (Permutation_in' (eq_refl key)
             (Permutation_map fst (sort_index_perm _))).
  rewrite group_sums_keys, map_fst_combine by now rewrite length_map.
  simpl. rewrite in_map_iff. split.
  - intros [[]|(k & [= ->] & Hin)]. exact Hin.
  - intros Hin. right. eauto.
Qed.

Lemma summary_NoDup (rows : list (option string * option num)) :
  NoDup (map fst (sort_index (group_sums [] rows))).
Proof.
  apply (Permutation_NoDup
           (Permutation_sym (Permutation_map fst (sort_index_perm _)))).
  apply group_sums_NoDup. constructor.
Qed.

Lemma set_column_idem d label vs vs0 :
  column_of d label = Some vs0 ->
  set_column (set_column d label vs) label vs = set_column d label vs.
Proof.
  intros H. destruct (column_of_filter d label vs0 H) as (col & E & _).
  assert (Hex : existsb (String.eqb label) (labels d) = true)
    by (apply existsb_label; rewrite E; discriminate).
  assert (Hex' : existsb (String.eqb label) (labels (set_column d label vs)) = true)
    by (now rewrite (set_column_labels d label vs vs0 H)).
  unfold set_column at 1. rewrite Hex'.
  unfold set_column. rewrite Hex. simpl. f_equal.
  rewrite map_map. apply map_ext. intros c.
  destruct (String.eqb (fst c) label) eqn:Ec; simpl.
  - now rewrite String.eqb_refl.
  - now rewrite Ec.
Qed.

Lemma getitem_series_inv d label e vs :
  getitem_series d label e = Ok vs -> column_of d label = Some vs.
Proof.
  unfold getitem_series, column_of.
  destruct (filter _ (columns d)) as [|col [|col' rest]]; try discriminate.
  now intros [= <-].
Qed.

End CategorizedTable.

(** ** What the summary holds *)

Section SummaryFacts.

Context {num : Type} {RT : Runtime num}.

(** The keys of the summary are the categories of the rows that have
    an amount cell, each once. *)
Lemma summary_keys_rows (cats : list string) (vs : list (option num)) key :
  In key (map fst (sort_index (group_sums [] (combine (map Some cats) vs))))
  <-> In key (map fst (combine cats vs)).
Proof.
  rewrite (Permutation_in' (eq_refl key)
             (Permutation_map fst (sort_index_perm _))).
  rewrite group_sums_keys, combine_map_l, map_map. simpl.
  rewrite !in_map_iff. split.
  - intros [[]|(p & [= <-] & Hin)]. eauto.
  - intros (p & <- & Hin). right. eauto.
Qed.

(** In an exact runtime the sum filed under a key is the sum of the
    values of the rows of that key, a missing value counting 0. *)
Lemma summary_sums_exact {EX : ExactRuntime num RT}
      (cats : list string) (vs : list (option num)) key s :
  In (key, s) (sort_index (group_sums [] (combine (map Some cats) vs))) ->
  s = sum_list (map (fun r => value_or_zero (snd r))
                    (filter (fun r => String.eqb (fst r) key)
                            (combine cats vs))).
Proof.
  intros Hin.
  apply (Permutation_in _ (sort_index_perm _)) in Hin.
  apply summary_get_In in Hin; [|apply group_sums_NoDup; constructor].
  rewrite group_sums_get in Hin. simpl in Hin.
  destruct (existsb _ _); [|discriminate].
  injection Hin as <-. rewrite group_fold_spec, nadd_zero_l.
  rewrite combine_map_l, filter_map_comm, map_map. reflexivity.
Qed.

Lemma value_or_zero_coerce (c : cell num) :
  value_or_zero (coerce c) = amount_as_number c.
Proof. destruct c; reflexivity. Qed.

End SummaryFacts.

(** ** The advice run, computed *)

Section AdviceFacts.

Context {num : Type} {RT : Runtime num} {svc : Type}.
Implicit Types (self : App num svc) (w : World num svc).

Lemma advice_eq self data (vs : list (option num)) (cats : list string) w :
  column_of (standardize_columns data) "amount" = Some (map numeric_cell vs) ->
  column_of (standardize_columns data) "category" = Some (map Str cats) ->
  display_financial_advice self data w =
  let prompt :=
    advice_prompt (budget self) (series_sum vs)
                  (sort_index (group_sums [] (combine (map Some cats) vs))) in
  let (s', r) := generate_content (model self) (service w) prompt in
  (Ok tt,
   mkWorld s' (requests w ++ [prompt])
     (screen w ++
        match r with
        | Text t => [StWrite "### Personalized Financial Advice";
                     StWrite (strip t)]
        | Fault cause =>
            [StError ("An error occurred while generating financial advice: "
                        ++ cause)]
        end)
     (uploaded_data w)).
Proof.
  intros Ha Hc. unfold display_financial_advice, bind, lift.
  rewrite (getitem_series_column _ _ _ _ Ha).
  unfold groupby_sum.
  rewrite (getitem_series_column _ _ _ _ Hc). simpl.
  rewrite (getitem_series_column _ _ _ _ Ha). simpl.
  rewrite text_keys_Str, numbers_numeric, to_numeric_numeric. simpl.
  unfold try_except, bind, generate_text.
  destruct (generate_content _ _ _) as [s' [t|cause]]; simpl.
  - unfold st_write, show, sent. simpl. now rewrite <- app_assoc.
  - reflexivity.
Qed.

End AdviceFacts.

(** ** The aggregator *)

Section AggregatorClaims.

Context {num : Type} {RT : Runtime num}.
Implicit Types (d data : DataFrame num).

(** C8 (amended). The aggregator touches neither the model service nor
    the screen and is a function of the table; it does change the table
    it is given, replacing the amount column by its numeric coercion and
    nothing else; run again on the table it left, it yields the same
    summary and leaves that table as it is. *)
Theorem aggregate_rerun data data' summary :
  aggregate data = Ok (data', summary) ->
  aggregate data' = Ok (data', summary)
  /\ index_len data' = index_len data
  /\ labels data' = labels data
  /\ (forall l, l <> "amount" ->
        filter (fun col => String.eqb (fst col) l) (columns data')
        = filter (fun col => String.eqb (fst col) l) (columns data))
  /\ exists amount,
       column_of data "amount" = Some amount
       /\ column_of data' "amount" = Some (map numeric_cell (to_numeric amount)).
Proof.
  unfold aggregate at 1. intros H.
  destruct (getitem_series data "amount" _) as [amount|e] eqn:Ea;
    [|discriminate].
  apply getitem_series_inv in Ea. simpl in H.
  unfold setitem in H.
  destruct (List.length (map numeric_cell (to_numeric amount))
            =? index_len data)%nat eqn:Elen; [|discriminate].
  simpl in H.
  set (vs := map numeric_cell (to_numeric amount)) in *.
  destruct (groupby_sum (set_column data "amount" vs) "category" "amount")
    as [s|e] eqn:Eg; [|discriminate].
  simpl in H. injection H as <- <-.
  assert (Ea' : column_of (set_column data "amount" vs) "amount" = Some vs)
    by exact (set_column_same _ _ _ _ Ea).
  split.
  { unfold aggregate. rewrite (getitem_series_column _ _ _ _ Ea'). simpl.
    assert (Ev : map numeric_cell (to_numeric vs) = vs)
      by (unfold vs; now rewrite to_numeric_numeric).
    rewrite Ev. unfold setitem.
    rewrite set_column_index_len, Elen.
    rewrite (set_column_idem _ _ _ _ Ea). simpl. rewrite Eg. reflexivity. }
  split; [apply set_column_index_len|].
  split; [exact (set_column_labels _ _ _ _ Ea)|].
  split; [intros l Hl; now apply set_column_others|].
  exists amount. split; assumption.
Qed.

Context {svc : Type}.

(** C4 (amended). On a Categorized table (well-formed, standard labels,
    one amount column, one column of categories) the keys of the summary
    are the categories of the rows, each once, and the advice that
    follows is asked with the summary and with the sum of the coerced
    amount column for a total. In an exact runtime every key carries the
    sum of the amounts, unparsable and missing ones counting 0, of
    exactly the rows of that category, and the sums of the keys add up
    to that total. *)
Theorem aggregator_sums_by_category
        (self : App num svc) (w : World num svc) data amount cats :
  well_formed data = true ->
  standardize_columns data = data ->
  column_of data "amount" = Some amount ->
  column_of data "category" = Some (map Str cats) ->
  exists data' summary total,
    aggregate data = Ok (data', summary)
    /\ requests (snd (display_financial_advice self data' w))
       = (requests w ++ [advice_prompt (budget self) total summary])%list
    /\ total = series_sum (to_numeric amount)
    /\ NoDup (map fst summary)
    /\ (forall key, In key (map fst summary) <-> In key cats)
    /\ (ExactRuntime num RT ->
        (forall key s, In (key, s) summary ->
           s = sum_list (map (fun r => amount_as_number (snd r))
                             (filter (fun r => String.eqb (fst r) key)
                                     (combine cats amount))))
        /\ total = sum_list (map amount_as_number amount)
        /\ sum_list (map snd summary) = total).
Proof.
  intros Hwf Hstd Ha Hc.
  assert (Hlen : List.length cats = List.length (to_numeric amount)).
  { rewrite to_numeric_length, (well_formed_column _ _ _ Hwf Ha).
    rewrite <- (well_formed_column _ _ _ Hwf Hc). now rewrite length_map. }
  set (rows := combine (map Some cats) (to_numeric amount)).
  assert (Htotal : forall EX : ExactRuntime num RT,
             series_sum (to_numeric amount)
             = sum_list (map amount_as_number amount)).
  { intros EX. rewrite series_sum_spec. unfold to_numeric. rewrite map_map.
    f_equal. apply map_ext. intros c. apply value_or_zero_coerce. }
  eexists _, _, _.
  split; [exact (aggregate_eq data amount cats Hwf Ha Hc)|].
  fold rows. split; [|split; [reflexivity|split; [|split; [|intros EX; split; [|split]]]]].
  - assert (Hl : labels (set_column data "amount"
                           (map numeric_cell (to_numeric amount))) = labels data)
      by exact (set_column_labels _ _ _ _ Ha).
    assert (Hs : standardize_columns
                   (set_column data "amount"
                      (map numeric_cell (to_numeric amount)))
                 = set_column data "amount"
                     (map numeric_cell (to_numeric amount))).
    { apply standardize_fixed. rewrite Hl, <- standardize_labels.
      now rewrite Hstd. }
    rewrite (advice_eq self _ (to_numeric amount) cats w).
    + fold rows. cbv zeta.
      destruct (generate_content _ _ _) as [s' r]. reflexivity.
    + rewrite Hs. exact (set_column_same _ _ _ _ Ha).
    + rewrite Hs, set_column_other by discriminate. exact Hc.
  - apply summary_NoDup.
  - intros key. now apply summary_keys.
  - intros key s Hin. unfold rows in Hin.
    rewrite (summary_sums_exact cats (to_numeric amount) key s Hin).
    unfold to_numeric.
    change (map coerce amount) with (map (fun c => coerce c) amount).
    rewrite <- (map_id cats) at 1.
    rewrite combine_map_map, filter_map_comm, map_map. simpl.
    apply (f_equal sum_list), map_ext. intros r. apply value_or_zero_coerce.
  - apply Htotal, EX.
  - rewrite (Htotal EX).
    rewrite (sum_list_perm _ _ (Permutation_map snd (sort_index_perm _))).
    rewrite group_sums_total.
    + simpl. rewrite nadd_zero_l. unfold rows.
      rewrite <- (map_map snd value_or_zero).
      rewrite map_snd_combine by now rewrite length_map.
      unfold to_numeric. rewrite map_map.
      f_equal. apply map_ext. intros c. apply value_or_zero_coerce.
    + intros r Hr. unfold rows in Hr. rewrite combine_map_l in Hr.
      apply in_map_iff in Hr. destruct Hr as (q & <- & _). discriminate.
Qed.

End AggregatorClaims.

(** ** One press of the button, computed *)

Section FlowFacts.

Context {num : Type} {RT : Runtime num} {svc : Type}.
Implicit Types (self : App num svc) (w : World num svc).
Implicit Types (d data : DataFrame num).

Lemma row_lookup_count d label row c :
  In row (iterrows d) -> row_lookup row label = [c] -> label_count d label = 1.
Proof.
  unfold iterrows. intros Hin H. apply in_map_iff in Hin.
  destruct Hin as (i & <- & _). rewrite row_lookup_row_at in H.
  unfold label_count. apply (f_equal (@List.length _)) in H.
  now rewrite length_map in H.
Qed.

Lemma set_column_labels_gen d label vs :
  labels (set_column d label vs) =
  if existsb (String.eqb label) (labels d) then labels d
  else (labels d ++ [label])%list.
Proof.
  unfold set_column. destruct (existsb _ _); unfold labels; simpl.
  - rewrite map_map. apply map_ext. intros c.
    destruct (String.eqb (fst c) label) eqn:Ec; [|reflexivity].
    apply String.eqb_eq in Ec. now rewrite Ec.
  - now rewrite map_app.
Qed.

Lemma categorized_standard d vs :
  standardize_columns (set_column (standardize_columns d) "category" vs)
  = set_column (standardize_columns d) "category" vs.
Proof.
  apply standardize_fixed. rewrite set_column_labels_gen.
  assert (H : map standard_label (labels (standardize_columns d))
              = labels (standardize_columns d)).
  { rewrite <- standardize_labels. now rewrite standardize_idem. }
  destruct (existsb _ _); [exact H|].
  rewrite map_app, H. reflexivity.
Qed.

(** An accepted, well-formed table with one amount column, and charts
    that can be drawn: the press of the button runs the loop, shows the
    table and both charts of the summary, and ends with the one request
    for advice. *)
Lemma categorize_clicked_run self data w cats w1 amount :
  accepted data = true ->
  well_formed data = true ->
  label_count (standardize_columns data) "category" <= 1 ->
  column_of (standardize_columns data) "amount" = Some amount ->
  for_rows self (iterrows (standardize_columns data)) [] w = (Ok cats, w1) ->
  List.length cats = index_len data ->
  let out := set_column (standardize_columns data) "category" (map Str cats) in
  let vs := to_numeric amount in
  let summary := sort_index (group_sums [] (combine (map Some cats) vs)) in
  let prompt := advice_prompt (budget self) (series_sum vs) summary in
  barplot summary = Ok tt ->
  pie summary = Ok tt ->
  categorize_clicked self data w =
  let (s', r) := generate_content (model self) (service w1) prompt in
  (Ok tt,
   mkWorld s' (requests w1 ++ [prompt])
     (screen w1 ++
        [StWrite "### Categorized Data:"; StTable out;
         StWrite "### Bar Chart of Expenses by Category"; StBarChart summary;
         StWrite "### Pie Chart of Expenses by Category"; StPieChart summary]
        ++ match r with
           | Text t => [StWrite "### Personalized Financial Advice";
                        StWrite (strip t)]
           | Fault cause =>
               [StError ("An error occurred while generating financial advice: "
                           ++ cause)]
           end)
     (uploaded_data w1)).
Proof.
  intros Hacc Hwf Hcat Ha Hfor Hlen out vs summary prompt Hbar Hpie.
  destruct (categorized_columns (standardize_columns data) cats amount Hcat Ha)
    as [Hc' Ha'].
  fold out in Hc', Ha'.
  assert (Hwf' : well_formed out = true).
  { apply set_column_well_formed.
    - now rewrite standardize_well_formed.
    - now rewrite length_map. }
  assert (Hstd : standardize_columns
                   (set_column out "amount" (map numeric_cell vs))
                 = set_column out "amount" (map numeric_cell vs)).
  { apply standardize_fixed.
    rewrite (set_column_labels out "amount" _ amount Ha').
    rewrite <- standardize_labels. unfold out.
    now rewrite categorized_standard. }
  unfold categorize_clicked. rewrite Hacc.
  unfold try_except, bind at 1.
  unfold categorize_expenses, bind at 1, lift. rewrite Hfor. cbv beta iota.
  unfold setitem. rewrite length_map, Hlen.
  change (index_len (standardize_columns data)) with (index_len data).
  rewrite Nat.eqb_refl. fold out.
  unfold bind, st_write, show, display_graphs, bind, lift.
  cbv beta iota. rewrite (aggregate_eq out amount cats Hwf' Ha' Hc').
  fold vs summary.
  cbv beta iota delta [st_write show ret bind lift fst snd
                         service requests screen uploaded_data].
  rewrite Hbar, Hpie.
  cbv beta iota delta [st_write show ret bind lift fst snd
                         service requests screen uploaded_data].
  rewrite (advice_eq self _ vs cats).
  - fold summary prompt. cbv zeta. cbn [service requests screen uploaded_data].
    destruct (generate_content _ _ _) as [s' r].
    repeat rewrite <- app_assoc. reflexivity.
  - rewrite Hstd. exact (set_column_same _ _ _ _ Ha').
  - rewrite Hstd, set_column_other by discriminate. exact Hc'.
Qed.

End FlowFacts.

(** ** Missing amounts, failing calls *)

Section RowClaims.

Context {num : Type} {RT : Runtime num} {svc : Type}.
Implicit Types (self : App num svc) (w : World num svc).
Implicit Types (row : list (string * cell num)).

Lemma series_sum_skip (before after : list (option num)) :
  series_sum (before ++ None :: after) = series_sum (before ++ after).
Proof. unfold series_sum. now rewrite !fold_left_app. Qed.

Lemma group_fold_skip key k (rows1 rows2 : list (option string * option num)) s :
  group_fold k (rows1 ++ (Some key, None) :: rows2) s
  = group_fold k (rows1 ++ rows2) s.
Proof.
  unfold group_fold. rewrite !fold_left_app. simpl.
  now destruct (String.eqb key k).
Qed.

Lemma group_sums_skip key k x (rows1 rows2 : list (option string * option num)) :
  summary_get (group_sums [] (rows1 ++ rows2)) k = Some x ->
  summary_get (group_sums [] (rows1 ++ (Some key, None) :: rows2)) k = Some x.
Proof.
  rewrite !group_sums_get. simpl.
  rewrite !existsb_app. simpl. rewrite group_fold_skip.
  destruct (existsb _ rows1); simpl; [trivial|].
  destruct (existsb _ rows2); simpl; [|discriminate].
  now rewrite orb_true_r.
Qed.

(** C2 (amended). A row is left ["Uncategorized"], without a request
    and whatever its description, exactly when its amount is missing. A
    text that is no number is not missing: the row is sent to the model
    like any other. In the sums, such a text is coerced to a missing
    value and adds nothing to the total nor to the sum of any category. *)
Theorem uncategorized_iff_amount_missing self row c w :
  row_lookup row "amount" = [c] ->
  (c = Null -> categorize_row self row w = (Ok "Uncategorized", w))
  /\ (c <> Null ->
      exists category w',
        categorize_row self row w = (Ok category, w')
        /\ requests w' = (requests w ++ [classification_prompt row (Scalar c)])%list)
  /\ (forall s, c = Str s -> parse_num s = None ->
        coerce c = None
        /\ (forall before after,
              series_sum (to_numeric (before ++ c :: after))
              = series_sum (to_numeric (before ++ after)))
        /\ (forall rows1 rows2 key k x,
              summary_get (group_sums [] (rows1 ++ rows2)) k = Some x ->
              summary_get (group_sums [] (rows1 ++ (Some key, coerce c) :: rows2)) k
              = Some x)).
Proof.
  intros Hc. rewrite (categorize_row_eq self row c w Hc).
  split; [|split].
  - intros ->. reflexivity.
  - intros Hn. destruct c as [|x|s]; [contradiction| |]; simpl;
      destruct (generate_content _ _ _) as [s' r]; eexists _, _;
      (split; [reflexivity|reflexivity]).
  - intros s -> Hp. simpl. rewrite Hp. split; [reflexivity|]. split.
    + intros before after. unfold to_numeric. rewrite !map_app. simpl.
      rewrite Hp. apply series_sum_skip.
    + intros rows1 rows2 key k x. apply group_sums_skip.
Qed.

(** C3. When the call for one row fails, that row's category is
    ["Error: "] followed by the cause; the loop goes on: the rows before
    keep the categories of their own run, the rows after get theirs from
    the service as the failed call left it, and the table is returned.
    The press of the button then goes on to the aggregator, which runs
    over that whole table: the chart drawn from its summary has the
    categories of all rows for keys, the error token among them. *)
Theorem service_failure_stays_in_its_row
        self data w before row after cats1 w1 c s2 cause :
  iterrows (standardize_columns data) = (before ++ row :: after)%list ->
  for_rows self before [] w = (Ok cats1, w1) ->
  row_lookup row "amount" = [c] ->
  isnull c = false ->
  generate_content (model self) (service w1)
    (classification_prompt row (Scalar c)) = (s2, Fault cause) ->
  exists cats2 w2,
    for_rows self after []
             (sent w1 s2 (classification_prompt row (Scalar c)))
      = (Ok cats2, w2)
    /\ categorize_expenses self data w
       = (Ok (set_column (standardize_columns data) "category"
                (map Str (cats1 ++ ("Error: " ++ cause)%string :: cats2))), w2)
    /\ (accepted data = true ->
        well_formed data = true ->
        label_count (standardize_columns data) "category" <= 1 ->
        exists data' summary,
          aggregate (set_column (standardize_columns data) "category"
                       (map Str (cats1 ++ ("Error: " ++ cause)%string :: cats2)))
            = Ok (data', summary)
          /\ (forall key, In key (map fst summary) <->
                 In key (cats1 ++ ("Error: " ++ cause)%string :: cats2)%list)
          /\ (barplot summary = Ok tt -> pie summary = Ok tt ->
              exists w3,
                categorize_clicked self data w = (Ok tt, w3)
                /\ In (StBarChart summary) (screen w3))).
Proof.
  intros Hrows Hbefore Hc Hn Hcall.
  assert (Hcount : label_count (standardize_columns data) "amount" = 1).
  { apply (row_lookup_count _ _ row c); [|exact Hc].
    rewrite Hrows. apply in_or_app. right. now left. }
  pose proof (iterrows_unique _ "amount" Hcount) as Huniq.
  rewrite Hrows in Huniq. apply Forall_app in Huniq.
  destruct Huniq as [_ Huniq]. inversion Huniq as [|? ? _ Hafter]; subst.
  destruct (for_rows_total self after
              (sent w1 s2 (classification_prompt row (Scalar c))) Hafter)
    as (cats2 & w2 & Eafter).
  assert (Eall : for_rows self (iterrows (standardize_columns data)) [] w
                 = (Ok (cats1 ++ ("Error: " ++ cause)%string :: cats2)%list, w2)).
  { rewrite Hrows, for_rows_app, Hbefore. simpl. unfold bind.
    rewrite (categorize_row_eq self row c w1 Hc), Hn. simpl. rewrite Hcall.
    rewrite for_rows_acc, Eafter. now rewrite <- app_assoc. }
  assert (Elen : List.length (cats1 ++ ("Error: " ++ cause)%string :: cats2)
                 = index_len data).
  { destruct (for_rows_run self _ (iterrows_unique _ "amount" Hcount) [] w)
      as (cats & w' & E & Hrun).
    rewrite Eall in E. cbn [app] in E.
    assert (E' : (cats1 ++ ("Error: " ++ cause)%string :: cats2)%list = cats)
      by congruence.
    rewrite E'.
    rewrite (run_rows_length _ _ _ _ _ Hrun), iterrows_length. reflexivity. }
  exists cats2, w2. split; [exact Eafter|]. split.
  - unfold categorize_expenses, bind, lift. rewrite Eall. cbv beta iota.
    unfold setitem. rewrite length_map, Elen.
    change (index_len (standardize_columns data)) with (index_len data).
    rewrite Nat.eqb_refl. reflexivity.
  - intros Hacc Hwf Hcat.
    destruct (label_count_column _ _ Hcount) as [amount Ha].
    destruct (categorized_columns (standardize_columns data)
                (cats1 ++ ("Error: " ++ cause)%string :: cats2) amount Hcat Ha)
      as [Hc' Ha'].
    assert (Hwf' : well_formed
                     (set_column (standardize_columns data) "category"
                        (map Str (cats1 ++ ("Error: " ++ cause)%string :: cats2)))
                   = true).
    { apply set_column_well_formed.
      - now rewrite standardize_well_formed.
      - now rewrite length_map. }
    eexists _, _. split; [exact (aggregate_eq _ _ _ Hwf' Ha' Hc')|]. split.
    + intros key. apply summary_keys.
      rewrite to_numeric_length, Elen.
      symmetry. change (index_len data)
        with (index_len (standardize_columns data)).
      apply well_formed_column with (label := "amount"); [|exact Ha].
      now rewrite standardize_well_formed.
    + intros Hbar Hpie.
      pose proof (categorize_clicked_run self data w _ w2 amount
                    Hacc Hwf Hcat Ha Eall Elen Hbar Hpie) as Hrun.
      cbv zeta in Hrun.
      destruct (generate_content (model self) (service w2) _) as [s' r].
      eexists. split; [exact Hrun|].
      cbn [screen]. apply in_or_app. right. apply in_or_app. left.
      simpl. tauto.
Qed.

End RowClaims.

(** ** The guard, the advice, the column names *)

Section AppClaims.

Context {num : Type} {RT : Runtime num} {svc : Type}.
Implicit Types (self : App num svc) (w : World num svc).

(** C5. Pressing the button on a table that is empty or holds nothing
    but missing values only shows the warning: no request goes out, the
    service is left as it was, and neither a table nor a chart nor an
    advice reaches the screen. *)
Theorem empty_table_is_not_categorized
        self (data_editor : DataFrame num -> DataFrame num) w :
  let data :=
    match uploaded_data w with
    | Some data => data
    | None => mkFrame 0 [("Date", []); ("Description", []); ("Amount", [])]
    end in
  let heading :=
    match uploaded_data w with
    | Some _ => []
    | None => [StWrite "Please enter your spending data below:"]
    end in
  empty (data_editor data) = true \/ all_null (data_editor data) = true ->
  display_table self data_editor true w =
  (Ok tt,
   mkWorld (service w) (requests w)
     (screen w ++ heading
        ++ [StWarning "Please enter valid financial data to categorize."])
     (uploaded_data w)).
Proof.
  intros data heading H.
  assert (Hacc : accepted (data_editor data) = false).
  { unfold accepted. destruct H as [-> | ->]; simpl; [reflexivity|].
    apply andb_false_r. }
  unfold display_table, categorize_clicked, table_to_edit, data, heading in *.
  destruct w as [s reqs scr [up|]]; simpl in *; unfold bind, ret; simpl.
  - rewrite Hacc. reflexivity.
  - rewrite Hacc. unfold st_warning, show. simpl.
    now rewrite <- app_assoc.
Qed.

(** C7. On a table with a numeric amount column and a column of
    categories, [display_financial_advice] sends exactly one request.
    Its prompt is one text that carries the budget and the total
    expenditure, both printed with two decimals after a dollar sign, and
    the whole mapping from category to amount: every category of the
    table is a key of it, once. In an exact runtime the total is the
    sum of the amounts and every key carries the sum of the amounts of
    its rows, a missing amount counting 0. The answer is shown without
    the blanks it starts and ends with (for an answer in the ASCII
    range) and otherwise as it came; a failed call is shown as an error
    and not tried again. *)
Theorem advice_is_one_request
        self data (vs : list (option num)) (cats : list string) w :
  column_of (standardize_columns data) "amount" = Some (map numeric_cell vs) ->
  column_of (standardize_columns data) "category" = Some (map Str cats) ->
  let total := series_sum vs in
  let breakdown := sort_index (group_sums [] (combine (map Some cats) vs)) in
  let prompt :=
    "You are a financial advisor. Based on the following financial data, provide highly specific financial advice:" ++ nl
    ++ "Budget: $" ++ fmt_2f (budget self) ++ nl
    ++ "Total Expenditure: $" ++ fmt_2f total ++ nl
    ++ "Expense Breakdown: "
    ++ ("{" ++ String.concat ", "
                 (map (fun kv => repr_str (fst kv) ++ ": " ++ repr_num (snd kv))
                      breakdown)
            ++ "}") ++ nl
    ++ "Provide unique advice that takes into account the user's spending patterns, and provide actionable steps that are tailored to reducing spending where necessary and optimizing their budget." in
  exists w',
    display_financial_advice self data w = (Ok tt, w')
    /\ requests w' = (requests w ++ [prompt])%list
    /\ NoDup (map fst breakdown)
    /\ (forall key, In key (map fst breakdown)
                    <-> In key (map fst (combine cats vs)))
    /\ (ExactRuntime num RT ->
        total = sum_list (map value_or_zero vs)
        /\ forall key s, In (key, s) breakdown ->
             s = sum_list (map (fun r => value_or_zero (snd r))
                               (filter (fun r => String.eqb (fst r) key)
                                       (combine cats vs))))
    /\ (forall s' t,
          generate_content (model self) (service w) prompt = (s', Text t) ->
          exists advice,
            screen w' = (screen w ++ [StWrite "### Personalized Financial Advice";
                                      StWrite advice])%list
            /\ (ascii_only t = true -> trimmed_of t advice))
    /\ (forall s' cause,
          generate_content (model self) (service w) prompt = (s', Fault cause) ->
          screen w' =
          (screen w ++
             [StError ("An error occurred while generating financial advice: "
                         ++ cause)])%list).
Proof.
  intros Ha Hc total breakdown prompt.
  assert (Ep : advice_prompt (budget self) (series_sum vs) breakdown = prompt).
  { unfold advice_prompt, dict_repr, prompt, total.
    now rewrite join_concat. }
  rewrite (advice_eq self data vs cats w Ha Hc). fold breakdown.
  cbv zeta. rewrite Ep.
  destruct (generate_content (model self) (service w) prompt) as [s1 r] eqn:E.
  eexists. split; [reflexivity|]. cbn [requests screen].
  split; [reflexivity|].
  split; [apply summary_NoDup|].
  split; [intros key; apply summary_keys_rows|].
  split.
  { intros EX. split; [apply series_sum_spec|].
    intros key s. apply summary_sums_exact. }
  split; intros s' x Hx; injection Hx as _ ->; [|reflexivity].
  eexists. split; [reflexivity|]. intros _. apply strip_trimmed.
Qed.

(** C9 (amended). The normaliser strips and lower-cases every column
    name, for good; the names that are then [date], [description] or
    [amount] become [Date], [Description], [Amount]; every other name
    stays in its stripped, lower-cased form. Nothing else of the table
    changes. *)
Theorem normalize_upload_labels (d : DataFrame num) :
  labels (normalize_upload d) =
    map (fun name =>
           let key := lower (strip name) in
           if String.eqb key "date" then "Date"
           else if String.eqb key "description" then "Description"
           else if String.eqb key "amount" then "Amount"
           else key)
        (labels d)
  /\ map snd (columns (normalize_upload d)) = map snd (columns d)
  /\ index_len (normalize_upload d) = index_len d.
Proof.
  unfold normalize_upload, rename_columns, standardize_columns, labels.
  cbn [columns index_len]. rewrite !map_map.
  split; [|split; [|reflexivity]].
  - apply map_ext. intros [name vs]. cbn [fst snd].
    unfold standard_label, column_mapping, dict_get.
    rewrite !(String.eqb_sym _ (lower (strip name))). reflexivity.
  - apply map_ext. intros [name vs]. reflexivity.
Qed.

End AppClaims.

(** ** The program at work on concrete tables *)

Import IntAmounts.

(** C1, as stated, fails: a table with no amount column passes the
    guard of the button, and [categorize_expenses] raises on it. *)
Lemma categorize_expenses_without_amount_column :
  accepted price_table = true
  /\ categorize_expenses (app (constant_model "Food") 0%Z) price_table
       (world0 tt) = (Raised (KeyError "amount"), world0 tt)
  /\ ~ (exists out w',
          categorize_expenses (app (constant_model "Food") 0%Z) price_table
            (world0 tt) = (Ok out, w')).
Proof.
  split; [reflexivity|]. split; [reflexivity|].
  intros (out & w' & H). discriminate H.
Qed.

Lemma categorize_expenses_one_category_per_row_witness :
  label_count (standardize_columns sample_table) "amount" = 1
  /\ exists categories out w',
       categorize_expenses (app (failing_model 1 "Food" "boom") 0%Z)
         sample_table (world0 0) = (Ok out, w')
       /\ index_len out = index_len sample_table
       /\ List.length categories = index_len sample_table
       /\ In "category" (labels out)
       /\ (forall col, In col (columns out) -> fst col = "category" ->
                       snd col = map Str categories)
       /\ (forall l, l <> "category" ->
             filter (fun col => String.eqb (fst col) l) (columns out)
             = filter (fun col => String.eqb (fst col) l)
                      (columns (standardize_columns sample_table)))
       /\ Forall2 (fun row category =>
                     exists w1 w2,
                       classified (app (failing_model 1 "Food" "boom") 0%Z)
                                  row w1 category w2)
                  (iterrows (standardize_columns sample_table)) categories.
Proof.
  split; [reflexivity|].
  apply (categorize_expenses_one_category_per_row
           (app (failing_model 1 "Food" "boom") 0%Z) sample_table (world0 0)).
  reflexivity.
Defined.

(** C2, as stated, fails: the amount [abc] is no number, yet the row
    is sent to the model and gets its answer for a category. *)
Lemma text_amount_is_sent_to_the_model :
  parse_num "abc" = None
  /\ categorize_expenses (app (constant_model "Food") 0%Z) abc_table (world0 tt)
     = (Ok abc_categorized,
        mkWorld tt
          ["Categorize the following expense: Description: 'Rent', Amount: 'abc'"]
          [] None)
  /\ ~ (exists w',
          categorize_row (app (constant_model "Food") 0%Z)
            (row_at (standardize_columns abc_table) 0) (world0 tt)
          = (Ok "Uncategorized", w')
          /\ requests w' = []).
Proof.
  split; [reflexivity|]. split; [reflexivity|].
  intros (w' & H & _). discriminate H.
Qed.

Lemma uncategorized_iff_amount_missing_witness :
  row_lookup (row_at (standardize_columns sample_table) 2) "amount" = [Null]
  /\ categorize_row (app (constant_model "Food") 0%Z)
       (row_at (standardize_columns sample_table) 2) (world0 tt)
     = (Ok "Uncategorized", world0 tt).
Proof.
  split; [reflexivity|].
  apply (uncategorized_iff_amount_missing
           (app (constant_model "Food") 0%Z)
           (row_at (standardize_columns sample_table) 2) Null (world0 tt));
    reflexivity.
Defined.

Lemma service_failure_stays_in_its_row_witness :
  iterrows (standardize_columns sample_table)
    = ([row_at (standardize_columns sample_table) 0]
         ++ row_at (standardize_columns sample_table) 1
         :: [row_at (standardize_columns sample_table) 2])%list
  /\ for_rows (app (failing_model 1 "Food" "boom") 0%Z)
       [row_at (standardize_columns sample_table) 0] [] (world0 0)
     = (Ok ["Food"],
        mkWorld 1
          ["Categorize the following expense: Description: 'Coffee', Amount: '4'"]
          [] None)
  /\ row_lookup (row_at (standardize_columns sample_table) 1) "amount"
     = [Str "abc"]
  /\ generate_content (failing_model 1 "Food" "boom") 1
       (classification_prompt (row_at (standardize_columns sample_table) 1)
                              (Scalar (Str "abc")))
     = (2, Fault "boom")
  /\ exists cats2 w2,
    for_rows (app (failing_model 1 "Food" "boom") 0%Z)
      [row_at (standardize_columns sample_table) 2] []
      (sent (mkWorld 1
               ["Categorize the following expense: Description: 'Coffee', Amount: '4'"]
               [] None) 2
            (classification_prompt (row_at (standardize_columns sample_table) 1)
                                   (Scalar (Str "abc"))))
    = (Ok cats2, w2)
    /\ categorize_expenses (app (failing_model 1 "Food" "boom") 0%Z)
         sample_table (world0 0)
       = (Ok (set_column (standardize_columns sample_table) "category"
                (map Str (["Food"] ++ "Error: boom" :: cats2))), w2)
    /\ (accepted sample_table = true ->
        well_formed sample_table = true ->
        label_count (standardize_columns sample_table) "category" <= 1 ->
        exists data' summary,
          aggregate (set_column (standardize_columns sample_table) "category"
                       (map Str (["Food"] ++ "Error: boom" :: cats2)))
            = Ok (data', summary)
          /\ (forall key, In key (map fst summary) <->
                 In key (["Food"] ++ "Error: boom" :: cats2)%list)
          /\ (barplot summary = Ok tt -> pie summary = Ok tt ->
              exists w3,
                categorize_clicked (app (failing_model 1 "Food" "boom") 0%Z)
                  sample_table (world0 0) = (Ok tt, w3)
                /\ In (StBarChart summary) (screen w3))).
Proof.
  do 4 (split; [reflexivity|]).
  exact (service_failure_stays_in_its_row
           (app (failing_model 1 "Food" "boom") 0%Z) sample_table (world0 0)
           [row_at (standardize_columns sample_table) 0]
           (row_at (standardize_columns sample_table) 1)
           [row_at (standardize_columns sample_table) 2]
           ["Food"]
           (mkWorld 1
              ["Categorize the following expense: Description: 'Coffee', Amount: '4'"]
              [] None)
           (Str "abc") 2 "boom" eq_refl eq_refl eq_refl eq_refl eq_refl).
Defined.

(** The binary64 runtime at work: reading, adding, printing. *)
#[warnings="-inexact-float"] Lemma binary64_examples :
  Binary64.parse "4.50" = Some 4.5%float
  /\ Binary64.parse "abc" = None
  /\ Binary64.repr (0.1 + 0.2)%float = "0.30000000000000004"
  /\ Binary64.repr 1210%float = "1210.0"
  /\ Binary64.fixed2 0.6000000000000001%float = "0.60"
  /\ Binary64.fixed2 2.675%float = "2.67"
  /\ advice_prompt (RT := Binary64.runtime) 100%float 0.6000000000000001%float
       [("Food", 0.1%float); ("Travel", 0.5%float)]
     = "You are a financial advisor. Based on the following financial data, provide highly specific financial advice:" ++ nl
       ++ "Budget: $100.00" ++ nl
       ++ "Total Expenditure: $0.60" ++ nl
       ++ "Expense Breakdown: {'Food': 0.1, 'Travel': 0.5}" ++ nl
       ++ "Provide unique advice that takes into account the user's spending patterns, and provide actionable steps that are tailored to reducing spending where necessary and optimizing their budget.".
Proof.
  repeat split; vm_compute; reflexivity.
Qed.

(** C4, as stated, fails on amounts in binary floating point. Three
    expenses of 0.1, 0.2 and 0.3 in two categories: the sums of the keys
    are 0.1 and 0.5 and add up to 0.6, and the total expenditure the
    advice is asked with is 0.6000000000000001. *)
#[warnings="-inexact-float"] Lemma float_sums_miss_the_total :
  aggregate (RT := Binary64.runtime) Binary64.float_ledger
    = Ok (Binary64.float_ledger,
          [("Food", 0.1%float); ("Travel", 0.5%float)])
  /\ aggregate (RT := Binary64.runtime) Binary64.float_ledger_text
     = Ok (Binary64.float_ledger,
           [("Food", 0.1%float); ("Travel", 0.5%float)])
  /\ sum_list (RT := Binary64.runtime)
       (map snd [("Food", 0.1%float); ("Travel", 0.5%float)])
     = 0.6%float
  /\ requests
       (snd (display_financial_advice (RT := Binary64.runtime)
               {| model := constant_model "Save."; budget := 100%float |}
               Binary64.float_ledger (mkWorld tt [] [] None)))
     = [advice_prompt (RT := Binary64.runtime) 100%float
          0.6000000000000001%float
          [("Food", 0.1%float); ("Travel", 0.5%float)]]
  /\ series_sum (RT := Binary64.runtime)
       (to_numeric (RT := Binary64.runtime)
          [Num 0.1%float; Num 0.2%float; Num 0.3%float])
     = 0.6000000000000001%float
  /\ ~ (exists data' summary,
          aggregate (RT := Binary64.runtime) Binary64.float_ledger
            = Ok (data', summary)
          /\ sum_list (RT := Binary64.runtime) (map snd summary)
             = series_sum (RT := Binary64.runtime)
                 (to_numeric (RT := Binary64.runtime)
                    [Num 0.1%float; Num 0.2%float; Num 0.3%float])).
Proof.
  do 5 (split; [vm_compute; reflexivity|]).
  intros (data' & summary & Ha & Hs).
  vm_compute in Ha. injection Ha as _ <-.
  apply (f_equal (fun x => PrimFloat.eqb x (3 / 5)%float)) in Hs.
  vm_compute in Hs. discriminate Hs.
Qed.

Lemma aggregator_sums_by_category_witness :
  well_formed ledger = true
  /\ standardize_columns ledger = ledger
  /\ column_of ledger "amount"
     = Some [Num 4%Z; Num 1200%Z; Str "6"; Str "abc"]
  /\ column_of ledger "category"
     = Some (map Str ["Food"; "Housing"; "Food"; "Food"])
  /\ aggregate ledger
     = Ok (ledger_numeric, [("Food", 10%Z); ("Housing", 1200%Z)])
  /\ map amount_as_number [Num 4%Z; Num 1200%Z; Str "6"; Str "abc"]
     = [4%Z; 1200%Z; 6%Z; 0%Z]
  /\ exists data' summary total,
       aggregate ledger = Ok (data', summary)
       /\ requests (snd (display_financial_advice
                           (app (constant_model "Save.") 1500%Z) data'
                           (world0 tt)))
          = [advice_prompt 1500%Z total summary]
       /\ total = 1210%Z
       /\ NoDup (map fst summary)
       /\ (forall key, In key (map fst summary) <->
                       In key ["Food"; "Housing"; "Food"; "Food"])
       /\ (forall key s, In (key, s) summary ->
              s = sum_list
                    (map (fun r => amount_as_number (snd r))
                         (filter (fun r => String.eqb (fst r) key)
                                 (combine ["Food"; "Housing"; "Food"; "Food"]
                                    [Num 4%Z; Num 1200%Z; Str "6"; Str "abc"]))))
       /\ total = sum_list [4%Z; 1200%Z; 6%Z; 0%Z]
       /\ sum_list (map snd summary) = total.
Proof.
  do 6 (split; [reflexivity|]).
  destruct (aggregator_sums_by_category
              (app (constant_model "Save.") 1500%Z) (world0 tt) ledger
              [Num 4%Z; Num 1200%Z; Str "6"; Str "abc"]
              ["Food"; "Housing"; "Food"; "Food"]
              eq_refl eq_refl eq_refl eq_refl)
    as (data' & summary & total & Ha & Hr & Ht & Hn & Hk & Hex).
  destruct (Hex int_amounts_exact) as (Hs & Htot & Hsum).
  exists data', summary, total.
  split; [exact Ha|]. split; [exact Hr|]. split; [exact Ht|].
  split; [exact Hn|]. split; [exact Hk|]. split; [exact Hs|].
  split; [exact Htot|exact Hsum].
Defined.

Lemma empty_table_is_not_categorized_witness :
  empty (@mkFrame Z 0 [("Date", []); ("Description", []); ("Amount", [])]) = true
  /\ display_table (app (constant_model "Food") 100%Z) (fun d => d) true
       (world0 tt)
     = (Ok tt,
        mkWorld tt []
          [StWrite "Please enter your spending data below:";
           StWarning "Please enter valid financial data to categorize."]
          None).
Proof.
  split; [reflexivity|].
  apply (empty_table_is_not_categorized
           (app (constant_model "Food") 100%Z) (fun d => d) (world0 tt)).
  left. reflexivity.
Defined.


Lemma advice_is_one_request_witness :
  column_of (standardize_columns ledger_numeric) "amount"
    = Some (map numeric_cell [Some 4%Z; Some 1200%Z; Some 6%Z; None])
  /\ column_of (standardize_columns ledger_numeric) "category"
     = Some (map Str ["Food"; "Housing"; "Food"; "Food"])
  /\ display_financial_advice (app (constant_model (" Save more. " ++ nl)) 1500%Z)
       ledger_numeric (world0 tt)
     = (Ok tt,
        mkWorld tt
          ["You are a financial advisor. Based on the following financial data, provide highly specific financial advice:" ++ nl
           ++ "Budget: $1500.00" ++ nl
           ++ "Total Expenditure: $1210.00" ++ nl
           ++ "Expense Breakdown: {'Food': 10, 'Housing': 1200}" ++ nl
           ++ "Provide unique advice that takes into account the user's spending patterns, and provide actionable steps that are tailored to reducing spending where necessary and optimizing their budget."]
          [StWrite "### Personalized Financial Advice"; StWrite "Save more."]
          None)
  /\ exists w',
       display_financial_advice (app (constant_model (" Save more. " ++ nl)) 1500%Z)
         ledger_numeric (world0 tt) = (Ok tt, w')
       /\ requests w'
          = ["You are a financial advisor. Based on the following financial data, provide highly specific financial advice:" ++ nl
             ++ "Budget: $1500.00" ++ nl
             ++ "Total Expenditure: $1210.00" ++ nl
             ++ "Expense Breakdown: {'Food': 10, 'Housing': 1200}" ++ nl
             ++ "Provide unique advice that takes into account the user's spending patterns, and provide actionable steps that are tailored to reducing spending where necessary and optimizing their budget."]
       /\ series_sum [Some 4%Z; Some 1200%Z; Some 6%Z; None] = 1210%Z
       /\ screen w' = [StWrite "### Personalized Financial Advice";
                       StWrite "Save more."].
Proof.
  do 3 (split; [reflexivity|]).
  destruct (advice_is_one_request
              (app (constant_model (" Save more. " ++ nl)) 1500%Z) ledger_numeric
              [Some 4%Z; Some 1200%Z; Some 6%Z; None]
              ["Food"; "Housing"; "Food"; "Food"] (world0 tt)
              eq_refl eq_refl) as (w' & E & Hreq & _ & _ & Hex & Hok & _).
  exists w'. split; [exact E|]. split; [exact Hreq|].
  split; [exact (proj1 (Hex int_amounts_exact))|].
  destruct (Hok tt (" Save more. " ++ nl) eq_refl) as (advice & Hs & Ht).
  rewrite (trimmed_of_strip _ _ (Ht eq_refl)) in Hs. exact Hs.
Defined.

(** C8, as stated, fails: the aggregator replaces the amount column
    of the table it is given. *)
Lemma aggregate_changes_the_table :
  aggregate abc_categorized =
    Ok (mkFrame 1 [("description", [Str "Rent"]); ("amount", [Null]);
                   ("category", [Str "Food"])],
        [("Food", 0%Z)])
  /\ ~ (exists summary, aggregate abc_categorized = Ok (abc_categorized, summary)).
Proof.
  split; [reflexivity|]. intros (summary & H). discriminate H.
Qed.

Lemma aggregate_rerun_witness :
  aggregate ledger = Ok (ledger_numeric, [("Food", 10%Z); ("Housing", 1200%Z)])
  /\ aggregate ledger_numeric
     = Ok (ledger_numeric, [("Food", 10%Z); ("Housing", 1200%Z)]).
Proof.
  split; [reflexivity|].
  apply (aggregate_rerun ledger ledger_numeric
           [("Food", 10%Z); ("Housing", 1200%Z)]).
  reflexivity.
Defined.

(** C9, as stated, fails: a name without a canonical form does not
    pass through unchanged, it comes out lower-cased. *)
Lemma unmapped_label_is_lowercased :
  labels (normalize_upload merchant_table) = ["merchant"; "Amount"]
  /\ labels (normalize_upload merchant_table)
     <> ["Merchant"; "Amount"].
Proof.
  split; [reflexivity|]. discriminate.
Qed.

(** * Further properties of the code *)

(** ** The normaliser of uploads *)

Section NormalizerFacts.

Context {num : Type} {RT : Runtime num} {svc : Type}.
Implicit Types (d : DataFrame num) (self : App num svc) (w : World num svc).

Lemma standard_label_renamed c :
  standard_label (dict_get column_mapping (standard_label c) (standard_label c))
  = standard_label c.
Proof.
  unfold column_mapping, dict_get.
  destruct (String.eqb "date" (standard_label c)) eqn:E1.
  { apply String.eqb_eq in E1. now rewrite <- E1. }
  destruct (String.eqb "description" (standard_label c)) eqn:E2.
  { apply String.eqb_eq in E2. now rewrite <- E2. }
  destruct (String.eqb "amount" (standard_label c)) eqn:E3.
  { apply String.eqb_eq in E3. now rewrite <- E3. }
  apply standard_label_idem.
Qed.

Lemma standardize_normalize_upload d :
  standardize_columns (normalize_upload d) = standardize_columns d.
Proof.
  unfold normalize_upload, rename_columns, standardize_columns.
  cbn [columns index_len]. f_equal. rewrite !map_map.
  apply map_ext. intros [name vs]. cbn [fst snd].
  now rewrite standard_label_renamed.
Qed.

Lemma forallb_relabel {A B} (p : B -> bool) (g : A * B -> A * B)
      (l : list (A * B)) :
  (forall x, snd (g x) = snd x) ->
  forallb (fun col => p (snd col)) (map g l)
  = forallb (fun col => p (snd col)) l.
Proof.
  intros Hg. induction l as [|x l IH]; cbn [map forallb]; [reflexivity|].
  now rewrite Hg, IH.
Qed.

Lemma accepted_normalize_upload d :
  accepted (normalize_upload d) = accepted d.
Proof.
  assert (He : empty (normalize_upload d) = empty d).
  { unfold empty, normalize_upload, rename_columns, standardize_columns.
    cbn [columns index_len]. now rewrite !length_map. }
  assert (Hn : all_null (normalize_upload d) = all_null d).
  { unfold all_null, normalize_upload, rename_columns, standardize_columns.
    cbn [columns index_len].
    rewrite !(forallb_relabel (forallb isnull)) by reflexivity.
    reflexivity. }
  unfold accepted. now rewrite He, Hn.
Qed.

(** X1. Normalising an upload twice is normalising it once: the
    canonical names [Date], [Description], [Amount] are found again
    under their lower-case forms. *)
Theorem normalize_upload_idempotent d :
  normalize_upload (normalize_upload d) = normalize_upload d.
Proof.
  unfold normalize_upload at 1. rewrite standardize_normalize_upload.
  reflexivity.
Qed.

(** X2. The canonical names do not reach the classification: pressing
    the button on a normalised upload does what it does on the raw
    table, and the table that comes back carries lower-case labels. *)
Theorem categorize_after_normalize_upload self d w :
  categorize_expenses self (normalize_upload d) w = categorize_expenses self d w
  /\ categorize_clicked self (normalize_upload d) w = categorize_clicked self d w.
Proof.
  assert (E : categorize_expenses self (normalize_upload d) w
              = categorize_expenses self d w).
  { unfold categorize_expenses. now rewrite standardize_normalize_upload. }
  split; [exact E|].
  unfold categorize_clicked. rewrite accepted_normalize_upload.
  destruct (accepted d); [|reflexivity].
  unfold try_except, bind. now rewrite E.
Qed.

End NormalizerFacts.

(** ** The loop over a whole table *)

Section TableFacts.

Context {num : Type} {RT : Runtime num} {svc : Type}.
Implicit Types (self : App num svc) (w : World num svc).
Implicit Types (d data : DataFrame num) (row : list (string * cell num)).

Lemma classified_log self row w category w' :
  classified self row w category w' ->
  requests w' = (requests w ++ row_prompts [row])%list
  /\ screen w' = screen w
  /\ uploaded_data w' = uploaded_data w.
Proof.
  unfold row_prompts. simpl.
  destruct 1 as [w H|w c s' t H Hn _|w c s' cause H Hn _]; rewrite H; simpl.
  - now rewrite !app_nil_r.
  - rewrite Hn. simpl. auto.
  - rewrite Hn. simpl. auto.
Qed.

Lemma row_prompts_cons row (rest : list (list (string * cell num))) :
  row_prompts (row :: rest) = (row_prompts [row] ++ row_prompts rest)%list.
Proof. unfold row_prompts. simpl. now rewrite app_nil_r. Qed.

Lemma run_rows_log self rows w categories w' :
  run_rows self rows w categories w' ->
  requests w' = (requests w ++ row_prompts rows)%list
  /\ screen w' = screen w
  /\ uploaded_data w' = uploaded_data w.
Proof.
  induction 1 as [w|row rest w cat w1 cats w2 Hcl _ (IH1 & IH2 & IH3)].
  - unfold row_prompts. simpl. now rewrite app_nil_r.
  - destruct (classified_log _ _ _ _ _ Hcl) as (H1 & H2 & H3).
    rewrite IH1, IH2, IH3, H1, H2, H3, (row_prompts_cons row rest).
    now rewrite <- app_assoc.
Qed.

(** X3. On a table with one amount column, [categorize_expenses] sends
    the prompts of the rows that have an amount, in the order of the
    rows, and nothing else: it shows nothing and leaves the session
    store alone. *)
Theorem categorize_expenses_requests self data w :
  label_count (standardize_columns data) "amount" = 1 ->
  exists out w',
    categorize_expenses self data w = (Ok out, w')
    /\ requests w'
       = (requests w ++ row_prompts (iterrows (standardize_columns data)))%list
    /\ screen w' = screen w
    /\ uploaded_data w' = uploaded_data w.
Proof.
  intros H.
  destruct (categorize_expenses_run self data w H) as (cats & w' & E & Hrun).
  eexists _, w'. split; [exact E|]. exact (run_rows_log _ _ _ _ _ Hrun).
Qed.

Lemma iterrows_cons d :
  0 < index_len d ->
  exists rest, iterrows d = row_at d 0 :: rest.
Proof.
  unfold iterrows. destruct (index_len d) as [|n]; [lia|]. intros _.
  simpl. eauto.
Qed.

Lemma row_lookup_length d i label :
  List.length (row_lookup (row_at d i) label) = label_count d label.
Proof. rewrite row_lookup_row_at, length_map. reflexivity. Qed.

(** X4. [categorize_expenses] returns a table exactly when the table
    has no row or its standardized labels hold [amount] once. With a row
    and no amount column it raises [KeyError], with a row and the column
    repeated it raises pandas' [ValueError] for the truth value of a
    Series; both before any request is sent. *)
Theorem categorize_expenses_succeeds_iff self data w :
  ((exists out w', categorize_expenses self data w = (Ok out, w'))
   <-> index_len data = 0
       \/ label_count (standardize_columns data) "amount" = 1)
  /\ (0 < index_len data ->
      label_count (standardize_columns data) "amount" = 0 ->
      categorize_expenses self data w = (Raised (KeyError "amount"), w))
  /\ (0 < index_len data ->
      2 <= label_count (standardize_columns data) "amount" ->
      categorize_expenses self data w
      = (Raised
           (ValueError
              "The truth value of a Series is ambiguous. Use a.empty, a.bool(), a.item(), a.any() or a.all()."),
         w)).
Proof.
  assert (Hnone : 0 < index_len data ->
                  label_count (standardize_columns data) "amount" = 0 ->
                  categorize_expenses self data w
                  = (Raised (KeyError "amount"), w)).
  { intros Hpos H0.
    destruct (iterrows_cons (standardize_columns data) Hpos) as [rest E].
    unfold categorize_expenses, bind at 1. rewrite E. simpl.
    unfold bind at 1. unfold categorize_row, bind at 1, lift, row_getitem.
    pose proof (row_lookup_length (standardize_columns data) 0 "amount") as Hl.
    rewrite H0 in Hl. apply length_zero_iff_nil in Hl. rewrite Hl.
    reflexivity. }
  assert (Hmany : 0 < index_len data ->
                  2 <= label_count (standardize_columns data) "amount" ->
                  categorize_expenses self data w
                  = (Raised
                       (ValueError
                          "The truth value of a Series is ambiguous. Use a.empty, a.bool(), a.item(), a.any() or a.all()."),
                     w)).
  { intros Hpos H2.
    destruct (iterrows_cons (standardize_columns data) Hpos) as [rest E].
    unfold categorize_expenses, bind at 1. rewrite E. simpl.
    unfold bind at 1. unfold categorize_row, bind at 1, lift, row_getitem.
    pose proof (row_lookup_length (standardize_columns data) 0 "amount") as Hl.
    destruct (row_lookup (row_at (standardize_columns data) 0) "amount")
      as [|c1 [|c2 cs]]; simpl in Hl; try lia.
    reflexivity. }
  split; [|split; assumption].
  split.
  - intros (out & w' & E).
    destruct (Nat.eq_dec (index_len data) 0) as [H0|H0]; [now left|right].
    assert (Hpos : 0 < index_len data) by lia.
    destruct (Nat.eq_dec (label_count (standardize_columns data) "amount") 1)
      as [H1|H1]; [exact H1|exfalso].
    destruct (Nat.eq_dec (label_count (standardize_columns data) "amount") 0)
      as [Hz|Hz].
    + rewrite (Hnone Hpos Hz) in E. discriminate.
    + rewrite (Hmany Hpos ltac:(lia)) in E. discriminate.
  - intros [H0|H1].
    + unfold categorize_expenses, bind, iterrows.
      change (index_len (standardize_columns data)) with (index_len data).
      rewrite H0. simpl. unfold lift, setitem. simpl.
      change (index_len (standardize_columns data)) with (index_len data).
      rewrite H0. simpl. eauto.
    + destruct (categorize_expenses_run self data w H1) as (cats & w' & E & _).
      eauto.
Qed.

Lemma for_rows_all_missing self rows :
  Forall (fun row => row_lookup row "amount" = [Null]) rows ->
  forall acc w,
    for_rows self rows acc w
    = (Ok (acc ++ repeat "Uncategorized" (List.length rows))%list, w).
Proof.
  induction 1 as [|row rest Hrow _ IH]; intros acc w; simpl.
  - now rewrite app_nil_r.
  - unfold bind. rewrite (categorize_row_eq self row Null w Hrow). simpl.
    rewrite IH, <- app_assoc. reflexivity.
Qed.

(** X5. When every cell of the one amount column is missing, the
    whole table is categorized without a single request: every row is
    ["Uncategorized"] and the world is left as it was. *)
Theorem all_amounts_missing self data w amount :
  column_of (standardize_columns data) "amount" = Some amount ->
  forallb isnull amount = true ->
  categorize_expenses self data w
  = (Ok (set_column (standardize_columns data) "category"
           (repeat (Str "Uncategorized") (index_len data))), w).
Proof.
  intros Ha Hnull.
  destruct (column_of_filter _ _ _ Ha) as (col & Ef & Ec).
  assert (Hrows : Forall (fun row => row_lookup row "amount" = [Null])
                         (iterrows (standardize_columns data))).
  { unfold iterrows. apply Forall_forall. intros row Hin.
    apply in_map_iff in Hin. destruct Hin as (i & <- & _).
    rewrite row_lookup_row_at, Ef. simpl. rewrite Ec. f_equal.
    rewrite forallb_forall in Hnull.
    destruct (nth_in_or_default i amount Null) as [Hin | ->]; [|reflexivity].
    specialize (Hnull _ Hin). now destruct (nth i amount Null). }
  unfold categorize_expenses, bind.
  rewrite (for_rows_all_missing self _ Hrows [] w). simpl.
  rewrite iterrows_length. unfold lift, setitem.
  rewrite length_map, repeat_length.
  change (index_len (standardize_columns data)) with (index_len data).
  rewrite Nat.eqb_refl, map_repeat. reflexivity.
Qed.

Lemma lstrip_all_space t : all_space t = true -> lstrip t = "".
Proof.
  induction t as [|a t IH]; simpl; [reflexivity|].
  intros H. apply andb_prop in H. destruct H as [Ha Ht].
  rewrite Ha. auto.
Qed.

(** X6. A model that answers with nothing but blanks gives the row an
    empty category: the answer is stripped and taken as it is. *)
Theorem blank_answer_gives_empty_category self row c w s' t :
  row_lookup row "amount" = [c] ->
  isnull c = false ->
  generate_content (model self) (service w)
    (classification_prompt row (Scalar c)) = (s', Text t) ->
  all_space t = true ->
  categorize_row self row w
  = (Ok "", sent w s' (classification_prompt row (Scalar c))).
Proof.
  intros Hc Hn Hcall Ht.
  rewrite (categorize_row_eq self row c w Hc), Hn. simpl. rewrite Hcall.
  unfold strip. now rewrite (lstrip_all_space t Ht).
Qed.

End TableFacts.

(** ** What a press of the button can do to the world *)

Section GrowthFacts.

Context {num : Type} {RT : Runtime num} {svc : Type}.
Implicit Types (self : App num svc) (w : World num svc).
Implicit Types (d data : DataFrame num).

Lemma extends_refl w : extends w w.
Proof.
  repeat split; try (exists []; now rewrite app_nil_r).
Qed.

Lemma extends_trans w1 w2 w3 :
  extends w1 w2 -> extends w2 w3 -> extends w1 w3.
Proof.
  intros ([r1 H1] & [e1 H2] & H3) ([r2 H4] & [e2 H5] & H6).
  repeat split.
  - exists (r1 ++ r2)%list. now rewrite H4, H1, app_assoc.
  - exists (e1 ++ e2)%list. now rewrite H5, H2, app_assoc.
  - congruence.
Qed.

Lemma extends_show (ev : ui_event num) w : extends w (snd (show ev w)).
Proof.
  repeat split; simpl; [exists []; now rewrite app_nil_r|eauto].
Qed.

Lemma extends_generate (g : GenerativeModel svc) prompt w :
  extends w (snd (generate_text g prompt w)).
Proof.
  unfold generate_text. destruct (generate_content g (service w) prompt)
    as [s' [t|cause]]; simpl;
    (repeat split; simpl; [eauto|exists []; now rewrite app_nil_r]).
Qed.

Lemma extends_bind {A B} (m : M (World num svc) A)
      (k : A -> M (World num svc) B) :
  (forall w, extends w (snd (m w))) ->
  (forall a w, extends w (snd (k a w))) ->
  forall w, extends w (snd (bind m k w)).
Proof.
  intros Hm Hk w. unfold bind. specialize (Hm w).
  destruct (m w) as [[a|e] w1]; simpl in *; [|exact Hm].
  exact (extends_trans _ _ _ Hm (Hk a w1)).
Qed.

Lemma extends_try {A} (m : M (World num svc) A)
      (h : exn -> M (World num svc) A) :
  (forall w, extends w (snd (m w))) ->
  (forall e w, extends w (snd (h e w))) ->
  forall w, extends w (snd (try_except m h w)).
Proof.
  intros Hm Hh w. unfold try_except. specialize (Hm w).
  destruct (m w) as [[a|e] w1]; simpl in *; [exact Hm|].
  exact (extends_trans _ _ _ Hm (Hh e w1)).
Qed.

Lemma extends_lift {A} (o : outcome A) w :
  extends w (snd (lift (W := World num svc) o w)).
Proof. apply extends_refl. Qed.

Lemma extends_ret {A} (a : A) w :
  extends w (snd (ret (W := World num svc) a w)).
Proof. apply extends_refl. Qed.

Lemma extends_categorize_row self row w :
  extends w (snd (categorize_row self row w)).
Proof.
  revert w. unfold categorize_row.
  apply extends_bind; [intros; apply extends_lift|intros amount].
  apply extends_bind; [intros; apply extends_lift|intros [|]].
  - apply extends_try.
    + apply extends_bind; [intros; apply extends_generate|].
      intros; apply extends_ret.
    + intros; apply extends_ret.
  - intros; apply extends_ret.
Qed.

Lemma extends_for_rows self rows : forall acc w,
  extends w (snd (for_rows self rows acc w)).
Proof.
  induction rows as [|row rest IH]; intros acc; cbn [for_rows].
  - intros; apply extends_ret.
  - apply extends_bind; [intros; apply extends_categorize_row|].
    intros cat w. apply IH.
Qed.

Lemma extends_categorize_expenses self data w :
  extends w (snd (categorize_expenses self data w)).
Proof.
  revert w. unfold categorize_expenses.
  apply extends_bind; [intros; apply extends_for_rows|].
  intros; apply extends_lift.
Qed.

Lemma extends_display_graphs data w :
  extends w (snd (display_graphs (svc := svc) data w)).
Proof.
  revert w. unfold display_graphs, st_write.
  repeat (apply extends_bind;
          [intros; first [apply extends_lift | apply extends_show]|intros ?]).
  intros; apply extends_ret.
Qed.

Lemma extends_display_financial_advice self data w :
  extends w (snd (display_financial_advice self data w)).
Proof.
  revert w. unfold display_financial_advice, st_write, st_error.
  apply extends_bind; [intros; apply extends_lift|intros amount].
  apply extends_bind; [intros; apply extends_lift|intros breakdown].
  apply extends_try.
  - apply extends_bind; [intros; apply extends_generate|intros text].
    apply extends_bind; intros; apply extends_show.
  - intros; apply extends_show.
Qed.

Lemma extends_categorize_clicked self data w :
  extends w (snd (categorize_clicked self data w)).
Proof.
  revert w. unfold categorize_clicked, st_write, st_error, st_warning.
  destruct (accepted data); [|intros; apply extends_show].
  apply extends_try; [|intros; apply extends_show].
  apply extends_bind; [intros; apply extends_categorize_expenses|intros out].
  apply extends_bind; [intros; apply extends_show|intros _].
  apply extends_bind; [intros; apply extends_show|intros _].
  apply extends_bind; [intros; apply extends_display_graphs|intros data'].
  intros; apply extends_display_financial_advice.
Qed.

Lemma categorize_clicked_returns self data w :
  fst (categorize_clicked self data w) = Ok tt.
Proof.
  unfold categorize_clicked. destruct (accepted data); [|reflexivity].
  unfold try_except. destruct (bind _ _ w) as [[[]|e] w1]; reflexivity.
Qed.

(** X7. [display_table] never raises, whatever the table, the model
    and the charts do: every exception of the press of the button ends
    as a message on the screen. The requests sent and the screen are
    only appended to, and the session store is not written. *)
Theorem display_table_never_raises
        self (data_editor : DataFrame num -> DataFrame num) clicked w :
  exists w', display_table self data_editor clicked w = (Ok tt, w')
             /\ extends w w'.
Proof.
  unfold display_table, bind, table_to_edit.
  destruct (uploaded_data w) as [data|] eqn:Eu; simpl;
    destruct clicked; simpl.
  - pose proof (categorize_clicked_returns self (data_editor data) w) as Hr.
    pose proof (extends_categorize_clicked self (data_editor data) w) as He.
    destruct (categorize_clicked self (data_editor data) w) as [o w1].
    simpl in *. subst o. eauto.
  - eexists. split; [reflexivity|apply extends_refl].
  - set (w0 := snd (st_write (svc := svc)
                      "Please enter your spending data below:" w)).
    set (d0 := data_editor
                 (mkFrame 0 [("Date", []); ("Description", []); ("Amount", [])])).
    pose proof (categorize_clicked_returns self d0 w0) as Hr.
    pose proof (extends_categorize_clicked self d0 w0) as He.
    unfold bind, st_write, show. simpl. fold w0 d0.
    change (mkWorld (service w) (requests w)
              (screen w ++ [StWrite "Please enter your spending data below:"])
              (uploaded_data w)) with w0.
    destruct (categorize_clicked self d0 w0) as [o w1].
    simpl in *. subst o. eexists. split; [reflexivity|].
    refine (extends_trans _ _ _ _ He). apply extends_show.
  - unfold bind, st_write, show, ret. simpl. eexists. split; [reflexivity|].
    apply (extends_show (StWrite "Please enter your spending data below:") w).
Qed.

(** X8. [display_financial_advice] either raises before it has done
    anything, or sends exactly one request and returns, with the answer
    or the failure of that request on the screen: it never asks twice. *)
Theorem advice_raises_or_asks_once self data w :
  (exists e, display_financial_advice self data w = (Raised e, w))
  \/ (exists prompt s' r,
        generate_content (model self) (service w) prompt = (s', r)
        /\ display_financial_advice self data w
           = (Ok tt,
              mkWorld s' (requests w ++ [prompt])
                (screen w ++
                   match r with
                   | Text t => [StWrite "### Personalized Financial Advice";
                                StWrite (strip t)]
                   | Fault cause =>
                       [StError
                          ("An error occurred while generating financial advice: "
                             ++ cause)]
                   end)
                (uploaded_data w))).
Proof.
  unfold display_financial_advice, bind at 1, lift.
  destruct (getitem_series _ "amount" _) as [amount|e]; [|left; eauto].
  unfold bind at 1.
  destruct (groupby_sum _ "category" "amount") as [breakdown|e];
    [|left; eauto].
  right. unfold try_except, bind, generate_text.
  destruct (generate_content (model self) (service w) _) as [s' r] eqn:E.
  eexists _, s', r. split; [exact E|].
  destruct r as [t|cause]; simpl.
  - unfold st_write, show, sent. simpl. now rewrite <- app_assoc.
  - reflexivity.
Qed.

End GrowthFacts.

(** ** Charts that cannot be drawn, advice that does not come *)

Section FailureFacts.

Context {num : Type} {RT : Runtime num} {svc : Type}.
Implicit Types (self : App num svc) (w : World num svc).
Implicit Types (d data : DataFrame num).

Lemma for_rows_length self data w cats w1 :
  label_count (standardize_columns data) "amount" = 1 ->
  for_rows self (iterrows (standardize_columns data)) [] w = (Ok cats, w1) ->
  List.length cats = index_len data.
Proof.
  intros Hcount Hfor.
  destruct (for_rows_run self _ (iterrows_unique _ "amount" Hcount) [] w)
    as (cats' & w' & E & Hrun).
  rewrite Hfor in E. injection E as E _. simpl in E. subst cats.
  rewrite (run_rows_length _ _ _ _ _ Hrun), iterrows_length. reflexivity.
Qed.

(** X9. The charts are drawn before the advice is asked for, inside
    the same [try]: when the bar chart or the pie chart cannot be drawn,
    the press of the button ends with the error on the screen, under the
    categorized table, and no request for advice is sent. *)
Theorem chart_failure_suppresses_advice self data w cats w1 amount e :
  accepted data = true ->
  well_formed data = true ->
  label_count (standardize_columns data) "category" <= 1 ->
  column_of (standardize_columns data) "amount" = Some amount ->
  for_rows self (iterrows (standardize_columns data)) [] w = (Ok cats, w1) ->
  let out := set_column (standardize_columns data) "category" (map Str cats) in
  let summary :=
    sort_index (group_sums [] (combine (map Some cats) (to_numeric amount))) in
  (barplot summary = Raised e ->
   categorize_clicked self data w =
   (Ok tt,
    mkWorld (service w1) (requests w1)
      (screen w1 ++
         [StWrite "### Categorized Data:"; StTable out;
          StWrite "### Bar Chart of Expenses by Category";
          StError ("An error occurred: " ++ exn_str e)])
      (uploaded_data w1)))
  /\ (barplot summary = Ok tt -> pie summary = Raised e ->
      categorize_clicked self data w =
      (Ok tt,
       mkWorld (service w1) (requests w1)
         (screen w1 ++
            [StWrite "### Categorized Data:"; StTable out;
             StWrite "### Bar Chart of Expenses by Category";
             StBarChart summary;
             StWrite "### Pie Chart of Expenses by Category";
             StError ("An error occurred: " ++ exn_str e)])
         (uploaded_data w1))).
Proof.
  intros Hacc Hwf Hcat Ha Hfor out summary.
  pose proof (for_rows_length self data w cats w1
                (column_of_count _ _ _ Ha) Hfor) as Hlen.
  destruct (categorized_columns (standardize_columns data) cats amount Hcat Ha)
    as [Hc' Ha'].
  fold out in Hc', Ha'.
  assert (Hwf' : well_formed out = true).
  { apply set_column_well_formed.
    - now rewrite standardize_well_formed.
    - now rewrite length_map. }
  assert (Hstart :
    categorize_clicked self data w =
    try_except
      (bind (bind (lift (barplot summary))
                  (fun _ =>
                     bind (show (StBarChart summary))
                          (fun _ =>
                             bind (st_write "### Pie Chart of Expenses by Category")
                                  (fun _ =>
                                     bind (lift (pie summary))
                                          (fun _ =>
                                             bind (show (StPieChart summary))
                                                  (fun _ =>
                                                     ret (set_column out "amount"
                                                            (map numeric_cell
                                                               (to_numeric amount)))))))))
            (fun data' => display_financial_advice self data'))
      (fun e => st_error ("An error occurred: " ++ exn_str e))
      (mkWorld (service w1) (requests w1)
         (screen w1 ++
            [StWrite "### Categorized Data:"; StTable out;
             StWrite "### Bar Chart of Expenses by Category"])
         (uploaded_data w1))).
  { unfold categorize_clicked. rewrite Hacc.
    unfold try_except, bind at 1.
    unfold categorize_expenses, bind at 1, lift. rewrite Hfor. cbv beta iota.
    unfold setitem. rewrite length_map, Hlen.
    change (index_len (standardize_columns data)) with (index_len data).
    rewrite Nat.eqb_refl. fold out.
    unfold display_graphs.
    cbv beta iota delta [st_write show ret bind lift fst snd
                           service requests screen uploaded_data].
    rewrite (aggregate_eq out amount cats Hwf' Ha' Hc'). fold summary.
    cbv beta iota delta [fst snd].
    repeat rewrite <- app_assoc. reflexivity. }
  split.
  - intros Hbar. rewrite Hstart, Hbar.
    unfold try_except, bind, lift, st_error, show. simpl.
    now rewrite <- app_assoc.
  - intros Hbar Hpie. rewrite Hstart, Hbar, Hpie.
    unfold try_except, bind, lift, st_error, st_write, show. simpl.
    repeat rewrite <- app_assoc. reflexivity.
Qed.

(** X10. When the request for advice fails, the press of the button
    still ends normally: the categorized table and both charts stay on
    the screen, the failure is shown under them, and the request is not
    sent again. *)
Theorem advice_failure_keeps_charts self data w cats w1 amount s' cause :
  accepted data = true ->
  well_formed data = true ->
  label_count (standardize_columns data) "category" <= 1 ->
  column_of (standardize_columns data) "amount" = Some amount ->
  for_rows self (iterrows (standardize_columns data)) [] w = (Ok cats, w1) ->
  let out := set_column (standardize_columns data) "category" (map Str cats) in
  let summary :=
    sort_index (group_sums [] (combine (map Some cats) (to_numeric amount))) in
  let prompt :=
    advice_prompt (budget self) (series_sum (to_numeric amount)) summary in
  barplot summary = Ok tt ->
  pie summary = Ok tt ->
  generate_content (model self) (service w1) prompt = (s', Fault cause) ->
  categorize_clicked self data w =
  (Ok tt,
   mkWorld s' (requests w1 ++ [prompt])
     (screen w1 ++
        [StWrite "### Categorized Data:"; StTable out;
         StWrite "### Bar Chart of Expenses by Category"; StBarChart summary;
         StWrite "### Pie Chart of Expenses by Category"; StPieChart summary;
         StError ("An error occurred while generating financial advice: "
                    ++ cause)])
     (uploaded_data w1)).
Proof.
  intros Hacc Hwf Hcat Ha Hfor out summary prompt Hbar Hpie Hcall.
  pose proof (for_rows_length self data w cats w1
                (column_of_count _ _ _ Ha) Hfor) as Hlen.
  pose proof (categorize_clicked_run self data w cats w1 amount
                Hacc Hwf Hcat Ha Hfor Hlen Hbar Hpie) as Hrun.
  cbv zeta in Hrun. fold summary in Hrun. fold prompt in Hrun.
  rewrite Hcall in Hrun. exact Hrun.
Qed.

End FailureFacts.

(** ** The order of the summary *)

Section OrderFacts.

Context {num : Type} {RT : Runtime num}.
Implicit Types (acc l : list (string * num)).
Implicit Types (rows : list (option string * option num)).

Lemma string_leb_iff a b :
  String.leb a b = true <-> a = b \/ String_as_OT.lt a b.
Proof.
  unfold String.leb.
  destruct (String.compare a b) eqn:E.
  - apply String_as_OT.cmp_eq in E. intuition.
  - apply String_as_OT.cmp_lt in E. intuition.
  - split; [discriminate|]. intros [->|H].
    + assert (H : String_as_OT.cmp b b = Eq) by now apply String_as_OT.cmp_eq.
      unfold String_as_OT.cmp in H. congruence.
    + apply String_as_OT.cmp_lt in H. unfold String_as_OT.cmp in H. congruence.
Qed.

Lemma string_leb_trans a b c :
  String.leb a b = true -> String.leb b c = true -> String.leb a c = true.
Proof.
  rewrite !string_leb_iff. intros [->|H1] [->|H2]; auto.
  right. exact (String_as_OT.lt_trans _ _ _ H1 H2).
Qed.

Lemma string_ltb_of_leb a b :
  String.leb a b = true -> a <> b -> String.ltb a b = true.
Proof.
  unfold String.leb, String.ltb.
  destruct (String.compare a b) eqn:E; try discriminate; [|reflexivity].
  apply String_as_OT.cmp_eq in E. contradiction.
Qed.

Lemma insert_key_sorted e l :
  StronglySorted (fun a b => String.leb (fst a) (fst b) = true) l ->
  StronglySorted (fun a b => String.leb (fst a) (fst b) = true) (insert_key e l).
Proof.
  induction l as [|x rest IH]; simpl; intros Hs.
  - constructor; [constructor|constructor].
  - apply StronglySorted_inv in Hs. destruct Hs as [Hrest Hx].
    destruct (String.leb (fst e) (fst x)) eqn:E.
    + constructor; [now constructor|].
      constructor; [exact E|].
      eapply Forall_impl; [|exact Hx]. intros y Hy. simpl in Hy.
      exact (string_leb_trans _ _ _ E Hy).
    + constructor; [now apply IH|].
      apply (Permutation_Forall (Permutation_sym (insert_key_perm e rest))).
      constructor; [|exact Hx].
      destruct (String.leb_total (fst e) (fst x)) as [H|H]; [congruence|exact H].
Qed.

Lemma sort_index_sorted l :
  StronglySorted (fun a b => String.leb (fst a) (fst b) = true) (sort_index l).
Proof.
  induction l as [|e rest IH]; simpl; [constructor|].
  now apply insert_key_sorted.
Qed.

Lemma sorted_strict l :
  NoDup (map fst l) ->
  StronglySorted (fun a b => String.leb (fst a) (fst b) = true) l ->
  ascending l.
Proof.
  unfold ascending.
  induction l as [|x rest IH]; simpl; intros Hnd Hs; [constructor|].
  inversion Hnd as [|? ? Hnin Hnd']; subst.
  apply StronglySorted_inv in Hs. destruct Hs as [Hrest Hx].
  constructor; [now apply IH|].
  rewrite Forall_forall in *. intros y Hy.
  apply string_ltb_of_leb; [now apply Hx|].
  intros Heq. apply Hnin. rewrite Heq. now apply in_map.
Qed.

(** X11. The groups of [groupby(...).sum()] come out in strictly
    ascending order of their key, whatever the order of the rows: the
    bars of the chart and the entries of the breakdown in the advice
    prompt are sorted by category. *)
Theorem summary_is_ascending (data : DataFrame num) key col summary :
  groupby_sum data key col = Ok summary -> ascending summary.
Proof.
  unfold groupby_sum.
  destruct (getitem_series data key _) as [keys|e]; [|discriminate].
  destruct (getitem_series data col _) as [values|e]; [|discriminate].
  simpl.
  destruct (text_keys keys) as [ks|]; [|discriminate].
  destruct (numbers values) as [vs|]; [|discriminate].
  simpl. intros [= <-].
  apply sorted_strict; [apply summary_NoDup|apply sort_index_sorted].
Qed.

Lemma sorted_unique l1 : forall l2,
  StronglySorted (fun a b => String.leb (fst a) (fst b) = true) l1 ->
  StronglySorted (fun a b => String.leb (fst a) (fst b) = true) l2 ->
  NoDup (map fst l1) ->
  Permutation l1 l2 -> l1 = l2.
Proof.
  induction l1 as [|x1 t1 IH]; intros l2 Hs1 Hs2 Hnd Hp.
  - apply Permutation_nil in Hp. now subst.
  - destruct l2 as [|x2 t2].
    { apply Permutation_sym, Permutation_nil in Hp. discriminate. }
    apply StronglySorted_inv in Hs1. destruct Hs1 as [Hs1 Hx1].
    apply StronglySorted_inv in Hs2. destruct Hs2 as [Hs2 Hx2].
    inversion Hnd as [|? ? Hnin Hnd']; subst.
    assert (Hin1 : In x1 (x2 :: t2))
      by (apply (Permutation_in _ Hp); now left).
    assert (Hin2 : In x2 (x1 :: t1))
      by (apply (Permutation_in _ (Permutation_sym Hp)); now left).
    assert (Heq : x1 = x2).
    { destruct Hin1 as [->|Hin1]; [reflexivity|].
      destruct Hin2 as [->|Hin2]; [reflexivity|].
      rewrite Forall_forall in Hx1, Hx2.
      pose proof (String.leb_antisym _ _ (Hx1 _ Hin2) (Hx2 _ Hin1)) as Hk.
      exfalso. apply Hnin. rewrite Hk. now apply in_map. }
    subst x2. f_equal. apply IH; auto.
    exact (Permutation_cons_inv Hp).
Qed.

Lemma existsb_perm {A} (f : A -> bool) (l l' : list A) :
  Permutation l l' -> existsb f l = existsb f l'.
Proof.
  induction 1; simpl; try congruence.
  now rewrite !orb_assoc, (orb_comm (f y)).
Qed.

Lemma filter_perm {A} (f : A -> bool) (l l' : list A) :
  Permutation l l' -> Permutation (filter f l) (filter f l').
Proof.
  induction 1; simpl.
  - constructor.
  - destruct (f x); [now constructor|assumption].
  - destruct (f x), (f y); try reflexivity. apply perm_swap.
  - etransitivity; eassumption.
Qed.

Section Exact.

Context {EX : ExactRuntime num RT}.

Lemma group_sums_get_perm rows rows' k :
  Permutation rows rows' ->
  summary_get (group_sums [] rows) k = summary_get (group_sums [] rows') k.
Proof.
  intros Hp. rewrite !group_sums_get. simpl.
  rewrite (existsb_perm _ _ _ Hp).
  destruct (existsb _ rows'); [|reflexivity].
  f_equal. rewrite !group_fold_spec. f_equal.
  apply sum_list_perm, Permutation_map, filter_perm, Hp.
Qed.

Lemma sorted_summary_perm rows rows' :
  Permutation rows rows' ->
  sort_index (group_sums [] rows) = sort_index (group_sums [] rows').
Proof.
  intros Hp.
  assert (Hnd : forall r, NoDup (map fst (group_sums [] r)))
    by (intros r; apply group_sums_NoDup; constructor).
  apply sorted_unique; try apply sort_index_sorted; [apply summary_NoDup|].
  rewrite !sort_index_perm.
  apply NoDup_Permutation; try (eapply NoDup_map_inv; apply Hnd).
  intros [k x].
  rewrite <- !(summary_get_In _ _ _ (Hnd _)).
  now rewrite (group_sums_get_perm rows rows' k Hp).
Qed.

(** X12. In an exact runtime the summary does not depend on the order
    of the rows: two categorized tables whose (category, amount) pairs
    are the same up to order get the same summary from the aggregator. *)
Theorem summary_ignores_row_order
        (data data' : DataFrame num) cats amount cats' amount' :
  well_formed data = true ->
  well_formed data' = true ->
  column_of data "category" = Some (map Str cats) ->
  column_of data "amount" = Some amount ->
  column_of data' "category" = Some (map Str cats') ->
  column_of data' "amount" = Some amount' ->
  Permutation (combine cats amount) (combine cats' amount') ->
  exists changed changed' summary,
    aggregate data = Ok (changed, summary)
    /\ aggregate data' = Ok (changed', summary).
Proof.
  intros Hwf Hwf' Hc Ha Hc' Ha' Hp.
  eexists _, _, _. split.
  - exact (aggregate_eq data amount cats Hwf Ha Hc).
  - rewrite (aggregate_eq data' amount' cats' Hwf' Ha' Hc'). f_equal. f_equal.
    apply sorted_summary_perm. unfold to_numeric.
    rewrite !combine_map_map. now apply Permutation_map.
Qed.

End Exact.

End OrderFacts.

(** ** Start-up *)

Section EnvironFacts.

Lemma env_get_set m key value k :
  env_get (env_set m key value) k =
  if String.eqb key k then Some value else env_get m k.
Proof.
  induction m as [|[k0 v0] rest IH]; simpl.
  - reflexivity.
  - destruct (String.eqb k0 key) eqn:E0; simpl.
    + apply String.eqb_eq in E0. subst k0.
      destruct (String.eqb key k); reflexivity.
    + rewrite IH. destruct (String.eqb key k) eqn:E1; [|reflexivity].
      apply String.eqb_eq in E1. subst k. now rewrite E0.
Qed.

Lemma export_secrets_get l : forall environ k,
  fst (export_secrets l environ) = Ok tt
  /\ env_get (snd (export_secrets l environ)) k
     = match exported_value l k with
       | Some text => Some text
       | None => env_get environ k
       end.
Proof.
  induction l as [|[k0 [text|text]] rest IH]; intros environ k; simpl.
  - auto.
  - unfold bind, environ_setitem.
    destruct (IH (env_set environ k0 text) k) as [H1 H2].
    destruct (export_secrets rest (env_set environ k0 text)) as [o e1].
    simpl in *. subst o. split; [reflexivity|].
    rewrite H2, env_get_set.
    destruct (exported_value rest k); [reflexivity|].
    now destruct (String.eqb k0 k).
  - destruct (IH environ k) as [H1 H2]. split; [exact H1|].
    rewrite H2. now destruct (exported_value rest k).
Qed.

(** [set_env] once the secrets are loaded into [loaded]. *)
Lemma set_env_eq secrets environ loaded :
  export_secrets (entries secrets) environ = (Ok tt, loaded) ->
  set_env secrets environ =
  match secret_get (entries secrets) "GC_CRED" with
  | None => (Raised (KeyError (missing_key secrets "GC_CRED")), loaded)
  | Some cred =>
      let written :=
        env_set (env_set loaded "GC_CRED" (secret_text cred))
                "GOOGLE_APPLICATION_CREDENTIALS" (secret_text cred) in
      match env_get loaded "PROJECT_ID" with
      | None => (Raised (KeyError "PROJECT_ID"), written)
      | Some p =>
          match env_get loaded "LOCATION" with
          | None => (Raised (KeyError "LOCATION"), written)
          | Some l =>
              match env_get loaded "MODEL" with
              | None => (Raised (KeyError "MODEL"), written)
              | Some m =>
                  (Ok {| project := p; location := l; model_name := m |},
                   written)
              end
          end
      end
  end.
Proof.
  intros Hload.
  unfold set_env, bind at 1. rewrite Hload.
  unfold copy_secrets, bind, lift, ret, environ_getitem, environ_setitem,
    env_getitem, secrets_getitem.
  destruct (secret_get (entries secrets) "GC_CRED") as [cred|]; [|reflexivity].
  cbv beta iota zeta. rewrite env_get_set. cbn [String.eqb].
  rewrite !Ascii.eqb_refl. cbv beta iota.
  rewrite !env_get_set. simpl.
  destruct (env_get loaded "PROJECT_ID") as [p|]; [|reflexivity].
  destruct (env_get loaded "LOCATION") as [l|]; [|reflexivity].
  destruct (env_get loaded "MODEL") as [m|]; reflexivity.
Qed.

(** X13. Reading [st.secrets] exports them, so [set_env] finds the
    project, the location and the model name among the exported secrets
    first and in the environment otherwise. When the secrets hold
    [GC_CRED] and the three names are found, [set_env] succeeds with
    that configuration; afterwards [GC_CRED] and
    [GOOGLE_APPLICATION_CREDENTIALS] both hold the secret, and every
    other variable is the exported secret of its name, or what the
    environment held. *)
Theorem set_env_configures secrets environ cred p l m :
  secret_get (entries secrets) "GC_CRED" = Some cred ->
  loaded_get secrets environ "PROJECT_ID" = Some p ->
  loaded_get secrets environ "LOCATION" = Some l ->
  loaded_get secrets environ "MODEL" = Some m ->
  exists environ',
    set_env secrets environ
    = (Ok {| project := p; location := l; model_name := m |}, environ')
    /\ env_get environ' "GC_CRED" = Some (secret_text cred)
    /\ env_get environ' "GOOGLE_APPLICATION_CREDENTIALS"
       = Some (secret_text cred)
    /\ forall k, k <> "GC_CRED" -> k <> "GOOGLE_APPLICATION_CREDENTIALS" ->
                 env_get environ' k = loaded_get secrets environ k.
Proof.
  unfold loaded_get. intros Hc Hp Hl Hm.
  pose proof (export_secrets_get (entries secrets) environ) as Hload.
  destruct (export_secrets (entries secrets) environ) as [o loaded] eqn:E.
  simpl in Hload.
  assert (Ho : o = Ok tt) by exact (proj1 (Hload "")). subst o.
  rewrite (set_env_eq secrets environ loaded E), Hc.
  rewrite (proj2 (Hload "PROJECT_ID")), Hp.
  rewrite (proj2 (Hload "LOCATION")), Hl.
  rewrite (proj2 (Hload "MODEL")), Hm.
  eexists. split; [reflexivity|].
  split; [|split].
  - rewrite !env_get_set. reflexivity.
  - rewrite !env_get_set. reflexivity.
  - intros k H1 H2. rewrite !env_get_set.
    apply String.eqb_neq in H1, H2.
    rewrite (String.eqb_sym _ k), H2, (String.eqb_sym _ k), H1.
    exact (proj2 (Hload k)).
Qed.

(** X14. Without [GC_CRED] among the secrets [set_env] raises the
    [KeyError] of Streamlit. With it, a [PROJECT_ID] that is neither an
    exported secret nor in the environment raises
    [KeyError('PROJECT_ID')], and by then the credentials have been
    written into the environment. *)
Theorem set_env_missing_names secrets environ :
  (secret_get (entries secrets) "GC_CRED" = None ->
   fst (set_env secrets environ)
   = Raised (KeyError (missing_key secrets "GC_CRED")))
  /\ (forall cred,
        secret_get (entries secrets) "GC_CRED" = Some cred ->
        loaded_get secrets environ "PROJECT_ID" = None ->
        fst (set_env secrets environ) = Raised (KeyError "PROJECT_ID")
        /\ env_get (snd (set_env secrets environ))
                   "GOOGLE_APPLICATION_CREDENTIALS"
           = Some (secret_text cred)).
Proof.
  unfold loaded_get.
  pose proof (export_secrets_get (entries secrets) environ) as Hload.
  destruct (export_secrets (entries secrets) environ) as [o loaded] eqn:E.
  simpl in Hload.
  assert (Ho : o = Ok tt) by exact (proj1 (Hload "")). subst o.
  rewrite (set_env_eq secrets environ loaded E).
  split.
  - intros Hc. now rewrite Hc.
  - intros cred Hc Hp. rewrite Hc.
    rewrite (proj2 (Hload "PROJECT_ID")), Hp. simpl.
    split; [reflexivity|]. rewrite !env_get_set. reflexivity.
Qed.

End EnvironFacts.

Section RunFacts.

Context {num : Type} {RT : Runtime num} {svc : Type}.
Implicit Types (p : Process (num := num) svc) (w : World num svc).

Lemma display_table_ok (self : App num svc)
      (data_editor : DataFrame num -> DataFrame num) clicked w :
  fst (display_table self data_editor clicked w) = Ok tt
  /\ uploaded_data (snd (display_table self data_editor clicked w))
     = uploaded_data w.
Proof.
  unfold display_table, bind, table_to_edit.
  destruct (uploaded_data w) as [data|] eqn:Eu; simpl.
  - destruct clicked; simpl; [|auto].
    pose proof (categorize_clicked_returns self (data_editor data) w) as Hr.
    pose proof (extends_categorize_clicked self (data_editor data) w)
      as (_ & _ & Hu).
    destruct (categorize_clicked self (data_editor data) w) as [o w1].
    simpl in *. split; congruence.
  - unfold bind, st_write, show, ret. simpl.
    destruct clicked; simpl; [|auto].
    match goal with
    | |- context [categorize_clicked self ?d ?w0] =>
        pose proof (categorize_clicked_returns self d w0) as Hr;
        pose proof (extends_categorize_clicked self d w0) as (_ & _ & Hu);
        destruct (categorize_clicked self d w0) as [o w1]
    end.
    simpl in *. split; congruence.
Qed.

(** The world in which the uploader runs: the two texts of the page
    head are on the screen. *)
Lemma run_eq (connect : vertex_config -> outcome (GenerativeModel svc))
      secrets budget_input uploaded_file
      (data_editor : DataFrame num -> DataFrame num) clicked p
      config environ' g :
  set_env secrets (environ p) = (Ok config, environ') ->
  connect config = Ok g ->
  run connect secrets budget_input uploaded_file data_editor clicked p =
  let w1 :=
    mkWorld (service (world p)) (requests (world p))
      (screen (world p) ++
         [StWrite "Enter your finance data into the table below or upload a CSV file, and we will provide a breakdown of your finances!";
          StWrite "### Enter Your Monthly Budget"])
      (uploaded_data (world p)) in
  let w2 := snd (display_file_uploader uploaded_file w1) in
  let r := display_table {| model := g; budget := budget_input |}
                         data_editor clicked w2 in
  (fst r,
   mkProcess environ' (titles p ++ ["Automated Expense Categorization"])
             (snd r)).
Proof.
  intros Henv Hconn.
  unfold run, bind at 1, on_environ. rewrite Henv.
  unfold bind at 1, lift. rewrite Hconn.
  unfold bind at 1, display_title, bind at 1, st_title, on_world, st_write, show.
  cbn [world environ titles].
  unfold bind at 1, get_budget_input, bind at 1, st_write, show, ret.
  cbn [world environ titles service requests screen uploaded_data].
  rewrite <- app_assoc. cbn [app].
  unfold bind.
  destruct (display_file_uploader uploaded_file _) as [o w2] eqn:Eup.
  assert (Ho : o = Ok tt).
  { unfold display_file_uploader in Eup.
    destruct uploaded_file as [[d|e]|]; injection Eup as <- _; reflexivity. }
  subst o. cbn [world environ titles snd].
  destruct (display_table _ data_editor clicked w2) as [o' w3].
  reflexivity.
Qed.

(** X15. [run] raises only at start-up: an exception of [set_env] or
    of the connection to the model ends the run before anything is
    shown or requested; once start-up has succeeded the run ends
    normally, with the title shown once. *)
Theorem run_raises_only_at_startup
        (connect : vertex_config -> outcome (GenerativeModel svc))
        secrets budget_input uploaded_file
        (data_editor : DataFrame num -> DataFrame num) clicked p :
  (forall e environ',
      set_env secrets (environ p) = (Raised e, environ') ->
      run connect secrets budget_input uploaded_file data_editor clicked p
      = (Raised e, mkProcess environ' (titles p) (world p)))
  /\ (forall config environ' e,
        set_env secrets (environ p) = (Ok config, environ') ->
        connect config = Raised e ->
        run connect secrets budget_input uploaded_file data_editor clicked p
        = (Raised e, mkProcess environ' (titles p) (world p)))
  /\ (forall config environ' g,
        set_env secrets (environ p) = (Ok config, environ') ->
        connect config = Ok g ->
        exists w',
          run connect secrets budget_input uploaded_file data_editor clicked p
          = (Ok tt,
             mkProcess environ'
               (titles p ++ ["Automated Expense Categorization"]) w')).
Proof.
  split; [|split].
  - intros e environ' Henv. unfold run, bind, on_environ. now rewrite Henv.
  - intros config environ' e Henv Hconn.
    unfold run, bind at 1, on_environ. rewrite Henv.
    unfold bind, lift. now rewrite Hconn.
  - intros config environ' g Henv Hconn.
    rewrite (run_eq connect secrets budget_input uploaded_file data_editor
               clicked p config environ' g Henv Hconn).
    cbv zeta.
    match goal with
    | |- context [display_table ?self data_editor clicked ?w2] =>
        destruct (display_table_ok self data_editor clicked w2) as [Hr _];
        rewrite Hr
    end.
    eauto.
Qed.

(** X16. A file that was read in this run is normalised and stored
    before the table is shown, in place of any earlier upload: the
    editor is handed the normalised upload, the press of the button
    works on what the editor gives back, with the budget entered in
    this run, and the upload is still in the session when the run ends. *)
Theorem run_uses_the_upload
        (connect : vertex_config -> outcome (GenerativeModel svc))
        secrets budget_input (d : DataFrame num)
        (data_editor : DataFrame num -> DataFrame num) p
        config environ' g :
  set_env secrets (environ p) = (Ok config, environ') ->
  connect config = Ok g ->
  let w2 :=
    mkWorld (service (world p)) (requests (world p))
      (screen (world p) ++
         [StWrite "Enter your finance data into the table below or upload a CSV file, and we will provide a breakdown of your finances!";
          StWrite "### Enter Your Monthly Budget"])
      (Some (normalize_upload d)) in
  exists w',
    run connect secrets budget_input (Some (Ok d)) data_editor true p
    = (Ok tt,
       mkProcess environ' (titles p ++ ["Automated Expense Categorization"]) w')
    /\ categorize_clicked {| model := g; budget := budget_input |}
         (data_editor (normalize_upload d)) w2 = (Ok tt, w')
    /\ uploaded_data w' = Some (normalize_upload d).
Proof.
  intros Henv Hconn w2.
  rewrite (run_eq connect secrets budget_input (Some (Ok d)) data_editor
             true p config environ' g Henv Hconn).
  cbv zeta. unfold display_file_uploader, store_upload.
  cbn [snd service requests screen uploaded_data]. fold w2.
  destruct (display_table_ok {| model := g; budget := budget_input |}
              data_editor true w2) as [Hr Hu].
  assert (Et : display_table {| model := g; budget := budget_input |}
                 data_editor true w2
               = categorize_clicked {| model := g; budget := budget_input |}
                   (data_editor (normalize_upload d)) w2)
    by reflexivity.
  rewrite Et in *.
  destruct (categorize_clicked _ (data_editor (normalize_upload d)) w2)
    as [o w'].
  simpl in *. subst o. exists w'. auto.
Qed.

(** X17. A file that cannot be read costs nothing but a message: the
    error is shown, the earlier upload stays in the session, and the
    table on the screen is still that earlier upload. *)
Theorem unreadable_file_keeps_the_upload
        (self : App num svc) e (earlier : DataFrame num)
        (data_editor : DataFrame num -> DataFrame num) clicked w :
  uploaded_data w = Some earlier ->
  let w1 :=
    mkWorld (service w) (requests w)
      (screen w ++
         [StError ("An error occurred while reading the file: " ++ exn_str e)])
      (Some earlier) in
  display_file_uploader (Some (Raised e)) w = (Ok tt, w1)
  /\ display_table self data_editor clicked w1
     = (if clicked then categorize_clicked self (data_editor earlier) w1
        else (Ok tt, w1)).
Proof.
  intros Hu w1. split.
  - unfold display_file_uploader, st_error, show. now rewrite Hu.
  - unfold display_table, bind, table_to_edit. subst w1. simpl.
    destruct clicked; reflexivity.
Qed.

End RunFacts.

(** ** The further properties on concrete tables *)

Import MoreExamples.

Lemma categorize_expenses_requests_witness :
  label_count (standardize_columns sample_table) "amount" = 1
  /\ exists out w',
       categorize_expenses (app (constant_model "Food") 0%Z) sample_table
         (world0 tt) = (Ok out, w')
       /\ requests w'
          = ([] ++ row_prompts (iterrows (standardize_columns sample_table)))%list
       /\ screen w' = []
       /\ uploaded_data w' = None.
Proof.
  split; [reflexivity|].
  exact (categorize_expenses_requests
           (app (constant_model "Food") 0%Z) sample_table (world0 tt) eq_refl).
Defined.

Lemma categorize_expenses_succeeds_iff_witness :
  label_count (standardize_columns twice_table) "amount" = 2
  /\ categorize_expenses (app (constant_model "Food") 0%Z) twice_table
       (world0 tt)
     = (Raised
          (ValueError
             "The truth value of a Series is ambiguous. Use a.empty, a.bool(), a.item(), a.any() or a.all()."),
        world0 tt)
  /\ categorize_clicked (app (constant_model "Food") 0%Z) twice_table
       (world0 tt)
     = (Ok tt,
        mkWorld tt []
          [StError "An error occurred: The truth value of a Series is ambiguous. Use a.empty, a.bool(), a.item(), a.any() or a.all()."]
          None).
Proof.
  split; [reflexivity|]. split; [|reflexivity].
  exact (proj2 (proj2 (categorize_expenses_succeeds_iff
                         (app (constant_model "Food") 0%Z) twice_table
                         (world0 tt)))
           (le_n 1) (le_n 2)).
Defined.

Lemma all_amounts_missing_witness :
  column_of (standardize_columns no_amounts_table) "amount" = Some [Null; Null]
  /\ forallb (@isnull Z) [Null; Null] = true
  /\ categorize_expenses (app (constant_model "Food") 0%Z) no_amounts_table
       (world0 tt)
     = (Ok (set_column (standardize_columns no_amounts_table) "category"
              (repeat (Str "Uncategorized") 2)), world0 tt).
Proof.
  do 2 (split; [reflexivity|]).
  exact (all_amounts_missing (app (constant_model "Food") 0%Z)
           no_amounts_table (world0 tt) [Null; Null] eq_refl eq_refl).
Defined.

Lemma blank_answer_gives_empty_category_witness :
  all_space "  " = true
  /\ categorize_row (app (constant_model "  ") 0%Z)
       (row_at (standardize_columns sample_table) 0) (world0 tt)
     = (Ok "",
        sent (world0 tt) tt
          (classification_prompt (row_at (standardize_columns sample_table) 0)
                                 (Scalar (Num 4%Z)))).
Proof.
  split; [reflexivity|].
  exact (blank_answer_gives_empty_category
           (app (constant_model "  ") 0%Z)
           (row_at (standardize_columns sample_table) 0) (Num 4%Z) (world0 tt)
           tt "  " eq_refl eq_refl eq_refl eq_refl).
Defined.

Lemma chart_failure_suppresses_advice_witness :
  pie (Runtime := strict_runtime) [("Food", (-5)%Z)]
    = Raised (ValueError "Wedge sizes 'x' must be non negative values")
  /\ categorize_clicked (RT := strict_runtime)
       (app (constant_model "Food") 0%Z) refund_table (world0 tt)
     = (Ok tt,
        mkWorld tt
          ["Categorize the following expense: Description: 'Coffee', Amount: '4'";
           "Categorize the following expense: Description: 'Refund', Amount: '-9'"]
          [StWrite "### Categorized Data:";
           StTable (set_column (standardize_columns refund_table) "category"
                      [Str "Food"; Str "Food"]);
           StWrite "### Bar Chart of Expenses by Category";
           StBarChart [("Food", (-5)%Z)];
           StWrite "### Pie Chart of Expenses by Category";
           StError "An error occurred: Wedge sizes 'x' must be non negative values"]
          None).
Proof.
  split; [reflexivity|].
  refine (proj2 (chart_failure_suppresses_advice (RT := strict_runtime)
                   (app (constant_model "Food") 0%Z) refund_table (world0 tt)
                   ["Food"; "Food"]
                   (mkWorld tt
                      ["Categorize the following expense: Description: 'Coffee', Amount: '4'";
                       "Categorize the following expense: Description: 'Refund', Amount: '-9'"]
                      [] None)
                   [Num 4%Z; Num (-9)%Z]
                   (ValueError "Wedge sizes 'x' must be non negative values")
                   eq_refl eq_refl _ eq_refl eq_refl) eq_refl eq_refl).
  vm_compute. lia.
Defined.

Lemma advice_failure_keeps_charts_witness :
  for_rows (app (failing_model 1 "Food" "boom") 100%Z)
    (iterrows (standardize_columns coffee_table)) [] (world0 0)
  = (Ok ["Food"],
     mkWorld 1
       ["Categorize the following expense: Description: 'Coffee', Amount: '4'"]
       [] None)
  /\ pie [("Food", 4%Z)] = Ok tt
  /\ categorize_clicked (app (failing_model 1 "Food" "boom") 100%Z)
       coffee_table (world0 0)
     = (Ok tt,
        mkWorld 2
          ["Categorize the following expense: Description: 'Coffee', Amount: '4'";
           "You are a financial advisor. Based on the following financial data, provide highly specific financial advice:" ++ nl
           ++ "Budget: $100.00" ++ nl
           ++ "Total Expenditure: $4.00" ++ nl
           ++ "Expense Breakdown: {'Food': 4}" ++ nl
           ++ "Provide unique advice that takes into account the user's spending patterns, and provide actionable steps that are tailored to reducing spending where necessary and optimizing their budget."]
          [StWrite "### Categorized Data:";
           StTable (mkFrame 1 [("description", [Str "Coffee"]);
                               ("amount", [Num 4%Z]);
                               ("category", [Str "Food"])]);
           StWrite "### Bar Chart of Expenses by Category";
           StBarChart [("Food", 4%Z)];
           StWrite "### Pie Chart of Expenses by Category";
           StPieChart [("Food", 4%Z)];
           StError "An error occurred while generating financial advice: boom"]
          None).
Proof.
  do 2 (split; [reflexivity|]).
  exact (advice_failure_keeps_charts
           (app (failing_model 1 "Food" "boom") 100%Z) coffee_table (world0 0)
           ["Food"]
           (mkWorld 1
              ["Categorize the following expense: Description: 'Coffee', Amount: '4'"]
              [] None)
           [Num 4%Z] 2 "boom"
           eq_refl eq_refl (le_S 0 0 (le_n 0)) eq_refl eq_refl
           eq_refl eq_refl eq_refl).
Defined.

Lemma summary_is_ascending_witness :
  groupby_sum ledger_numeric "category" "amount"
    = Ok [("Food", 10%Z); ("Housing", 1200%Z)]
  /\ ascending [("Food", 10%Z); ("Housing", 1200%Z)].
Proof.
  split; [reflexivity|].
  exact (summary_is_ascending ledger_numeric "category" "amount"
           [("Food", 10%Z); ("Housing", 1200%Z)] eq_refl).
Defined.

Lemma summary_ignores_row_order_witness :
  exists changed changed' summary,
    aggregate ledger = Ok (changed, summary)
    /\ aggregate ledger_shuffled = Ok (changed', summary).
Proof.
  apply (summary_ignores_row_order ledger ledger_shuffled
           ["Food"; "Housing"; "Food"; "Food"]
           [Num 4%Z; Num 1200%Z; Str "6"; Str "abc"]
           ["Housing"; "Food"; "Food"; "Food"]
           [Num 1200%Z; Num 4%Z; Str "6"; Str "abc"]);
    try reflexivity.
  simpl. apply perm_swap.
Defined.

Lemma set_env_configures_witness :
  loaded_get secrets1 [("PROJECT_ID", "p1")] "PROJECT_ID" = Some "p2"
  /\ set_env secrets1 [("PROJECT_ID", "p1")]
     = (Ok {| project := "p2"; location := "eu"; model_name := "gemini-pro" |},
        [("PROJECT_ID", "p2"); ("GC_CRED", "/run/cred.json");
         ("LOCATION", "eu"); ("MODEL", "gemini-pro");
         ("GOOGLE_APPLICATION_CREDENTIALS", "/run/cred.json")])
  /\ exists environ',
       set_env secrets1 [("PROJECT_ID", "p1")]
       = (Ok {| project := "p2"; location := "eu"; model_name := "gemini-pro" |},
          environ')
       /\ env_get environ' "GC_CRED" = Some "/run/cred.json"
       /\ env_get environ' "GOOGLE_APPLICATION_CREDENTIALS"
          = Some "/run/cred.json"
       /\ forall k, k <> "GC_CRED" -> k <> "GOOGLE_APPLICATION_CREDENTIALS" ->
                    env_get environ' k
                    = loaded_get secrets1 [("PROJECT_ID", "p1")] k.
Proof.
  do 2 (split; [reflexivity|]).
  exact (set_env_configures secrets1 [("PROJECT_ID", "p1")]
           (Exported "/run/cred.json") "p2" "eu" "gemini-pro"
           eq_refl eq_refl eq_refl eq_refl).
Defined.

Lemma set_env_missing_names_witness :
  set_env secrets0 [("LOCATION", "us")]
  = (Raised (KeyError "PROJECT_ID"),
     [("LOCATION", "us"); ("GC_CRED", "/run/cred.json");
      ("GOOGLE_APPLICATION_CREDENTIALS", "/run/cred.json")])
  /\ fst (set_env secrets0 [("LOCATION", "us")]) = Raised (KeyError "PROJECT_ID")
  /\ env_get (snd (set_env secrets0 [("LOCATION", "us")]))
             "GOOGLE_APPLICATION_CREDENTIALS"
     = Some "/run/cred.json".
Proof.
  split; [reflexivity|].
  exact (proj2 (set_env_missing_names secrets0 [("LOCATION", "us")])
           (Exported "/run/cred.json") eq_refl eq_refl).
Defined.

Lemma run_uses_the_upload_witness :
  exists w',
    run connect0 secrets0 100%Z (Some (Ok sample_table)) (fun d => d) true
        (process0 environ0)
    = (Ok tt,
       mkProcess
         (env_set (env_set environ0 "GC_CRED" "/run/cred.json")
                  "GOOGLE_APPLICATION_CREDENTIALS" "/run/cred.json")
         ["Automated Expense Categorization"] w')
    /\ uploaded_data w' = Some (normalize_upload sample_table).
Proof.
  destruct (run_uses_the_upload connect0 secrets0 100%Z sample_table
              (fun d => d) (process0 environ0)
              {| project := "p1"; location := "us"; model_name := "gemini" |}
              (env_set (env_set environ0 "GC_CRED" "/run/cred.json")
                       "GOOGLE_APPLICATION_CREDENTIALS" "/run/cred.json")
              (constant_model "Food") eq_refl eq_refl)
    as (w' & Hrun & _ & Hup).
  exists w'. split; [exact Hrun|exact Hup].
Defined.

Lemma unreadable_file_keeps_the_upload_witness :
  display_file_uploader (Some (Raised (ValueError "No columns to parse from file")))
    (mkWorld tt [] [] (Some sample_table))
  = (Ok tt,
     mkWorld tt []
       [StError "An error occurred while reading the file: No columns to parse from file"]
       (Some sample_table))
  /\ display_table (app (constant_model "Food") 0%Z) (fun d => d) false
       (mkWorld tt []
          [StError "An error occurred while reading the file: No columns to parse from file"]
          (Some sample_table))
     = (Ok tt,
        mkWorld tt []
          [StError "An error occurred while reading the file: No columns to parse from file"]
          (Some sample_table)).
Proof.
  exact (unreadable_file_keeps_the_upload
           (app (constant_model "Food") 0%Z)
           (ValueError "No columns to parse from file") sample_table
           (fun d => d) false (mkWorld tt [] [] (Some sample_table)) eq_refl).
Defined.
